(** * Bitbucket Server scaffolder actions: a shallow embedding

    The TypeScript sources embedded here are the five Bitbucket Server
    scaffolder actions of the backstage scaffolder backend and the helper
    module they share:

    - [bitbucketServerUtil]         ([getRepoInfo], [getRequiredReviewers]),
    - [bitbucketServer:repo:create] ([createRepository], [performEnableLFS]),
    - [publish:bitbucketServer:repo:clone] (its own [getRepoInfo]),
    - [publish:bitbucketServer:push] ([getRepositoryRemoteUrl]),
    - [bitbucketServer:branch:push],
    - [bitbucketServer:pullRequest:open] ([getReviewers], [createPullRequest]).

    Asynchronous functions become computations in a state-and-exception
    monad over a [World] that records every outbound HTTP request, git
    call, log line and action output; the remote server and the git
    capability are oracles carried by the world. *)

From Stdlib Require Import String Ascii List ZArith Bool Lia DecimalString.
Import ListNotations.
Set Warnings "-register-all".
Local Open Scope string_scope.
Local Open Scope Z_scope.

(** ** JavaScript values

    The values that [response.json()] can produce, plus [undefined].
    Numbers are integers: the code never computes with them, it only
    compares statuses, counts array elements and prints identifiers.
    Strings are strings of bytes. *)

Inductive jsval : Type :=
| VUndef
| VNull
| VBool (b : bool)
| VNum (n : Z)
| VStr (s : string)
| VArr (items : list jsval)
| VObj (fields : list (string * jsval)).

(** Thrown values.  [Error] is the plain [new Error(msg)], [InputError] is
    the one of [@backstage/errors], [TypeError] is raised by the runtime on
    a bad property access or iteration, [FetchError] by the HTTP client. *)
Inductive jsError : Type :=
| Error (message : string)
| InputError (message : string)
| TypeError (message : string)
| FetchError (message : string).

Inductive result (A : Type) : Type :=
| Ok (a : A)
| Throw (e : jsError).
Arguments Ok {A} a.
Arguments Throw {A} e.

Definition rbind {A B} (r : result A) (k : A -> result B) : result B :=
  match r with
  | Ok a => k a
  | Throw e => Throw e
  end.

Notation "'let?' x ':=' c 'in' k" := (rbind c (fun x => k))
  (at level 10, x name, c at level 100, k at level 200).

(** [try { c } catch (e) { h e }] for code without side effects. *)
Definition rcatch {A} (c : result A) (h : jsError -> result A) : result A :=
  match c with
  | Ok a => Ok a
  | Throw e => h e
  end.

(** ** Strings *)

Definition num_toString (n : Z) : string := NilZero.string_of_int (Z.to_int n).

(** [Error.prototype.toString]: the name, then the message when there is one. *)
Definition error_name (e : jsError) : string :=
  match e with
  | Error _ => "Error"
  | InputError _ => "InputError"
  | TypeError _ => "TypeError"
  | FetchError _ => "FetchError"
  end.

Definition error_message (e : jsError) : string :=
  match e with
  | Error m | InputError m | TypeError m | FetchError m => m
  end.

Definition error_toString (e : jsError) : string :=
  if String.eqb (error_message e) "" then error_name e
  else error_name e ++ ": " ++ error_message e.

Fixpoint join (sep : string) (l : list string) : string :=
  match l with
  | [] => ""
  | [x] => x
  | x :: rest => x ++ sep ++ join sep rest
  end.

(** [ToString], as a template literal applies it. *)
Fixpoint toString (v : jsval) : string :=
  match v with
  | VUndef => "undefined"
  | VNull => "null"
  | VBool true => "true"
  | VBool false => "false"
  | VNum n => num_toString n
  | VStr s => s
  | VArr items =>
      join ","
        ((fix elems (l : list jsval) : list string :=
            match l with
            | [] => []
            | VUndef :: rest => "" :: elems rest
            | VNull :: rest => "" :: elems rest
            | x :: rest => toString x :: elems rest
            end) items)
  | VObj _ => "[object Object]"
  end.

Definition hex_digit (n : nat) : ascii :=
  nth n (list_ascii_of_string "0123456789ABCDEF") "0"%char.

Definition hex_byte (c : ascii) : string :=
  let n := nat_of_ascii c in
  String (hex_digit (Nat.div n 16)) (String (hex_digit (Nat.modulo n 16)) "").

Definition lower_hex (s : string) : string :=
  string_of_list_ascii
    (map (fun c =>
            let n := nat_of_ascii c in
            if andb (Nat.leb 65 n) (Nat.leb n 70) then ascii_of_nat (n + 32) else c)
         (list_ascii_of_string s)).

(** [JSON.stringify] quoting of a string: the two-character escapes, and
    [\u00xx] for the other control characters. *)
Definition json_escape_char (c : ascii) : string :=
  let n := nat_of_ascii c in
  if Nat.eqb n 34 then "\" ++ String c ""
  else if Nat.eqb n 92 then "\\"
  else if Nat.eqb n 8 then "\b"
  else if Nat.eqb n 12 then "\f"
  else if Nat.eqb n 10 then "\n"
  else if Nat.eqb n 13 then "\r"
  else if Nat.eqb n 9 then "\t"
  else if Nat.ltb n 32 then "\u" ++ "00" ++ lower_hex (hex_byte c)
  else String c "".

Definition json_quote (s : string) : string :=
  String (ascii_of_nat 34)
    (String.concat "" (map json_escape_char (list_ascii_of_string s)))
  ++ String (ascii_of_nat 34) "".

(** [JSON.stringify] without indentation.  A member whose value is
    [undefined] is left out of an object and printed [null] in an array. *)
Fixpoint JSON_stringify (v : jsval) : string :=
  match v with
  | VUndef => "undefined"
  | VNull => "null"
  | VBool true => "true"
  | VBool false => "false"
  | VNum n => num_toString n
  | VStr s => json_quote s
  | VArr items =>
      "[" ++
      join ","
        ((fix elems (l : list jsval) : list string :=
            match l with
            | [] => []
            | VUndef :: rest => "null" :: elems rest
            | x :: rest => JSON_stringify x :: elems rest
            end) items)
      ++ "]"
  | VObj fields =>
      "{" ++
      join ","
        ((fix members (l : list (string * jsval)) : list string :=
            match l with
            | [] => []
            | (_, VUndef) :: rest => members rest
            | (k, x) :: rest =>
                (json_quote k ++ ":" ++ JSON_stringify x) :: members rest
            end) fields)
      ++ "}"
  end.


(** ** Property access, indexing and iteration

    The error texts are those of the Node runtime; no statement below
    depends on their wording. *)

Fixpoint lookup (k : string) (fields : list (string * jsval)) : option jsval :=
  match fields with
  | [] => None
  | (k', x) :: rest => if String.eqb k' k then Some x else lookup k rest
  end.

Definition chars (s : string) : list jsval :=
  map (fun c => VStr (String c "")) (list_ascii_of_string s).

(** [v.k] for the property names the sources read. *)
Definition prop (v : jsval) (k : string) : result jsval :=
  match v with
  | VUndef =>
      Throw (TypeError ("Cannot read properties of undefined (reading '" ++ k ++ "')"))
  | VNull =>
      Throw (TypeError ("Cannot read properties of null (reading '" ++ k ++ "')"))
  | VObj fields =>
      Ok (match lookup k fields with Some x => x | None => VUndef end)
  | VArr items =>
      Ok (if String.eqb k "length" then VNum (Z.of_nat (length items)) else VUndef)
  | VStr s =>
      Ok (if String.eqb k "length" then VNum (Z.of_nat (String.length s)) else VUndef)
  | VBool _ | VNum _ => Ok VUndef
  end.

(** [v[i]] for a non-negative integer [i]. *)
Definition index (v : jsval) (i : nat) : result jsval :=
  let key := num_toString (Z.of_nat i) in
  match v with
  | VUndef | VNull => prop v key
  | VArr items => Ok (nth i items VUndef)
  | VStr s => Ok (nth i (chars s) VUndef)
  | VObj fields => prop v key
  | VBool _ | VNum _ => Ok VUndef
  end.

(** [v.k1.k2...], a chain of property reads. *)
Fixpoint props (v : jsval) (path : list string) : result jsval :=
  match path with
  | [] => Ok v
  | k :: rest => let? x := prop v k in props x rest
  end.

(** The elements a [for (const x of v)] loop visits. *)
Definition iterate (v : jsval) : result (list jsval) :=
  match v with
  | VArr items => Ok items
  | VStr s => Ok (chars s)
  | _ => Throw (TypeError (toString v ++ " is not iterable"))
  end.

(** [v === s] for a string literal [s]. *)
Definition strict_eq_str (v : jsval) (s : string) : bool :=
  match v with
  | VStr t => String.eqb t s
  | _ => false
  end.

(** Truthiness of an optional string: [undefined] and [''] are falsy. *)
Definition truthy (o : option string) : bool :=
  match o with
  | Some s => negb (String.eqb s "")
  | None => false
  end.

(** Every array is truthy, the empty one included. *)
Definition truthy_array {A} (l : list A) : bool := true.

(** [a ?? b] *)
Definition nullish {A} (a : option A) (b : option A) : option A :=
  match a with
  | Some x => Some x
  | None => b
  end.

(** A destructuring default, [const { x = d } = ...]. *)
Definition default {A} (d : A) (a : option A) : A :=
  match a with
  | Some x => x
  | None => d
  end.

Definition is_space (c : ascii) : bool :=
  let n := nat_of_ascii c in
  orb (Nat.eqb n 32) (andb (Nat.leb 9 n) (Nat.leb n 13)).

Fixpoint drop_spaces (l : list ascii) : list ascii :=
  match l with
  | c :: rest => if is_space c then drop_spaces rest else l
  | [] => []
  end.

Fixpoint digits_value (acc : Z) (l : list ascii) : option Z :=
  match l with
  | [] => Some acc
  | c :: rest =>
      let n := nat_of_ascii c in
      if andb (Nat.leb 48 n) (Nat.leb n 57)
      then digits_value (10 * acc + Z.of_nat (n - 48)) rest
      else None
  end.

(** [ToNumber] of a string, [None] standing for [NaN]: surrounding white
    space is dropped, the empty string is [0], an optionally signed run of
    decimal digits is its value.  Other numeric spellings (fractions,
    exponents, radix prefixes, [Infinity]) are read as [NaN] here. *)
Definition string_toNumber (s : string) : option Z :=
  let l := rev (drop_spaces (rev (drop_spaces (list_ascii_of_string s)))) in
  match l with
  | [] => Some 0
  | "+"%char :: (_ :: _) as ds => digits_value 0 ds
  | "-"%char :: (_ :: _) as ds => option_map Z.opp (digits_value 0 ds)
  | "+"%char :: [] | "-"%char :: [] => None
  | ds => digits_value 0 ds
  end.

(** [ToNumber], [None] standing for [NaN]. *)
Definition toNumber (v : jsval) : option Z :=
  match v with
  | VUndef => None
  | VNull => Some 0
  | VBool b => Some (if b then 1 else 0)
  | VNum n => Some n
  | VStr s => string_toNumber s
  | VArr _ => string_toNumber (toString v)
  | VObj _ => None
  end.

(** How often [for (i = 0; i < len; i++)] runs its body. *)
Definition iterations (len : jsval) : nat :=
  match toNumber len with
  | Some n => Z.to_nat n
  | None => O
  end.

(** ** The world of one invocation *)

Record Request : Type := {
  method : string;
  url : string;
  headers : list (string * string);
  body : option string
}.

(** What the code reads of a [Response]: [text] is [await response.text()],
    [json] is [await response.json()], which throws on a body that does not
    parse. *)
Record Response : Type := {
  status : Z;
  statusText : string;
  text : string;
  json : result jsval
}.

Definition ok (r : Response) : bool := andb (200 <=? status r) (status r <? 300).

Inductive FetchOutcome : Type :=
| Responded (r : Response)
| Rejected (e : jsError).

Inductive GitAuth : Type :=
| TokenAuth (token : string)
| BasicAuth (username password : option string).

Record GitAuthorInfo : Type := {
  author_name : option string;
  author_email : option string
}.

Record InitRepoAndPushArgs : Type := {
  push_dir : string;
  push_remoteUrl : jsval;
  push_auth : GitAuth;
  push_defaultBranch : string;
  push_commitMessage : option string;
  push_gitAuthorInfo : GitAuthorInfo
}.

(** Calls into the git capability ([initRepoAndPush] of [../helpers] and the
    [Git] client of [@backstage/backend-common]). *)
Inductive GitCall : Type :=
| InitRepoAndPush (a : InitRepoAndPushArgs)
| GitClone (auth : GitAuth) (clone_url : jsval) (dir ref : string)
| GitBranch (auth : GitAuth) (dir ref : string)
| GitCheckout (auth : GitAuth) (dir ref : string).

(** The server answers a request knowing the requests made before it, and
    so does the git capability; its answer is the commit hash, if any. *)
Record World : Type := {
  server : list Request -> Request -> FetchOutcome;
  gitRemote : list GitCall -> GitCall -> result (option string);
  requests : list Request;
  gitCalls : list GitCall;
  logged : list string;
  outputs : list (string * jsval)
}.

Definition M (A : Type) : Type := World -> result A * World.

Definition ret {A} (a : A) : M A := fun w => (Ok a, w).

Definition throw {A} (e : jsError) : M A := fun w => (Throw e, w).

Definition bind {A B} (c : M A) (k : A -> M B) : M B :=
  fun w =>
    match c w with
    | (Ok a, w') => k a w'
    | (Throw e, w') => (Throw e, w')
    end.

Notation "x <- c ;; k" := (bind c (fun x => k))
  (at level 61, c at next level, right associativity).
Notation "c ;;; k" := (bind c (fun _ => k))
  (at level 61, right associativity).

Definition liftR {A} (r : result A) : M A := fun w => (r, w).

(** [try { c } catch (e) { h e }] *)
Definition tryCatch {A} (c : M A) (h : jsError -> M A) : M A :=
  fun w =>
    match c w with
    | (Ok a, w') => (Ok a, w')
    | (Throw e, w') => h e w'
    end.

(** [await fetch(url, options)] *)
Definition fetch (req : Request) : M Response :=
  fun w =>
    let w' := {| server := server w; gitRemote := gitRemote w;
                 requests := requests w ++ [req]; gitCalls := gitCalls w;
                 logged := logged w; outputs := outputs w |} in
    match server w (requests w) req with
    | Responded r => (Ok r, w')
    | Rejected e => (Throw e, w')
    end.

Definition git (c : GitCall) : M (option string) :=
  fun w =>
    (gitRemote w (gitCalls w) c,
     {| server := server w; gitRemote := gitRemote w;
        requests := requests w; gitCalls := gitCalls w ++ [c];
        logged := logged w; outputs := outputs w |}).

(** [logger.info(line)] *)
Definition logger_info (line : string) : M unit :=
  fun w =>
    (Ok tt,
     {| server := server w; gitRemote := gitRemote w;
        requests := requests w; gitCalls := gitCalls w;
        logged := logged w ++ [line]; outputs := outputs w |}).

(** [ctx.output(name, value)] *)
Definition ctx_output (name : string) (value : jsval) : M unit :=
  fun w =>
    (Ok tt,
     {| server := server w; gitRemote := gitRemote w;
        requests := requests w; gitCalls := gitCalls w;
        logged := logged w; outputs := outputs w ++ [(name, value)] |}).

Definition json_headers (authorization : string) : list (string * string) :=
  [("Authorization", authorization); ("Content-Type", "application/json")].

(** [GET ${apiBaseUrl}/projects/${project}/repos/${repo}], the request of
    every repository lookup. *)
Definition repoRequest (project repo authorization apiBaseUrl : string) : Request :=
  {| method := "GET";
     url := apiBaseUrl ++ "/projects/" ++ project ++ "/repos/" ++ repo;
     headers := json_headers authorization;
     body := None |}.

(** The loop shared by every reader of a repository record:
    [for (const link of links) if (link.name === 'http') remoteUrl = link.href]. *)
Fixpoint scanCloneLinks (links : list jsval) (remoteUrl : jsval) : result jsval :=
  match links with
  | [] => Ok remoteUrl
  | link :: rest =>
      let? name := prop link "name" in
      if strict_eq_str name "http"
      then let? href := prop link "href" in scanCloneLinks rest href
      else scanCloneLinks rest remoteUrl
  end.

(** [s.replace(pat, rep)] for string arguments: the first occurrence only. *)
Fixpoint replace_first (pat rep s : string) : string :=
  if String.prefix pat s
  then rep ++ substring (String.length pat) (String.length s - String.length pat) s
  else match s with
       | EmptyString => EmptyString
       | String c rest => String c (replace_first pat rep rest)
       end.

(** The [application/x-www-form-urlencoded] serializer that
    [URLSearchParams] prints with. *)
Definition form_encode_char (c : ascii) : string :=
  let n := nat_of_ascii c in
  if orb (orb (andb (Nat.leb 48 n) (Nat.leb n 57))
              (orb (andb (Nat.leb 65 n) (Nat.leb n 90))
                   (andb (Nat.leb 97 n) (Nat.leb n 122))))
         (orb (orb (Nat.eqb n 42) (Nat.eqb n 45)) (orb (Nat.eqb n 46) (Nat.eqb n 95)))
  then String c ""
  else if Nat.eqb n 32 then "+"
  else "%" ++ hex_byte c.

Definition form_encode (s : string) : string :=
  String.concat "" (map form_encode_char (list_ascii_of_string s)).

Definition URLSearchParams (params : list (string * string)) : string :=
  join "&" (map (fun kv => form_encode (fst kv) ++ "=" ++ form_encode (snd kv)) params).

(** ** bitbucketServerUtil *)

Record RepoInfo : Type := {
  remoteUrl : jsval;
  repoContentsUrl : string;
  repoId : jsval
}.

(** The lines that read a repository record [r] off a response, the
    same in [getRepoInfo] and in [createRepository]. *)
Definition readRepoInfo (r : jsval) : result RepoInfo :=
  let? repoId := prop r "id" in
  let? clone := props r ["links"; "clone"] in
  let? items := iterate clone in
  let? remoteUrl := scanCloneLinks items (VStr "") in
  let? self := props r ["links"; "self"] in
  let? first := index self 0 in
  let? href := prop first "href" in
  let repoContentsUrl := toString href in
  Ok {| remoteUrl := remoteUrl;
        repoContentsUrl := repoContentsUrl;
        repoId := repoId |}.

Module Util.

Definition getRepoInfo (project repo authorization apiBaseUrl : string) : M RepoInfo :=
  let options := repoRequest project repo authorization apiBaseUrl in
  response <-
    tryCatch (fetch options)
      (fun e => throw (Error ("Unable to get repository details, " ++ error_toString e))) ;;
  if negb (status response =? 200) then
    throw (Error ("Unable to get repository details, "
                  ++ num_toString (status response) ++ " "
                  ++ statusText response ++ ", " ++ text response))
  else
    r <- liftR (json response) ;;
    liftR (readRepoInfo r).

Definition getRequiredReviewers
    (projectKey repositorySlug : string) (sourceRepoId : jsval)
    (sourceRefId : string) (targetRepoId : jsval) (targetRefId : option string)
    (authorization apiBaseUrl : string) : M jsval :=
  let targetRefId := default "refs/heads/master" targetRefId in
  let modifiedApiBaseUrl := replace_first "api" "default-reviewers" apiBaseUrl in
  let params :=
    [("sourceRepoId", toString sourceRepoId);
     ("sourceRefId", sourceRefId);
     ("targetRepoId", toString targetRepoId);
     ("targetRefId", targetRefId)] in
  let options :=
    {| method := "GET";
       url := modifiedApiBaseUrl ++ "/projects/" ++ projectKey ++ "/repos/"
              ++ repositorySlug ++ "/reviewers" ++ "?" ++ URLSearchParams params;
       headers := json_headers authorization;
       body := None |} in
  response <-
    tryCatch (fetch options)
      (fun e => throw (Error ("Unable to get default reviewers, " ++ error_toString e))) ;;
  if negb (status response =? 200) then
    throw (Error ("Unable to get default reviewers, "
                  ++ num_toString (status response) ++ " "
                  ++ statusText response ++ ", " ++ text response))
  else
    requiredReviewers <- liftR (json response) ;;
    ret requiredReviewers.

End Util.

(** ** What the actions import and are configured with

    [parseRepoUrl] and [getRepoSourceDirectory] live in [../publish/util],
    [getBitbucketServerRequestOptions] and the integration types in
    [@backstage/integration]; the actions are stated for every such
    function.  [getBitbucketServerRequestOptions] is represented by the
    [Authorization] header of the options it returns. *)

Record RepoSpec : Type := {
  host : string;
  project : option string;
  repo : string
}.

Record BitbucketServerIntegrationConfig : Type := {
  cfg_host : string;
  cfg_apiBaseUrl : string;
  cfg_token : option string;
  cfg_username : option string;
  cfg_password : option string
}.

(** [integrations.bitbucketServer.byHost(host)?.config] *)
Record ScmIntegrationRegistry : Type := {
  byHost : string -> option BitbucketServerIntegrationConfig
}.

Record Config : Type := {
  getOptionalString : string -> result (option string)
}.

Record Options : Type := {
  integrations : ScmIntegrationRegistry;
  config : Config
}.

Record Imports : Type := {
  parseRepoUrl : string -> ScmIntegrationRegistry -> result RepoSpec;
  getBitbucketServerRequestOptions : BitbucketServerIntegrationConfig -> option string;
  getRepoSourceDirectory : string -> option string -> result string
}.

Record Ctx (Input : Type) : Type := {
  input : Input;
  workspacePath : string
}.
Arguments input {Input} c.
Arguments workspacePath {Input} c.

(** [{ ...integrationConfig.config, ...{ token } }] *)
Definition with_token (c : BitbucketServerIntegrationConfig) (token : option string)
  : BitbucketServerIntegrationConfig :=
  {| cfg_host := cfg_host c;
     cfg_apiBaseUrl := cfg_apiBaseUrl c;
     cfg_token := token;
     cfg_username := cfg_username c;
     cfg_password := cfg_password c |}.

(** [authConfig.token ? { token } : { username, password }] *)
Definition gitAuth (authConfig : BitbucketServerIntegrationConfig) : GitAuth :=
  if truthy (cfg_token authConfig)
  then TokenAuth (default "" (cfg_token authConfig))
  else BasicAuth (cfg_username authConfig) (cfg_password authConfig).

Definition missingProject (repoUrl : string) : jsError :=
  InputError ("Invalid URL provider was included in the repo URL to create "
              ++ repoUrl ++ ", missing project").

Definition noIntegration (host : string) : jsError :=
  InputError ("No matching integration configuration for host " ++ host
              ++ ", please check your integrations config").

Definition noAuthorization (host : string) : jsError :=
  Error ("Authorization has not been provided for " ++ host
         ++ ". Please add either (a) a user login auth token, or (b) a token or (c) username + password to the integration config.").

(** [x ? x : config.getOptionalString(key)] *)
Definition orConfigured (config : Config) (x : option string) (key : string)
  : M (option string) :=
  if truthy x then ret x else liftR (getOptionalString config key).

Definition commitHashOf (commitResult : option string) : jsval :=
  match commitResult with
  | Some h => VStr h
  | None => VUndef
  end.

(** What every handler has in hand once its opening lines have run. *)
Record Resolved : Type := {
  r_project : string;
  r_repo : string;
  r_host : string;
  r_integrationConfig : BitbucketServerIntegrationConfig;
  r_token : option string;
  r_authConfig : BitbucketServerIntegrationConfig;
  r_authorization : string
}.

(** The opening lines of every handler, the same text in all five: parse
    the location, require a project, find the integration, resolve the
    token and the [Authorization] header. *)
Definition resolveRepository (imp : Imports) (options : Options)
    (repoUrl : string) (inputToken : option string) : M Resolved :=
  spec <- liftR (parseRepoUrl imp repoUrl (integrations options)) ;;
  if negb (truthy (project spec)) then throw (missingProject repoUrl)
  else
    match byHost (integrations options) (host spec) with
    | None => throw (noIntegration (host spec))
    | Some integrationConfig =>
        let token := nullish inputToken (cfg_token integrationConfig) in
        let authConfig := with_token integrationConfig token in
        let authorization := getBitbucketServerRequestOptions imp authConfig in
        if negb (truthy authorization)
        then throw (noAuthorization (cfg_host integrationConfig))
        else
          ret {| r_project := default "" (project spec);
                 r_repo := repo spec;
                 r_host := host spec;
                 r_integrationConfig := integrationConfig;
                 r_token := token;
                 r_authConfig := authConfig;
                 r_authorization := default "" authorization |}
    end.

(** ** publish:bitbucketServer:push *)

Module PublishPush.

Record Input : Type := {
  repoUrl : string;
  targetBranch : option string;
  sourcePath : option string;
  token : option string;
  gitCommitMessage : option string;
  gitAuthorName : option string;
  gitAuthorEmail : option string
}.

(** The schema's description of [targetBranch]. *)
Definition targetBranch_description : string :=
  "Sets the target branch for the pull request. The default value is 'master'".

Definition getRepositoryRemoteUrl (project repo authorization apiBaseUrl : string)
  : M jsval :=
  let options := repoRequest project repo authorization apiBaseUrl in
  response <-
    tryCatch (fetch options)
      (fun e => throw (Error ("Unable to get repository details, " ++ error_toString e))) ;;
  if negb (status response =? 200) then
    throw (Error ("Unable to get repository details, "
                  ++ num_toString (status response) ++ " "
                  ++ statusText response ++ ", " ++ text response))
  else
    r <- liftR (json response) ;;
    liftR
      (let? clone := props r ["links"; "clone"] in
       let? items := iterate clone in
       scanCloneLinks items (VStr "")).

Definition createPublishBitbucketServerPushAction (imp : Imports) (options : Options)
    (ctx : Ctx Input) : M unit :=
  let repoUrl := repoUrl (input ctx) in
  let targetBranch := default "backstage/update" (targetBranch (input ctx)) in
  let gitCommitMessage := default "commit by backstage" (gitCommitMessage (input ctx)) in
  let gitAuthorName := gitAuthorName (input ctx) in
  let gitAuthorEmail := gitAuthorEmail (input ctx) in
  rr <- resolveRepository imp options repoUrl (token (input ctx)) ;;
  let apiBaseUrl := cfg_apiBaseUrl (r_integrationConfig rr) in
  name <- orConfigured (config options) gitAuthorName "scaffolder.defaultAuthor.name" ;;
  email <- orConfigured (config options) gitAuthorEmail "scaffolder.defaultAuthor.email" ;;
  let gitAuthorInfo := {| author_name := name; author_email := email |} in
  let auth := gitAuth (r_authConfig rr) in
  remoteUrl <-
    getRepositoryRemoteUrl (r_project rr) (r_repo rr) (r_authorization rr) apiBaseUrl ;;
  dir <- liftR (getRepoSourceDirectory imp (workspacePath ctx) (sourcePath (input ctx))) ;;
  commitMessage <-
    orConfigured (config options) (Some gitCommitMessage) "scaffolder.defaultCommitMessage" ;;
  commitResult <-
    git (InitRepoAndPush
           {| push_dir := dir;
              push_remoteUrl := remoteUrl;
              push_auth := auth;
              push_defaultBranch := targetBranch;
              push_commitMessage := commitMessage;
              push_gitAuthorInfo := gitAuthorInfo |}) ;;
  ctx_output "commitHash" (commitHashOf commitResult) ;;;
  ctx_output "remoteUrl" remoteUrl.

End PublishPush.

(** ** bitbucketServer:branch:push *)

Module BranchPush.

Record Input : Type := {
  repoUrl : string;
  branch : string;
  sourcePath : option string;
  token : option string;
  gitCommitMessage : option string;
  gitAuthorName : option string;
  gitAuthorEmail : option string
}.

Definition createBitbucketServerBranchPushAction (imp : Imports) (options : Options)
    (ctx : Ctx Input) : M unit :=
  let repoUrl := repoUrl (input ctx) in
  let branch := branch (input ctx) in
  let gitCommitMessage :=
    default "init commit by backstage" (gitCommitMessage (input ctx)) in
  let gitAuthorName := gitAuthorName (input ctx) in
  let gitAuthorEmail := gitAuthorEmail (input ctx) in
  rr <- resolveRepository imp options repoUrl (token (input ctx)) ;;
  let apiBaseUrl := cfg_apiBaseUrl (r_integrationConfig rr) in
  name <- orConfigured (config options) gitAuthorName "scaffolder.defaultAuthor.name" ;;
  email <- orConfigured (config options) gitAuthorEmail "scaffolder.defaultAuthor.email" ;;
  let gitAuthorInfo := {| author_name := name; author_email := email |} in
  let auth := gitAuth (r_authConfig rr) in
  info <- Util.getRepoInfo (r_project rr) (r_repo rr) (r_authorization rr) apiBaseUrl ;;
  dir <- liftR (getRepoSourceDirectory imp (workspacePath ctx) (sourcePath (input ctx))) ;;
  commitMessage <-
    orConfigured (config options) (Some gitCommitMessage) "scaffolder.defaultCommitMessage" ;;
  commitResult <-
    git (InitRepoAndPush
           {| push_dir := dir;
              push_remoteUrl := remoteUrl info;
              push_auth := auth;
              push_defaultBranch := branch;
              push_commitMessage := commitMessage;
              push_gitAuthorInfo := gitAuthorInfo |}) ;;
  ctx_output "commitHash" (commitHashOf commitResult) ;;;
  ctx_output "remoteUrl" (remoteUrl info).

End BranchPush.

(** ** publish:bitbucketServer:repo:clone *)

Module RepoClone.

Record Input : Type := {
  repoUrl : string;
  baseBranch : option string;
  checkoutBranch : string;
  clonePath : option string;
  token : option string
}.

Record RepoLinks : Type := {
  remoteUrl : jsval;
  repoContentsUrl : string
}.

(** This file's own [getRepoInfo], which reads no identifier. *)
Definition getRepoInfo (project repo authorization apiBaseUrl : string) : M RepoLinks :=
  let options := repoRequest project repo authorization apiBaseUrl in
  response <-
    tryCatch (fetch options)
      (fun e => throw (Error ("Unable to get repository details, " ++ error_toString e))) ;;
  if negb (status response =? 200) then
    throw (Error ("Unable to get repository details, "
                  ++ num_toString (status response) ++ " "
                  ++ statusText response ++ ", " ++ text response))
  else
    r <- liftR (json response) ;;
    liftR
      (let? clone := props r ["links"; "clone"] in
       let? items := iterate clone in
       let? remoteUrl := scanCloneLinks items (VStr "") in
       let? self := props r ["links"; "self"] in
       let? first := index self 0 in
       let? href := prop first "href" in
       let repoContentsUrl := toString href in
       Ok {| remoteUrl := remoteUrl; repoContentsUrl := repoContentsUrl |}).

Definition createPublishBitbucketServerRepoCloneAction (imp : Imports)
    (options : Options) (ctx : Ctx Input) : M unit :=
  let repoUrl := repoUrl (input ctx) in
  let baseBranch := default "master" (baseBranch (input ctx)) in
  let checkoutBranch := checkoutBranch (input ctx) in
  let clonePath := default (workspacePath ctx) (clonePath (input ctx)) in
  rr <- resolveRepository imp options repoUrl (token (input ctx)) ;;
  let apiBaseUrl := cfg_apiBaseUrl (r_integrationConfig rr) in
  let auth := gitAuth (r_authConfig rr) in
  info <- getRepoInfo (r_project rr) (r_repo rr) (r_authorization rr) apiBaseUrl ;;
  git (GitClone auth (remoteUrl info) clonePath baseBranch) ;;;
  git (GitBranch auth clonePath checkoutBranch) ;;;
  git (GitCheckout auth clonePath checkoutBranch) ;;;
  ctx_output "remoteUrl" (remoteUrl info) ;;;
  ctx_output "repoContentsUrl" (VStr (repoContentsUrl info)) ;;;
  ctx_output "clonePath" (VStr clonePath).

End RepoClone.

(** ** bitbucketServer:repo:create *)

Module RepoCreate.

Inductive Visibility : Type := Private | Public.

Definition is_public (v : Visibility) : bool :=
  match v with
  | Public => true
  | Private => false
  end.

Record Input : Type := {
  repoUrl : string;
  description : option string;
  defaultBranch : option string;
  repoVisibility : option Visibility;
  enableLFS : option bool;
  token : option string
}.

Definition optional_string (o : option string) : jsval :=
  match o with
  | Some s => VStr s
  | None => VUndef
  end.

Definition createRequest (project repo : string) (description : option string)
    (repoVisibility : Visibility) (defaultBranch authorization apiBaseUrl : string)
  : Request :=
  {| method := "POST";
     url := apiBaseUrl ++ "/projects/" ++ project ++ "/repos";
     headers := json_headers authorization;
     body :=
       Some (JSON_stringify
               (VObj [("name", VStr repo);
                      ("description", optional_string description);
                      ("defaultBranch", VStr defaultBranch);
                      ("public", VBool (is_public repoVisibility))])) |}.

Definition createRepository (project repo : string) (description : option string)
    (repoVisibility : Visibility) (defaultBranch authorization apiBaseUrl : string)
  : M RepoInfo :=
  let options :=
    createRequest project repo description repoVisibility defaultBranch
      authorization apiBaseUrl in
  response <-
    tryCatch (fetch options)
      (fun e => throw (Error ("Unable to create repository, " ++ error_toString e))) ;;
  if status response =? 409 then
    logger_info ("A repository with name(" ++ repo ++ ") already exists.") ;;;
    Util.getRepoInfo project repo authorization apiBaseUrl
  else if andb (negb (status response =? 201)) (negb (status response =? 409)) then
    throw (Error ("Unable to create repository, "
                  ++ num_toString (status response) ++ " "
                  ++ statusText response ++ ", " ++ text response))
  else
    r <- liftR (json response) ;;
    liftR (readRepoInfo r).

Definition lfsRequest (authorization host project repo : string) : Request :=
  {| method := "PUT";
     url := "https://" ++ host ++ "/rest/git-lfs/admin/projects/" ++ project
            ++ "/repos/" ++ repo ++ "/enabled";
     headers := [("Authorization", authorization)];
     body := None |}.

Definition performEnableLFS (authorization host project repo : string) : M unit :=
  let options := lfsRequest authorization host project repo in
  response <- fetch options ;;
  if negb (ok response) then
    throw (Error ("Failed to enable LFS in the repository, "
                  ++ num_toString (status response) ++ ": " ++ statusText response))
  else ret tt.

Definition createBitbucketServerRepoCreateAction (imp : Imports) (options : Options)
    (ctx : Ctx Input) : M unit :=
  let repoUrl := repoUrl (input ctx) in
  let description := description (input ctx) in
  let defaultBranch := default "master" (defaultBranch (input ctx)) in
  let repoVisibility := default Private (repoVisibility (input ctx)) in
  let enableLFS := default false (enableLFS (input ctx)) in
  rr <- resolveRepository imp options repoUrl (token (input ctx)) ;;
  let apiBaseUrl := cfg_apiBaseUrl (r_integrationConfig rr) in
  info <-
    createRepository (r_project rr) (r_repo rr) description repoVisibility
      defaultBranch (r_authorization rr) apiBaseUrl ;;
  (if enableLFS
   then performEnableLFS (r_authorization rr) (r_host rr) (r_project rr) (r_repo rr)
   else ret tt) ;;;
  ctx_output "remoteUrl" (remoteUrl info) ;;;
  ctx_output "repoContentsUrl" (VStr (repoContentsUrl info)) ;;;
  ctx_output "repoId" (repoId info).

End RepoCreate.

(** ** bitbucketServer:pullRequest:open *)

Module PullRequest.

Record Input : Type := {
  repoUrl : string;
  title : string;
  description : string;
  sourceBranch : string;
  targetBranch : string;
  reviewers : option (list string);
  sourcePath : option string;
  token : option string
}.

(** [{ user: { name } }] *)
Record User : Type := { user_name : jsval }.

Definition User_json (u : User) : jsval :=
  VObj [("user", VObj [("name", user_name u)])].

(** [requiredUsers.includes(user)] *)
Definition includes (requiredUsers : list jsval) (user : string) : bool :=
  existsb (fun x => strict_eq_str x user) requiredUsers.

(** The first loop of [getReviewers], with [n] rounds left to run. *)
Fixpoint requiredLoop (n : nat) (_index : nat) (requiredReviewers : jsval)
    (requiredUsers : list jsval) (reviewers : list User)
  : result (list jsval * list User) :=
  match n with
  | O => Ok (requiredUsers, reviewers)
  | S n' =>
      let? item := index requiredReviewers _index in
      let? name := prop item "name" in
      requiredLoop n' (S _index) requiredReviewers
        (requiredUsers ++ [name]) (reviewers ++ [{| user_name := name |}])
  end.

(** The second loop of [getReviewers]. *)
Fixpoint requestedLoop (users : list string) (requiredUsers : list jsval)
    (reviewers : list User) : list User :=
  match users with
  | [] => reviewers
  | user :: rest =>
      if includes requiredUsers user
      then requestedLoop rest requiredUsers reviewers
      else requestedLoop rest requiredUsers (reviewers ++ [{| user_name := VStr user |}])
  end.

(** The [logger] option is not used by the function and is left out. *)
Definition getReviewers (users : list string) (requiredReviewers : jsval)
  : result (list User) :=
  let? len := prop requiredReviewers "length" in
  let? both := requiredLoop (iterations len) 0 requiredReviewers [] [] in
  Ok (requestedLoop users (fst both) (snd both)).

Record PullRequestResult : Type := {
  pr_remoteUrl : jsval;
  prUrl : jsval
}.

Definition refJson (project repo branch : string) : jsval :=
  VObj [("repository",
         VObj [("slug", VStr repo); ("project", VObj [("key", VStr project)])]);
        ("id", VStr ("refs/heads/" ++ branch));
        ("type", VStr "BRANCH")].

Definition pullRequestRequest (title : string) (description : option string)
    (project repo sourceBranch targetBranch : string) (reviewersObject : jsval)
    (authorization apiBaseUrl : string) : Request :=
  {| method := "POST";
     url := apiBaseUrl ++ "/projects/" ++ project ++ "/repos/" ++ repo
            ++ "/pull-requests";
     headers := json_headers authorization;
     body :=
       Some (JSON_stringify
               (VObj [("title", VStr title);
                      ("description", VStr (default title description));
                      ("reviewers", reviewersObject);
                      ("fromRef", refJson project repo sourceBranch);
                      ("toRef", refJson project repo targetBranch)])) |}.

(** What [createPullRequest] does with a 201 response body [r]. *)
Definition readPullRequest (r : jsval) : result PullRequestResult :=
  rcatch
    (let? clone := props r ["fromRef"; "repository"; "links"; "clone"] in
     let? items := iterate clone in
     let? remoteUrl := scanCloneLinks items (VStr "") in
     let? self := props r ["links"; "self"] in
     let? first := index self 0 in
     let? prUrl := prop first "href" in
     Ok {| pr_remoteUrl := remoteUrl; prUrl := prUrl |})
    (fun e =>
       Throw (Error ("Unable to create pull request," ++ JSON_stringify r
                     ++ ",  " ++ error_toString e))).

(** [description] is declared a string; the option lets the [??] of the
    request body be read as written. *)
Definition createPullRequest (title : string) (description : option string)
    (project repo sourceBranch targetBranch : string)
    (reviewers : option (list string)) (authorization apiBaseUrl : string)
  : M PullRequestResult :=
  let reviewers := default [] reviewers in
  repoInfo <- Util.getRepoInfo project repo authorization apiBaseUrl ;;
  requiredReviewers <-
    Util.getRequiredReviewers project repo (repoId repoInfo)
      ("refs/heads/" ++ sourceBranch) (repoId repoInfo)
      (Some ("refs/heads/" ++ targetBranch)) authorization apiBaseUrl ;;
  reviewersObject <-
    (if truthy_array reviewers
     then merged <- liftR (getReviewers reviewers requiredReviewers) ;;
          ret (VArr (map User_json merged))
     else ret requiredReviewers) ;;
  let options :=
    pullRequestRequest title description project repo sourceBranch targetBranch
      reviewersObject authorization apiBaseUrl in
  response <-
    tryCatch (fetch options)
      (fun e => throw (Error ("Unable to create pull request, " ++ error_toString e))) ;;
  if negb (status response =? 201) then
    throw (Error ("Unable to create pull request, "
                  ++ num_toString (status response) ++ " "
                  ++ statusText response ++ ", " ++ text response))
  else
    r <- liftR (json response) ;;
    liftR (readPullRequest r).

Definition createBitbucketServerPullRequestOpenAction (imp : Imports)
    (options : Options) (ctx : Ctx Input) : M unit :=
  let repoUrl := repoUrl (input ctx) in
  let title := title (input ctx) in
  let description := description (input ctx) in
  let sourceBranch := sourceBranch (input ctx) in
  let targetBranch := targetBranch (input ctx) in
  let reviewers := default [] (reviewers (input ctx)) in
  rr <- resolveRepository imp options repoUrl (token (input ctx)) ;;
  let apiBaseUrl := cfg_apiBaseUrl (r_integrationConfig rr) in
  logger_info ("Creating pull request {repo: " ++ repoUrl ++ ", sourceBranch: "
               ++ sourceBranch ++ ", targetBranch: " ++ targetBranch) ;;;
  pr <-
    createPullRequest title (Some description) (r_project rr) (r_repo rr)
      sourceBranch targetBranch (Some reviewers) (r_authorization rr) apiBaseUrl ;;
  logger_info ("Created pull request: " ++ toString (prUrl pr)) ;;;
  ctx_output "remoteUrl" (pr_remoteUrl pr) ;;;
  ctx_output "prUrl" (prUrl pr).

End PullRequest.

(** ** Reading a JSON body by path

    [field path v] is the member of [v] at [path], when every step of the
    path is a member of an object; [member k v] is [v.k] where that
    cannot throw. *)

Fixpoint field (path : list string) (v : jsval) : option jsval :=
  match path with
  | [] => Some v
  | k :: rest =>
      match v with
      | VObj fields =>
          match lookup k fields with
          | Some x => field rest x
          | None => None
          end
      | _ => None
      end
  end.

Definition member (k : string) (v : jsval) : jsval :=
  match v with
  | VObj fields => default VUndef (lookup k fields)
  | _ => VUndef
  end.

Definition is_object (v : jsval) : bool :=
  match v with
  | VObj _ => true
  | _ => false
  end.

(** A clone link named ["http"]. *)
Definition is_http_link (link : jsval) : bool :=
  strict_eq_str (member "name" link) "http".

(** The href of the last clone link named ["http"], the empty string when
    there is none. *)
Definition httpHref (links : list jsval) : jsval :=
  match find is_http_link (rev links) with
  | Some link => member "href" link
  | None => VStr ""
  end.

(** The username of a reviewer object as the server sends it. *)
Definition reviewerName (v : jsval) : option string :=
  match v with
  | VObj fields =>
      match lookup "name" fields with
      | Some (VStr n) => Some n
      | _ => None
      end
  | _ => None
  end.

Definition named (n : string) : PullRequest.User :=
  {| PullRequest.user_name := VStr n |}.

(** A requested username that is not the name of a required reviewer. *)
Definition notRequired (names : list string) (user : string) : bool :=
  negb (existsb (String.eqb user) names).

(** [s] occurs in [t]. *)
Definition occursIn (s t : string) : Prop :=
  exists before after, t = before ++ s ++ after.

(** The requests and git calls a computation adds to the world. *)
Definition issued {A} (c : M A) (w : World) : list Request :=
  skipn (length (requests w)) (requests (snd (c w))).

Definition gitIssued {A} (c : M A) (w : World) : list GitCall :=
  skipn (length (gitCalls w)) (gitCalls (snd (c w))).

(** [c] throws [e] having touched nothing: no request, no git call, no
    log line, no output. *)
Definition rejectsBeforeNetwork {A} (c : M A) (e : jsError) (w : World) : Prop :=
  c w = (Throw e, w) /\ issued c w = [] /\ gitIssued c w = [].

(** What a lookup returns, as a function of the server's answer. *)
Definition lookupResult {A} (read : jsval -> result A) (o : FetchOutcome) : result A :=
  match o with
  | Rejected e => Throw (Error ("Unable to get repository details, " ++ error_toString e))
  | Responded response =>
      if status response =? 200
      then let? r := json response in read r
      else Throw (Error ("Unable to get repository details, "
                         ++ num_toString (status response) ++ " "
                         ++ statusText response ++ ", " ++ text response))
  end.

(** ** A sample deployment, for concrete runs *)

Module Sample.

Definition apiBase : string := "https://bitbucket.example.com/rest/api/1.0".

Definition integration : BitbucketServerIntegrationConfig :=
  {| cfg_host := "bitbucket.example.com";
     cfg_apiBaseUrl := apiBase;
     cfg_token := Some "configured-token";
     cfg_username := Some "svc-user";
     cfg_password := Some "svc-pass" |}.

Definition anonymous : BitbucketServerIntegrationConfig :=
  {| cfg_host := "bitbucket.example.com";
     cfg_apiBaseUrl := apiBase;
     cfg_token := None;
     cfg_username := None;
     cfg_password := None |}.

Definition registry (c : BitbucketServerIntegrationConfig) : ScmIntegrationRegistry :=
  {| byHost := fun h => if String.eqb h (cfg_host c) then Some c else None |}.

Definition options (c : BitbucketServerIntegrationConfig) : Options :=
  {| integrations := registry c;
     config := {| getOptionalString := fun _ => Ok None |} |}.

Definition goodUrl : string := "bitbucket.example.com?project=TEAM&repo=svc".
Definition noProjectUrl : string := "bitbucket.example.com?repo=svc".

(** Stand-ins for the imported helpers: a two-entry location table, a
    header that names its scheme, a joined path. *)
Definition imports : Imports :=
  {| parseRepoUrl := fun u _ =>
       if String.eqb u goodUrl
       then Ok {| host := "bitbucket.example.com"; project := Some "TEAM"; repo := "svc" |}
       else if String.eqb u noProjectUrl
       then Ok {| host := "bitbucket.example.com"; project := None; repo := "svc" |}
       else Throw (InputError ("Invalid repo URL passed to publisher: " ++ u));
     getBitbucketServerRequestOptions := fun c =>
       if truthy (cfg_token c) then Some ("Bearer " ++ default "" (cfg_token c))
       else if andb (truthy (cfg_username c)) (truthy (cfg_password c))
       then Some ("Basic " ++ default "" (cfg_username c) ++ ":"
                  ++ default "" (cfg_password c))
       else None;
     getRepoSourceDirectory := fun ws sub =>
       Ok (match sub with Some p => ws ++ "/" ++ p | None => ws end) |}.

Definition link (name href : string) : jsval :=
  VObj [("href", VStr href); ("name", VStr name)].

Definition repoJson : jsval :=
  VObj [("slug", VStr "svc");
        ("id", VNum 42);
        ("links",
         VObj [("clone",
                VArr [link "ssh" "ssh://git@bitbucket.example.com/team/svc.git";
                      link "http" "https://bitbucket.example.com/scm/team/svc.git"]);
               ("self",
                VArr [VObj [("href",
                             VStr "https://bitbucket.example.com/projects/TEAM/repos/svc/browse")]])])].

Definition reviewer (name : string) : jsval :=
  VObj [("name", VStr name); ("active", VBool true)].

Definition alice : jsval := reviewer "alice".
Definition bob : jsval := reviewer "bob".

Definition respond (code : Z) (reason : string) (v : jsval) : FetchOutcome :=
  Responded {| status := code; statusText := reason;
               text := JSON_stringify v; json := Ok v |}.

Definition prJson : jsval :=
  VObj [("id", VNum 7);
        ("fromRef", VObj [("repository", VObj [("links", member "links" repoJson)])]);
        ("links",
         VObj [("self",
                VArr [VObj [("href",
                             VStr "https://bitbucket.example.com/projects/TEAM/repos/svc/pull-requests/7")]])])].

(** A pull request body without [links.self]. *)
Definition prJsonNoSelf : jsval :=
  VObj [("id", VNum 7);
        ("fromRef", VObj [("repository", VObj [("links", member "links" repoJson)])]);
        ("links", VObj [])].

Definition ends_with (suffix s : string) : bool :=
  String.eqb
    (substring (String.length s - String.length suffix) (String.length suffix) s)
    suffix.

(** How the sample server answers: the status of a repository creation,
    of a lookup and of the LFS switch, and its whole answer to a pull
    request.  The repository and its two default reviewers exist. *)
Record Script : Type := {
  onCreate : Z;
  onLookup : Z;
  onPullRequest : FetchOutcome;
  onLfs : Z
}.

Definition bitbucket (s : Script) (history : list Request) (req : Request)
  : FetchOutcome :=
  if String.eqb (method req) "PUT" then respond (onLfs s) "LFS" VNull
  else if String.eqb (method req) "POST" then
    if ends_with "/pull-requests" (url req) then onPullRequest s
    else respond (onCreate s) "Create" repoJson
  else if ends_with "/repos/svc" (url req) then respond (onLookup s) "Lookup" repoJson
  else respond 200 "OK" (VArr [alice; bob]).

Definition world (s : Script) : World :=
  {| server := bitbucket s;
     gitRemote := fun _ _ => Ok (Some "0123abc");
     requests := [];
     gitCalls := [];
     logged := [];
     outputs := [] |}.

(** The repository exists already, pull requests open, LFS is refused. *)
Definition existing : Script :=
  {| onCreate := 409; onLookup := 200;
     onPullRequest := respond 201 "Created" prJson; onLfs := 500 |}.

(** The repository is created afresh. *)
Definition fresh : Script :=
  {| onCreate := 201; onLookup := 200;
     onPullRequest := respond 201 "Created" prJson; onLfs := 204 |}.

(** Creation is forbidden and lookups find nothing. *)
Definition forbidden : Script :=
  {| onCreate := 403; onLookup := 404;
     onPullRequest := respond 401 "Unauthorized" VNull; onLfs := 500 |}.

(** Pull requests are answered 201 with a body that has no [links.self]. *)
Definition malformed : Script :=
  {| onCreate := 409; onLookup := 200;
     onPullRequest := respond 201 "Created" prJsonNoSelf; onLfs := 500 |}.

(** Pull requests are refused. *)
Definition refusing : Script :=
  {| onCreate := 409; onLookup := 200;
     onPullRequest := respond 409 "Conflict" VNull; onLfs := 500 |}.

(** A world in which no request gets through. *)
Definition offline : World :=
  {| server := fun _ _ => Rejected (FetchError "request failed, reason: ECONNREFUSED");
     gitRemote := fun _ _ => Ok None;
     requests := [];
     gitCalls := [];
     logged := [];
     outputs := [] |}.

(** Invocations of the five actions on location [u] with override token
    [t], every other optional input left out. *)
Definition pushCtx (u : string) (t : option string) : Ctx PublishPush.Input :=
  {| input := {| PublishPush.repoUrl := u;
                 PublishPush.targetBranch := None;
                 PublishPush.sourcePath := None;
                 PublishPush.token := t;
                 PublishPush.gitCommitMessage := None;
                 PublishPush.gitAuthorName := None;
                 PublishPush.gitAuthorEmail := None |};
     workspacePath := "/workspace" |}.

Definition branchCtx (u : string) (t : option string) : Ctx BranchPush.Input :=
  {| input := {| BranchPush.repoUrl := u;
                 BranchPush.branch := "feature/update";
                 BranchPush.sourcePath := None;
                 BranchPush.token := t;
                 BranchPush.gitCommitMessage := None;
                 BranchPush.gitAuthorName := None;
                 BranchPush.gitAuthorEmail := None |};
     workspacePath := "/workspace" |}.

Definition cloneCtx (u : string) (t : option string) : Ctx RepoClone.Input :=
  {| input := {| RepoClone.repoUrl := u;
                 RepoClone.baseBranch := None;
                 RepoClone.checkoutBranch := "feature/update";
                 RepoClone.clonePath := None;
                 RepoClone.token := t |};
     workspacePath := "/workspace" |}.

Definition createCtx (u : string) (t : option string) (lfs : option bool)
  : Ctx RepoCreate.Input :=
  {| input := {| RepoCreate.repoUrl := u;
                 RepoCreate.description := None;
                 RepoCreate.defaultBranch := None;
                 RepoCreate.repoVisibility := None;
                 RepoCreate.enableLFS := lfs;
                 RepoCreate.token := t |};
     workspacePath := "/workspace" |}.

Definition pullRequestCtx (u : string) (t : option string)
  : Ctx PullRequest.Input :=
  {| input := {| PullRequest.repoUrl := u;
                 PullRequest.title := "Update";
                 PullRequest.description := "Update by backstage";
                 PullRequest.sourceBranch := "feature/update";
                 PullRequest.targetBranch := "main";
                 PullRequest.reviewers := None;
                 PullRequest.sourcePath := None;
                 PullRequest.token := t |};
     workspacePath := "/workspace" |}.

End Sample.

(** ** What a computation leaves alone

    [preserves f c]: whatever [c] does and however it ends, the part [f]
    of the world is afterwards what it was. *)
Definition preserves {X A} (f : World -> X) (c : M A) : Prop :=
  forall w, f (snd (c w)) = f w.

(** [c] outputs either nothing, when it throws, or exactly the outputs
    named [names], in that order, when it returns. *)
Definition outputsAllOrNothing {A} (names : list string) (c : M A) : Prop :=
  forall w,
    match fst (c w) with
    | Ok _ =>
        exists new,
          outputs (snd (c w)) = (outputs w ++ new)%list /\ map fst new = names
    | Throw _ => outputs (snd (c w)) = outputs w
    end.

Definition isTypeError (e : jsError) : bool :=
  match e with
  | TypeError _ => true
  | _ => false
  end.

(** [c] leaves the list [f] of the world as it was or adds one entry to
    it, an entry that satisfies [P]. *)
Definition addsAtMostOne {X A} (f : World -> list X) (P : X -> Prop) (c : M A) : Prop :=
  forall w,
    f (snd (c w)) = f w \/ exists x, f (snd (c w)) = (f w ++ [x])%list /\ P x.

(** [null] or [undefined], the two values a property read throws on. *)
Definition is_nullish (v : jsval) : bool :=
  match v with
  | VUndef | VNull => true
  | _ => false
  end.

(** The configured string at [key], if the configuration has one. *)
Definition configuredString (c : Config) (key : string) : option string :=
  match getOptionalString c key with
  | Ok v => v
  | Throw _ => None
  end.

(** [x] when it is a non-empty string, the configured string at [key]
    when it is not. *)
Definition orElseConfigured (c : Config) (x : option string) (key : string)
  : option string :=
  match x with
  | Some s => if String.eqb s "" then configuredString c key else Some s
  | None => configuredString c key
  end.

(** How often the character [c] occurs in [s]. *)
Fixpoint occurrences (c : ascii) (s : string) : nat :=
  match s with
  | EmptyString => O
  | String c' rest =>
      if Ascii.eqb c' c then S (occurrences c rest) else occurrences c rest
  end.

(** [s] with its first occurrence of [pat] replaced by [rep], by position:
    [String.index 0 pat s] is where [pat] first occurs in [s]. *)
Definition replacedAtFirst (pat rep s : string) : string :=
  match String.index 0%nat pat s with
  | Some m =>
      substring 0%nat m s ++ rep
      ++ substring (m + String.length pat) (String.length s - (m + String.length pat)) s
  | None => s
  end.

(** The request of [getRequiredReviewers], written out. *)
Definition reviewersRequest (projectKey repositorySlug : string) (sourceRepoId : jsval)
    (sourceRefId : string) (targetRepoId : jsval) (targetRefId : option string)
    (authorization apiBaseUrl : string) : Request :=
  {| method := "GET";
     url := replace_first "api" "default-reviewers" apiBaseUrl
            ++ "/projects/" ++ projectKey ++ "/repos/" ++ repositorySlug
            ++ "/reviewers" ++ "?"
            ++ URLSearchParams
                 [("sourceRepoId", toString sourceRepoId);
                  ("sourceRefId", sourceRefId);
                  ("targetRepoId", toString targetRepoId);
                  ("targetRefId",
                   match targetRefId with
                   | Some ref => ref
                   | None => "refs/heads/master"
                   end)];
     headers := [("Authorization", authorization);
                 ("Content-Type", "application/json")];
     body := None |}.

(** ** More sample worlds *)

Module Scenario.

(** A world whose server gives every request the answer [o], and whose
    git capability succeeds. *)
Definition answering (o : FetchOutcome) : World :=
  {| server := fun _ _ => o;
     gitRemote := fun _ _ => Ok (Some "0123abc");
     requests := [];
     gitCalls := [];
     logged := [];
     outputs := [] |}.

(** The sample server with a git capability whose call number [n]
    (counting from 0) fails. *)
Definition gitFailingAt (n : nat) (s : Sample.Script) : World :=
  {| server := Sample.bitbucket s;
     gitRemote := fun history _ =>
       if Nat.eqb (length history) n then Throw (Error "git failed")
       else Ok (Some "0123abc");
     requests := [];
     gitCalls := [];
     logged := [];
     outputs := [] |}.

(** A world in which the lookup finds the sample repository and every
    other request, the reviewers query first of all, gets the answer [o]. *)
Definition withReviewers (o : FetchOutcome) : World :=
  {| server := fun _ req =>
       if Sample.ends_with "/repos/svc" (url req)
       then Sample.respond 200 "OK" Sample.repoJson
       else o;
     gitRemote := fun _ _ => Ok (Some "0123abc");
     requests := [];
     gitCalls := [];
     logged := [];
     outputs := [] |}.

(** A repository record without a self link. *)
Definition repoNoSelf : jsval :=
  VObj [("id", VNum 42);
        ("links",
         VObj [("clone",
                VArr [Sample.link "http"
                        "https://bitbucket.example.com/scm/team/svc.git"])])].

(** A repository record that can only be cloned over ssh. *)
Definition repoSshOnly : jsval :=
  VObj [("id", VNum 42);
        ("links",
         VObj [("clone",
                VArr [Sample.link "ssh" "ssh://git@bitbucket.example.com/team/svc.git"]);
               ("self",
                VArr [VObj [("href",
                             VStr "https://bitbucket.example.com/projects/TEAM/repos/svc/browse")]])])].

(** Options whose configuration has a string at every key. *)
Definition configuredOptions : Options :=
  {| integrations := Sample.registry Sample.integration;
     config := {| getOptionalString := fun key => Ok (Some ("configured " ++ key)) |} |}.

(** A push invocation whose commit message and author name are given as
    empty strings. *)
Definition emptyStringsCtx : Ctx PublishPush.Input :=
  {| input := {| PublishPush.repoUrl := Sample.goodUrl;
                 PublishPush.targetBranch := Some "main";
                 PublishPush.sourcePath := Some "out";
                 PublishPush.token := None;
                 PublishPush.gitCommitMessage := Some "";
                 PublishPush.gitAuthorName := Some "";
                 PublishPush.gitAuthorEmail := Some "dev@example.com" |};
     workspacePath := "/workspace" |}.

(** An answer whose body is not JSON. *)
Definition notJson (code : Z) : FetchOutcome :=
  Responded {| status := code; statusText := "OK"; text := "<html>";
               json := Throw (FetchError "invalid json response body") |}.

End Scenario.

(** * Properties *)

(** ** Reasoning about computations *)

Lemma bind_ok {A B} (c : M A) (k : A -> M B) w a w' :
  c w = (Ok a, w') -> bind c k w = k a w'.
Proof. intros H. unfold bind. rewrite H. reflexivity. Qed.

Lemma bind_throw {A B} (c : M A) (k : A -> M B) w e w' :
  c w = (Throw e, w') -> bind c k w = (Throw e, w').
Proof. intros H. unfold bind. rewrite H. reflexivity. Qed.

(** ** The reviewer merge *)

Lemma prop_name_of_reviewer v n :
  reviewerName v = Some n -> prop v "name" = Ok (VStr n).
Proof.
  destruct v as [| | | | |items|fields]; simpl; try discriminate.
  destruct (lookup "name" fields) as [[| | | |s| |]|]; try discriminate.
  intros H. injection H as ->. reflexivity.
Qed.

Lemma requiredLoop_named :
  forall rest names pre requiredUsers reviewers,
    map reviewerName rest = map Some names ->
    PullRequest.requiredLoop (length rest) (length pre) (VArr (pre ++ rest)%list)
      requiredUsers reviewers
    = Ok ((requiredUsers ++ map VStr names)%list, (reviewers ++ map named names)%list).
Proof.
  induction rest as [|x rest IH]; intros [|n names] pre us rs H; simpl in H;
    try discriminate.
  - simpl. now rewrite !app_nil_r.
  - injection H as Hx Hrest. cbn [length PullRequest.requiredLoop].
    unfold index. rewrite nth_middle. cbn [rbind].
    rewrite (prop_name_of_reviewer _ _ Hx). cbn [rbind].
    replace (pre ++ x :: rest)%list with ((pre ++ [x]) ++ rest)%list
      by (rewrite <- app_assoc; reflexivity).
    replace (S (length pre)) with (length (pre ++ [x])%list)
      by (rewrite length_app; simpl; lia).
    rewrite (IH names (pre ++ [x])%list _ _ Hrest).
    simpl. now rewrite <- !app_assoc.
Qed.

Lemma includes_names names user :
  PullRequest.includes (map VStr names) user = existsb (String.eqb user) names.
Proof.
  unfold PullRequest.includes. induction names as [|n names IH]; simpl; [reflexivity|].
  now rewrite IH, String.eqb_sym.
Qed.

Lemma requestedLoop_filter :
  forall users names reviewers,
    PullRequest.requestedLoop users (map VStr names) reviewers
    = (reviewers ++ map named (filter (notRequired names) users))%list.
Proof.
  induction users as [|u users IH]; intros names rs; simpl.
  - now rewrite app_nil_r.
  - rewrite includes_names. unfold notRequired at 1.
    destruct (existsb (String.eqb u) names); simpl.
    + apply IH.
    + rewrite IH, <- app_assoc. reflexivity.
Qed.

Lemma getReviewers_named required names users :
  map reviewerName required = map Some names ->
  PullRequest.getReviewers users (VArr required)
  = Ok (map named names ++ map named (filter (notRequired names) users))%list.
Proof.
  intros H. unfold PullRequest.getReviewers.
  change (prop (VArr required) "length") with (Ok (VNum (Z.of_nat (length required)))).
  cbn [rbind]. unfold iterations, toNumber. rewrite Nat2Z.id.
  pose proof (requiredLoop_named required names [] [] [] H) as L.
  simpl app in L. simpl length in L. rewrite L. cbn [rbind fst snd].
  now rewrite requestedLoop_filter.
Qed.

(** C1.  The merge lists every required reviewer first, in the order the
    server sent them, and then each requested username that is not the
    name of a required reviewer, in the order the caller gave; for
    required alice, bob and requested bob, carol the result is alice, bob,
    carol, of length 3. *)
Theorem getReviewers_required_first :
  (forall (required : list jsval) (names users : list string),
      map reviewerName required = map Some names ->
      PullRequest.getReviewers users (VArr required)
      = Ok (map named names ++ map named (filter (notRequired names) users))%list)
  /\ PullRequest.getReviewers ["bob"; "carol"] (VArr [Sample.alice; Sample.bob])
     = Ok [named "alice"; named "bob"; named "carol"]
  /\ length [named "alice"; named "bob"; named "carol"] = 3%nat.
Proof.
  split; [exact getReviewers_named|].
  split; reflexivity.
Qed.

Lemma getReviewers_required_first_witness :
  map reviewerName [Sample.alice; Sample.bob] = map Some ["alice"; "bob"]
  /\ PullRequest.getReviewers ["carol"; "bob"; "dave"] (VArr [Sample.alice; Sample.bob])
     = Ok [named "alice"; named "bob"; named "carol"; named "dave"].
Proof.
  split; [reflexivity|].
  exact (proj1 getReviewers_required_first [Sample.alice; Sample.bob]
           ["alice"; "bob"] ["carol"; "bob"; "dave"] eq_refl).
Defined.

Lemma existsb_eqb_In user names :
  existsb (String.eqb user) names = true <-> In user names.
Proof.
  rewrite existsb_exists. split.
  - intros [n [Hin Heq]]. apply String.eqb_eq in Heq. now subst.
  - intros Hin. exists user. split; [assumption | apply String.eqb_refl].
Qed.

Lemma usernames_of_named l :
  map PullRequest.user_name (map named l) = map VStr l.
Proof. rewrite map_map. reflexivity. Qed.

Lemma NoDup_map_VStr l : NoDup (map VStr l) <-> NoDup l.
Proof.
  split; [apply NoDup_map_inv|].
  intros H. apply NoDup_map_NoDup_ForallPairs; [|assumption].
  intros x y _ _ E. now injection E.
Qed.

(** C2, as the code has it.  Over well-formed required reviewers the merge
    returns a list, and that list is free of repeated usernames exactly
    when the required names are pairwise distinct and no requested
    username outside the required ones is requested twice; so it is
    whenever both inputs are free of repetitions. *)
Theorem getReviewers_NoDup_iff :
  forall (required : list jsval) (names users : list string),
    map reviewerName required = map Some names ->
    exists merged,
      PullRequest.getReviewers users (VArr required) = Ok merged
      /\ (NoDup (map PullRequest.user_name merged)
          <-> NoDup names /\ NoDup (filter (notRequired names) users))
      /\ (NoDup names -> NoDup users -> NoDup (map PullRequest.user_name merged)).
Proof.
  intros required names users H.
  eexists. split; [apply getReviewers_named; exact H|].
  rewrite <- map_app, usernames_of_named, NoDup_map_VStr.
  assert (Hiff : NoDup (names ++ filter (notRequired names) users)
                 <-> NoDup names /\ NoDup (filter (notRequired names) users)).
  { split.
    - intros Hnd. split; [eapply NoDup_app_remove_r | eapply NoDup_app_remove_l];
        exact Hnd.
    - intros [Hn Hf]. apply NoDup_app; try assumption.
      intros a Ha Hb. apply filter_In in Hb as [_ Hb].
      unfold notRequired in Hb. apply negb_true_iff in Hb.
      apply existsb_eqb_In in Ha. congruence. }
  split; [exact Hiff|].
  intros Hn Hu. apply Hiff. split; [assumption | now apply NoDup_filter].
Qed.

Lemma getReviewers_NoDup_iff_witness :
  exists merged,
    PullRequest.getReviewers ["bob"; "carol"] (VArr [Sample.alice; Sample.bob]) = Ok merged
    /\ (NoDup (map PullRequest.user_name merged)
        <-> NoDup ["alice"; "bob"]
            /\ NoDup (filter (notRequired ["alice"; "bob"]) ["bob"; "carol"]))
    /\ (NoDup ["alice"; "bob"] -> NoDup ["bob"; "carol"] ->
        NoDup (map PullRequest.user_name merged)).
Proof.
  exact (getReviewers_NoDup_iff [Sample.alice; Sample.bob] ["alice"; "bob"]
           ["bob"; "carol"] eq_refl).
Defined.

(** A username requested twice, and not required, is listed twice. *)
Lemma getReviewers_repeated_request :
  exists merged,
    PullRequest.getReviewers ["carol"; "carol"] (VArr [Sample.alice]) = Ok merged
    /\ merged = [named "alice"; named "carol"; named "carol"]
    /\ ~ NoDup (map PullRequest.user_name merged).
Proof.
  eexists. split; [reflexivity|]. split; [reflexivity|].
  simpl. intros H. inversion H as [|x l Hx Hl]; subst.
  inversion Hl as [|y l' Hy Hl']; subst.
  apply Hy. now left.
Qed.

(** ** Reading a repository record *)

Lemma prop_member v k : is_object v = true -> prop v k = Ok (member k v).
Proof.
  destruct v; simpl; try discriminate. intros _.
  destruct (lookup k fields); reflexivity.
Qed.

Lemma find_snoc {A} (f : A -> bool) l x :
  find f (l ++ [x]) =
  match find f l with
  | Some y => Some y
  | None => if f x then Some x else None
  end.
Proof.
  induction l as [|a l IH]; simpl; [reflexivity|].
  destruct (f a); [reflexivity | exact IH].
Qed.

Lemma scanCloneLinks_objects :
  forall links remoteUrl,
    forallb is_object links = true ->
    scanCloneLinks links remoteUrl
    = Ok (match find is_http_link (rev links) with
          | Some link => member "href" link
          | None => remoteUrl
          end).
Proof.
  induction links as [|link links IH]; intros acc H; [reflexivity|].
  simpl in H. apply andb_true_iff in H as [Hl Hr].
  cbn [scanCloneLinks rev]. rewrite find_snoc, (prop_member _ _ Hl). cbn [rbind].
  fold (is_http_link link).
  destruct (is_http_link link).
  - rewrite (prop_member _ _ Hl). cbn [rbind]. rewrite (IH _ Hr).
    destruct (find is_http_link (rev links)); reflexivity.
  - rewrite (IH _ Hr). destruct (find is_http_link (rev links)); reflexivity.
Qed.

Lemma httpHref_none links :
  (forall link, In link links -> is_http_link link = false) ->
  httpHref links = VStr "".
Proof.
  intros H. unfold httpHref.
  destruct (find is_http_link (rev links)) as [link|] eqn:E; [|reflexivity].
  apply find_some in E as [Hin Hhttp]. apply in_rev in Hin.
  rewrite (H _ Hin) in Hhttp. discriminate.
Qed.

Lemma httpHref_last before link after :
  is_http_link link = true ->
  (forall other, In other after -> is_http_link other = false) ->
  httpHref (before ++ link :: after) = member "href" link.
Proof.
  intros Hl Ha. unfold httpHref.
  rewrite rev_app_distr. cbn [rev]. rewrite <- app_assoc. cbn [app].
  assert (G : forall l rest,
             (forall other, In other l -> is_http_link other = false) ->
             find is_http_link (l ++ link :: rest) = Some link).
  { induction l as [|a l IH]; intros rest Hn; simpl.
    - now rewrite Hl.
    - rewrite (Hn a (or_introl eq_refl)). apply IH.
      intros o Ho. apply Hn. now right. }
  rewrite G; [reflexivity|].
  intros o Ho. apply Ha. now apply in_rev.
Qed.

Lemma field_links r k x :
  field ["links"; k] r = Some x ->
  exists fields linkFields,
    r = VObj fields /\ lookup "links" fields = Some (VObj linkFields)
    /\ lookup k linkFields = Some x.
Proof.
  destruct r as [| | | | | |fields]; simpl; try discriminate.
  destruct (lookup "links" fields) as [[| | | | | |lf]|] eqn:E; try discriminate.
  destruct (lookup k lf) eqn:E'; try discriminate.
  intros H. injection H as ->. now exists fields, lf.
Qed.

Lemma readRepoInfo_record r links self0 selfs :
  field ["links"; "clone"] r = Some (VArr links) ->
  forallb is_object links = true ->
  field ["links"; "self"] r = Some (VArr (self0 :: selfs)) ->
  is_object self0 = true ->
  readRepoInfo r
  = Ok {| remoteUrl := httpHref links;
          repoContentsUrl := toString (member "href" self0);
          repoId := member "id" r |}.
Proof.
  intros Hc Hl Hs H0.
  apply field_links in Hc as (fields & lf & -> & Hlinks & Hclone).
  apply field_links in Hs as (fields' & lf' & E & Hlinks' & Hself).
  injection E as <-. rewrite Hlinks in Hlinks'. injection Hlinks' as <-.
  unfold readRepoInfo. cbn [props prop rbind]. rewrite Hlinks. cbn [prop rbind].
  rewrite Hclone, Hself. cbn [iterate rbind].
  rewrite (scanCloneLinks_objects _ _ Hl). cbn [rbind index nth].
  rewrite (prop_member _ _ H0). cbn [rbind].
  unfold member at 3. reflexivity.
Qed.

Lemma getRepoInfo_run project repo authorization apiBaseUrl w :
  Util.getRepoInfo project repo authorization apiBaseUrl w
  = (lookupResult readRepoInfo
       (server w (requests w) (repoRequest project repo authorization apiBaseUrl)),
     snd (fetch (repoRequest project repo authorization apiBaseUrl) w)).
Proof.
  unfold Util.getRepoInfo, bind, tryCatch, fetch, throw, liftR, lookupResult.
  destruct (server w (requests w) _) as [response|e]; cbn [fst snd]; [|reflexivity].
  destruct (status response =? 200); cbn [negb]; [|reflexivity].
  destruct (json response); reflexivity.
Qed.

Lemma getRepositoryRemoteUrl_run project repo authorization apiBaseUrl w :
  PublishPush.getRepositoryRemoteUrl project repo authorization apiBaseUrl w
  = (lookupResult
       (fun r =>
          let? clone := props r ["links"; "clone"] in
          let? items := iterate clone in
          scanCloneLinks items (VStr ""))
       (server w (requests w) (repoRequest project repo authorization apiBaseUrl)),
     snd (fetch (repoRequest project repo authorization apiBaseUrl) w)).
Proof.
  unfold PublishPush.getRepositoryRemoteUrl, bind, tryCatch, fetch, throw, liftR,
    lookupResult.
  destruct (server w (requests w) _) as [response|e]; cbn [fst snd]; [|reflexivity].
  destruct (status response =? 200); cbn [negb]; [|reflexivity].
  destruct (json response); reflexivity.
Qed.

Lemma issued_fetch req w : issued (fetch req) w = [req].
Proof.
  unfold issued, fetch.
  destruct (server w (requests w) req); cbn [snd requests];
    rewrite skipn_app, skipn_all, Nat.sub_diag; reflexivity.
Qed.

(** C6.  A lookup that is answered with a status other than 200 fails with
    an error made of the status, the status text and the body.  Answered
    200 with a record whose clone links and first self link are objects,
    it returns as [remoteUrl] the href of the (last) clone link named
    ["http"], the empty string when no link has that name, as
    [repoContentsUrl] the href of the first self link and as [repoId] the
    [id] member; [getRepositoryRemoteUrl] of the push action does the same
    for the [remoteUrl] alone.  Either way one GET request is made. *)
Theorem getRepoInfo_lookup :
  forall project repo authorization apiBaseUrl w response,
    server w (requests w) (repoRequest project repo authorization apiBaseUrl)
    = Responded response ->
    (status response <> 200 ->
     let failure :=
       Error ("Unable to get repository details, "
              ++ num_toString (status response) ++ " "
              ++ statusText response ++ ", " ++ text response) in
     fst (Util.getRepoInfo project repo authorization apiBaseUrl w) = Throw failure
     /\ fst (PublishPush.getRepositoryRemoteUrl project repo authorization apiBaseUrl w)
        = Throw failure)
    /\ (status response = 200 ->
        forall r links,
          json response = Ok r ->
          field ["links"; "clone"] r = Some (VArr links) ->
          forallb is_object links = true ->
          fst (PublishPush.getRepositoryRemoteUrl project repo authorization apiBaseUrl w)
          = Ok (httpHref links)
          /\ ((forall link, In link links -> is_http_link link = false) ->
              httpHref links = VStr "")
          /\ (forall before link after,
                 links = (before ++ link :: after)%list ->
                 is_http_link link = true ->
                 (forall other, In other after -> is_http_link other = false) ->
                 httpHref links = member "href" link)
          /\ (forall self0 selfs,
                 field ["links"; "self"] r = Some (VArr (self0 :: selfs)) ->
                 is_object self0 = true ->
                 fst (Util.getRepoInfo project repo authorization apiBaseUrl w)
                 = Ok {| remoteUrl := httpHref links;
                         repoContentsUrl := toString (member "href" self0);
                         repoId := member "id" r |}))
    /\ issued (Util.getRepoInfo project repo authorization apiBaseUrl) w
       = [repoRequest project repo authorization apiBaseUrl].
Proof.
  intros project repo authorization apiBaseUrl w response Hs.
  rewrite getRepoInfo_run, getRepositoryRemoteUrl_run, Hs. cbn [fst].
  split; [|split].
  - intros Hne. apply Z.eqb_neq in Hne.
    unfold lookupResult. rewrite Hne. split; reflexivity.
  - intros He r links Hj Hc Hl. apply Z.eqb_eq in He.
    unfold lookupResult. rewrite He, Hj. cbn [rbind].
    split; [|split; [|split]].
    + apply field_links in Hc as (fields & lf & -> & Hlinks & Hclone).
      cbn [props prop rbind]. rewrite Hlinks. cbn [prop rbind]. rewrite Hclone.
      cbn [iterate rbind]. now rewrite (scanCloneLinks_objects _ _ Hl).
    + apply httpHref_none.
    + intros before link after ->. apply httpHref_last.
    + intros self0 selfs Hself H0. now apply readRepoInfo_record with (selfs := selfs).
  - unfold issued. rewrite getRepoInfo_run. cbn [snd]. apply issued_fetch.
Qed.

Lemma getRepoInfo_lookup_witness :
  fst (Util.getRepoInfo "TEAM" "svc" "Bearer t" Sample.apiBase (Sample.world Sample.forbidden))
  = Throw (Error ("Unable to get repository details, 404 Lookup, "
                  ++ JSON_stringify Sample.repoJson))
  /\ fst (Util.getRepoInfo "TEAM" "svc" "Bearer t" Sample.apiBase (Sample.world Sample.existing))
     = Ok {| remoteUrl := VStr "https://bitbucket.example.com/scm/team/svc.git";
             repoContentsUrl := "https://bitbucket.example.com/projects/TEAM/repos/svc/browse";
             repoId := VNum 42 |}.
Proof.
  split.
  - refine (proj1 (proj1
      (getRepoInfo_lookup "TEAM" "svc" "Bearer t" Sample.apiBase
         (Sample.world Sample.forbidden) _ eq_refl) _)).
    discriminate.
  - refine (proj2 (proj2 (proj2
      (proj1 (proj2
        (getRepoInfo_lookup "TEAM" "svc" "Bearer t" Sample.apiBase
           (Sample.world Sample.existing) _ eq_refl))
        eq_refl Sample.repoJson _ eq_refl eq_refl eq_refl))) _ _ eq_refl eq_refl).
Defined.

(** ** Creating a repository *)

Lemma createRepository_run project repo description repoVisibility defaultBranch
    authorization apiBaseUrl w :
  let post := RepoCreate.createRequest project repo description repoVisibility
                defaultBranch authorization apiBaseUrl in
  let w1 := snd (fetch post w) in
  RepoCreate.createRepository project repo description repoVisibility defaultBranch
    authorization apiBaseUrl w
  = match server w (requests w) post with
    | Rejected e =>
        (Throw (Error ("Unable to create repository, " ++ error_toString e)), w1)
    | Responded response =>
        if status response =? 409 then
          Util.getRepoInfo project repo authorization apiBaseUrl
            (snd (logger_info ("A repository with name(" ++ repo ++ ") already exists.") w1))
        else if status response =? 201 then
          (let? r := json response in readRepoInfo r, w1)
        else
          (Throw (Error ("Unable to create repository, "
                         ++ num_toString (status response) ++ " "
                         ++ statusText response ++ ", " ++ text response)), w1)
    end.
Proof.
  intros post w1. subst w1.
  unfold RepoCreate.createRepository. fold post.
  unfold bind, tryCatch, fetch, throw, liftR.
  destruct (server w (requests w) post) as [response|e]; cbn [fst snd]; [|reflexivity].
  destruct (status response =? 409); [reflexivity|].
  destruct (status response =? 201); cbn [negb andb]; [|reflexivity].
  destruct (json response); reflexivity.
Qed.

(** C3.  When the create POST is answered 409, [createRepository] logs the
    conflict and returns whatever the lookup [getRepoInfo] returns next, so
    on a server that answers the lookup as it would have before the POST
    the outcome is that of a direct lookup, [remoteUrl], [repoContentsUrl]
    and [repoId] included.  Answered with any status other than 201 and
    409, it fails with an error made of the status, the status text and
    the body, having made no other request. *)
Theorem createRepository_conflict_is_lookup :
  forall project repo description repoVisibility defaultBranch authorization
         apiBaseUrl w response,
    let post := RepoCreate.createRequest project repo description repoVisibility
                  defaultBranch authorization apiBaseUrl in
    let create := RepoCreate.createRepository project repo description repoVisibility
                    defaultBranch authorization apiBaseUrl in
    let lookup := Util.getRepoInfo project repo authorization apiBaseUrl in
    server w (requests w) post = Responded response ->
    (status response = 409 ->
     create w
     = lookup {| server := server w; gitRemote := gitRemote w;
                 requests := requests w ++ [post]; gitCalls := gitCalls w;
                 logged := logged w
                           ++ ["A repository with name(" ++ repo ++ ") already exists."];
                 outputs := outputs w |}
     /\ (server w (requests w ++ [post])
           (repoRequest project repo authorization apiBaseUrl)
         = server w (requests w) (repoRequest project repo authorization apiBaseUrl) ->
         fst (create w) = fst (lookup w)))
    /\ (status response <> 201 -> status response <> 409 ->
        fst (create w)
        = Throw (Error ("Unable to create repository, "
                        ++ num_toString (status response) ++ " "
                        ++ statusText response ++ ", " ++ text response))
        /\ issued create w = [post]).
Proof.
  intros project repo description repoVisibility defaultBranch authorization
    apiBaseUrl w response post create lookup Hs.
  subst create. unfold issued. rewrite createRepository_run. fold post. rewrite Hs.
  split.
  - intros H409. apply Z.eqb_eq in H409. rewrite H409.
    assert (Hw : snd (logger_info ("A repository with name(" ++ repo
                                   ++ ") already exists.") (snd (fetch post w)))
                 = {| server := server w; gitRemote := gitRemote w;
                      requests := requests w ++ [post]; gitCalls := gitCalls w;
                      logged := logged w
                                ++ ["A repository with name(" ++ repo
                                    ++ ") already exists."];
                      outputs := outputs w |}).
    { unfold logger_info, fetch. rewrite Hs. reflexivity. }
    rewrite Hw. split; [reflexivity|].
    intros Hsame. subst lookup. rewrite !getRepoInfo_run. cbn [fst requests server].
    now rewrite Hsame.
  - intros H201 H409. apply Z.eqb_neq in H201, H409. rewrite H201, H409.
    cbn [fst snd]. split; [reflexivity|]. apply issued_fetch.
Qed.

Lemma createRepository_conflict_is_lookup_witness :
  fst (RepoCreate.createRepository "TEAM" "svc" None RepoCreate.Private "master"
         "Bearer t" Sample.apiBase (Sample.world Sample.existing))
  = fst (Util.getRepoInfo "TEAM" "svc" "Bearer t" Sample.apiBase
           (Sample.world Sample.existing))
  /\ fst (RepoCreate.createRepository "TEAM" "svc" None RepoCreate.Private "master"
            "Bearer t" Sample.apiBase (Sample.world Sample.forbidden))
     = Throw (Error ("Unable to create repository, 403 Create, "
                     ++ JSON_stringify Sample.repoJson)).
Proof.
  split.
  - refine (proj2 (proj1
      (createRepository_conflict_is_lookup "TEAM" "svc" None RepoCreate.Private
         "master" "Bearer t" Sample.apiBase (Sample.world Sample.existing) _ eq_refl)
      eq_refl) eq_refl).
  - refine (proj1 (proj2
      (createRepository_conflict_is_lookup "TEAM" "svc" None RepoCreate.Private
         "master" "Bearer t" Sample.apiBase (Sample.world Sample.forbidden) _ eq_refl)
      _ _)); discriminate.
Defined.

(** ** Opening a pull request *)

Lemma createPullRequest_run title description project repo sourceBranch targetBranch
    reviewers authorization apiBaseUrl w info w1 required w2 :
  Util.getRepoInfo project repo authorization apiBaseUrl w = (Ok info, w1) ->
  Util.getRequiredReviewers project repo (repoId info) ("refs/heads/" ++ sourceBranch)
    (repoId info) (Some ("refs/heads/" ++ targetBranch)) authorization apiBaseUrl w1
  = (Ok required, w2) ->
  PullRequest.createPullRequest title description project repo sourceBranch
    targetBranch reviewers authorization apiBaseUrl w
  = match PullRequest.getReviewers (default [] reviewers) required with
    | Throw e => (Throw e, w2)
    | Ok merged =>
        let post := PullRequest.pullRequestRequest title description project repo
                      sourceBranch targetBranch
                      (VArr (map PullRequest.User_json merged))
                      authorization apiBaseUrl in
        let w3 := snd (fetch post w2) in
        match server w2 (requests w2) post with
        | Rejected e =>
            (Throw (Error ("Unable to create pull request, " ++ error_toString e)), w3)
        | Responded response =>
            if status response =? 201
            then (let? r := json response in PullRequest.readPullRequest r, w3)
            else (Throw (Error ("Unable to create pull request, "
                                ++ num_toString (status response) ++ " "
                                ++ statusText response ++ ", " ++ text response)),
                  w3)
        end
    end.
Proof.
  intros H1 H2. unfold PullRequest.createPullRequest.
  rewrite (bind_ok _ _ _ _ _ H1), (bind_ok _ _ _ _ _ H2).
  unfold truthy_array, bind at 1, bind at 1, liftR at 1, ret.
  destruct (PullRequest.getReviewers (default [] reviewers) required) as [merged|e];
    [|reflexivity].
  cbv zeta. unfold bind, tryCatch, fetch, throw, liftR.
  destruct (server w2 (requests w2) _) as [response|e]; cbn [fst snd]; [|reflexivity].
  destruct (status response =? 201); cbn [negb]; [|reflexivity].
  destruct (json response); reflexivity.
Qed.

Lemma prop_absent v k x :
  k <> "length" -> prop v k = Ok x ->
  x = VUndef \/ forall rest, field (k :: rest) v = field rest x.
Proof.
  intros Hk. destruct v as [| | | |s|items|fields]; simpl; try discriminate;
    try (apply String.eqb_neq in Hk; rewrite Hk);
    try (intros H; injection H as <-; now left).
  destruct (lookup k fields) as [y|]; intros H; injection H as <-;
    [right; reflexivity | now left].
Qed.

Lemma props_undefined path :
  path <> [] -> exists e, props VUndef path = Throw e.
Proof. destruct path; [congruence|]. intros _. simpl. eauto. Qed.

(** A path that the body lacks reads as [undefined], or throws on the way. *)
Lemma props_absent :
  forall path v,
    ~ In "length" path -> field path v = None ->
    props v path = Ok VUndef \/ exists e, props v path = Throw e.
Proof.
  induction path as [|k path IH]; intros v Hl H; [discriminate|].
  assert (Hk : k <> "length") by (intros ->; apply Hl; now left).
  assert (Hp : ~ In "length" path) by (intros Hin; apply Hl; now right).
  cbn [props]. destruct (prop v k) as [x|e] eqn:E; cbn [rbind]; [|eauto].
  destruct (prop_absent _ _ _ Hk E) as [->|Hf].
  - destruct path; [now left | right; apply props_undefined; discriminate].
  - rewrite Hf in H. now apply IH.
Qed.

Lemma props_field :
  forall path v x, field path v = Some x -> props v path = Ok x.
Proof.
  induction path as [|k path IH]; intros v x H; simpl in *; [congruence|].
  destruct v as [| | | | | |fields]; try discriminate.
  cbn [prop]. destruct (lookup k fields) as [y|]; [|discriminate].
  cbn [rbind default]. now apply IH.
Qed.

Lemma readPullRequest_absent r :
  field ["fromRef"; "repository"; "links"; "clone"] r = None
  \/ field ["links"; "self"] r = None
  \/ field ["links"; "self"] r = Some (VArr []) ->
  exists e,
    PullRequest.readPullRequest r
    = Throw (Error ("Unable to create pull request," ++ JSON_stringify r
                    ++ ",  " ++ error_toString e)).
Proof.
  intros H. unfold PullRequest.readPullRequest.
  match goal with
  | |- exists e, rcatch ?body _ = _ =>
      assert (Hb : exists e, body = Throw e); [|destruct Hb as [e ->]; now exists e]
  end.
  destruct (props r ["fromRef"; "repository"; "links"; "clone"]) as [clone|e] eqn:Ec;
    cbn [rbind]; [|eauto].
  destruct (iterate clone) as [items|e] eqn:Ei; cbn [rbind]; [|eauto].
  destruct (scanCloneLinks items (VStr "")) as [remoteUrl|e]; cbn [rbind]; [|eauto].
  destruct H as [H|[H|H]].
  - apply props_absent in H;
      [|simpl; intros [E|[E|[E|[E|[]]]]]; discriminate].
    rewrite Ec in H. destruct H as [H|[e H]]; [|discriminate].
    injection H as ->. discriminate.
  - apply props_absent in H; [|simpl; intros [E|[E|[]]]; discriminate].
    destruct H as [->|[e ->]]; cbn [rbind index prop]; eauto.
  - rewrite (props_field _ _ _ H). cbn [rbind index nth prop]. eauto.
Qed.

(** C4.  Once the repository and its required reviewers have been fetched
    and merged, a pull-request POST answered with a status other than 201
    makes [createPullRequest] fail with an error made of the status, the
    status text and the body; and a 201 answer whose body has no clone
    links under [fromRef.repository.links], no [links.self], or an empty
    [links.self], makes it fail with an error that quotes the body as
    [JSON.stringify] prints it, so that no result is returned. *)
Theorem createPullRequest_failures :
  forall title description project repo sourceBranch targetBranch reviewers
         authorization apiBaseUrl w info w1 required w2 merged response,
    let create := PullRequest.createPullRequest title description project repo
                    sourceBranch targetBranch reviewers authorization apiBaseUrl in
    Util.getRepoInfo project repo authorization apiBaseUrl w = (Ok info, w1) ->
    Util.getRequiredReviewers project repo (repoId info) ("refs/heads/" ++ sourceBranch)
      (repoId info) (Some ("refs/heads/" ++ targetBranch)) authorization apiBaseUrl w1
    = (Ok required, w2) ->
    PullRequest.getReviewers (default [] reviewers) required = Ok merged ->
    server w2 (requests w2)
      (PullRequest.pullRequestRequest title description project repo sourceBranch
         targetBranch (VArr (map PullRequest.User_json merged)) authorization apiBaseUrl)
    = Responded response ->
    (status response <> 201 ->
     fst (create w)
     = Throw (Error ("Unable to create pull request, "
                     ++ num_toString (status response) ++ " "
                     ++ statusText response ++ ", " ++ text response)))
    /\ (status response = 201 ->
        forall r,
          json response = Ok r ->
          field ["fromRef"; "repository"; "links"; "clone"] r = None
          \/ field ["links"; "self"] r = None
          \/ field ["links"; "self"] r = Some (VArr []) ->
          exists e,
            fst (create w)
            = Throw (Error ("Unable to create pull request," ++ JSON_stringify r
                            ++ ",  " ++ error_toString e))
            /\ occursIn (JSON_stringify r)
                 (error_message
                    (Error ("Unable to create pull request," ++ JSON_stringify r
                            ++ ",  " ++ error_toString e)))).
Proof.
  intros title description project repo sourceBranch targetBranch reviewers
    authorization apiBaseUrl w info w1 required w2 merged response create
    H1 H2 Hm Hs.
  subst create. rewrite (createPullRequest_run _ _ _ _ _ _ _ _ _ _ _ _ _ _ H1 H2).
  rewrite Hm. cbv zeta. rewrite Hs. split.
  - intros Hne. apply Z.eqb_neq in Hne. now rewrite Hne.
  - intros H201 r Hj Habs. apply Z.eqb_eq in H201. rewrite H201, Hj.
    cbn [rbind fst]. destruct (readPullRequest_absent r Habs) as [e He].
    exists e. split; [exact He|].
    cbn [error_message]. now eexists _, _.
Qed.

Lemma createPullRequest_failures_witness :
  fst (PullRequest.createPullRequest "t" None "TEAM" "svc" "feature/update" "main"
         (Some ["bob"; "carol"]) "Bearer t" Sample.apiBase (Sample.world Sample.refusing))
  = Throw (Error "Unable to create pull request, 409 Conflict, null")
  /\ exists e,
      fst (PullRequest.createPullRequest "t" None "TEAM" "svc" "feature/update" "main"
             (Some ["bob"; "carol"]) "Bearer t" Sample.apiBase
             (Sample.world Sample.malformed))
      = Throw (Error ("Unable to create pull request,"
                      ++ JSON_stringify Sample.prJsonNoSelf
                      ++ ",  " ++ error_toString e)).
Proof.
  split.
  - refine (proj1
      (createPullRequest_failures "t" None "TEAM" "svc" "feature/update" "main"
         (Some ["bob"; "carol"]) "Bearer t" Sample.apiBase
         (Sample.world Sample.refusing) _ _ _ _ _ _ eq_refl eq_refl eq_refl eq_refl) _).
    discriminate.
  - destruct (proj2
      (createPullRequest_failures "t" None "TEAM" "svc" "feature/update" "main"
         (Some ["bob"; "carol"]) "Bearer t" Sample.apiBase
         (Sample.world Sample.malformed) _ _ _ _ _ _ eq_refl eq_refl eq_refl eq_refl)
      eq_refl Sample.prJsonNoSelf eq_refl (or_intror (or_introl eq_refl)))
      as [e [He _]].
    exists e. exact He.
Defined.

Lemma requests_fetch req w : requests (snd (fetch req w)) = (requests w ++ [req])%list.
Proof. unfold fetch. destruct (server w (requests w) req); reflexivity. Qed.

(** *** Where a value is printed in its container *)

Lemma append_assoc (a b c : string) : (a ++ b) ++ c = a ++ b ++ c.
Proof. induction a as [|x a IH]; cbn; [reflexivity | now rewrite IH]. Qed.

Lemma append_empty (a : string) : a ++ "" = a.
Proof. induction a as [|x a IH]; cbn; [reflexivity | now rewrite IH]. Qed.

Lemma occursIn_refl s : occursIn s s.
Proof. exists "", "". cbn. now rewrite append_empty. Qed.

Lemma occursIn_after s t u : occursIn s t -> occursIn s (u ++ t).
Proof.
  intros (before & after & ->). exists (u ++ before), after.
  now rewrite append_assoc.
Qed.

Lemma occursIn_before s t u : occursIn s t -> occursIn s (t ++ u).
Proof.
  intros (before & after & ->). exists before, (after ++ u).
  now rewrite !append_assoc.
Qed.

Lemma occursIn_trans s t u : occursIn s t -> occursIn t u -> occursIn s u.
Proof.
  intros Hs (before & after & ->).
  now apply occursIn_after, occursIn_before.
Qed.

Lemma occursIn_join sep x l : In x l -> occursIn x (join sep l).
Proof.
  induction l as [|y l IH]; [intros []|].
  intros [<-|Hin].
  - destruct l; [apply occursIn_refl|].
    cbn [join]. apply occursIn_before, occursIn_refl.
  - destruct l as [|z l]; [destruct Hin|].
    change (join sep (y :: z :: l)) with (y ++ sep ++ join sep (z :: l)).
    now apply occursIn_after, occursIn_after, IH.
Qed.

(** An element that is not [undefined] is printed in its array, and a
    member that is not [undefined] in its object. *)
Lemma JSON_stringify_element x items :
  In x items -> x <> VUndef -> occursIn (JSON_stringify x) (JSON_stringify (VArr items)).
Proof.
  intros Hin Hx. cbn [JSON_stringify].
  apply (occursIn_after _ _ "["), occursIn_before, occursIn_join.
  induction items as [|y items IH]; [destruct Hin|].
  destruct Hin as [->|Hin].
  - destruct x; try (now left); now destruct Hx.
  - destruct y; right; now apply IH.
Qed.

Lemma JSON_stringify_member k x fields :
  In (k, x) fields -> x <> VUndef ->
  occursIn (JSON_stringify x) (JSON_stringify (VObj fields)).
Proof.
  intros Hin Hx. cbn [JSON_stringify].
  apply (occursIn_after _ _ "{"), occursIn_before.
  apply (occursIn_trans _ (json_quote k ++ ":" ++ JSON_stringify x)).
  - apply occursIn_after, occursIn_after, occursIn_refl.
  - apply occursIn_join.
    induction fields as [|[k' y] fields IH]; [destruct Hin|].
    destruct Hin as [Heq|Hin].
    + injection Heq as -> ->. destruct x; try (now left); now destruct Hx.
    + destruct y; try (right; now apply IH). now apply IH.
Qed.

(** C9.  Once the repository and its required reviewers have been
    fetched, the request that [createPullRequest] posts is the POST to
    the repository's [pull-requests] whose JSON body carries, under
    [reviewers], one [{ user: { name } }] entry for each element of the
    output of [getReviewers] on the requested usernames (none when the
    caller gave no list) and the fetched required reviewers; the raw
    required reviewers are never posted instead.  When the merge itself
    throws nothing is posted.  So every required reviewer the server named
    has its entry in the posted list, and that entry is printed in the
    body that is sent. *)
Theorem createPullRequest_posts_merge :
  forall title description project repo sourceBranch targetBranch reviewers
         authorization apiBaseUrl w info w1 required w2,
    let create := PullRequest.createPullRequest title description project repo
                    sourceBranch targetBranch reviewers authorization apiBaseUrl in
    let requested := match reviewers with Some users => users | None => [] end in
    let entry (name : jsval) := VObj [("user", VObj [("name", name)])] in
    let entries (merged : list PullRequest.User) :=
      map (fun u => entry (PullRequest.user_name u)) merged in
    let ref (branch : string) :=
      VObj [("repository",
             VObj [("slug", VStr repo); ("project", VObj [("key", VStr project)])]);
            ("id", VStr ("refs/heads/" ++ branch));
            ("type", VStr "BRANCH")] in
    let payload (posted : list jsval) :=
      JSON_stringify
        (VObj [("title", VStr title);
               ("description",
                VStr (match description with Some d => d | None => title end));
               ("reviewers", VArr posted);
               ("fromRef", ref sourceBranch);
               ("toRef", ref targetBranch)]) in
    let post (merged : list PullRequest.User) :=
      {| method := "POST";
         url := apiBaseUrl ++ "/projects/" ++ project ++ "/repos/" ++ repo
                ++ "/pull-requests";
         headers := [("Authorization", authorization);
                     ("Content-Type", "application/json")];
         body := Some (payload (entries merged)) |} in
    Util.getRepoInfo project repo authorization apiBaseUrl w = (Ok info, w1) ->
    Util.getRequiredReviewers project repo (repoId info) ("refs/heads/" ++ sourceBranch)
      (repoId info) (Some ("refs/heads/" ++ targetBranch)) authorization apiBaseUrl w1
    = (Ok required, w2) ->
    match PullRequest.getReviewers requested required with
    | Ok merged => requests (snd (create w)) = (requests w2 ++ [post merged])%list
    | Throw e => create w = (Throw e, w2)
    end
    /\ (forall items names,
           required = VArr items ->
           map reviewerName items = map Some names ->
           exists merged,
             PullRequest.getReviewers requested required = Ok merged
             /\ requests (snd (create w)) = (requests w2 ++ [post merged])%list
             /\ forall n,
                 In n names ->
                 In (named n) merged
                 /\ In (entry (VStr n)) (entries merged)
                 /\ occursIn (JSON_stringify (entry (VStr n))) (payload (entries merged))).
Proof.
  intros title description project repo sourceBranch targetBranch reviewers
    authorization apiBaseUrl w info w1 required w2 create requested entry entries ref
    payload post H1 H2.
  assert (Hrun := createPullRequest_run title description project repo sourceBranch
                    targetBranch reviewers authorization apiBaseUrl w info w1
                    required w2 H1 H2).
  fold create in Hrun. change (default [] reviewers) with requested in Hrun.
  assert (Hwritten : forall merged,
             PullRequest.pullRequestRequest title description project repo sourceBranch
               targetBranch (VArr (map PullRequest.User_json merged)) authorization
               apiBaseUrl
             = post merged).
  { intros merged. unfold PullRequest.pullRequestRequest, post, payload, entries, entry,
      ref, PullRequest.refJson, json_headers.
    now destruct description. }
  assert (Hposted : forall merged,
             PullRequest.getReviewers requested required = Ok merged ->
             requests (snd (create w)) = (requests w2 ++ [post merged])%list).
  { intros merged Hm. rewrite Hrun, Hm. cbv zeta. rewrite Hwritten.
    rewrite <- (requests_fetch (post merged) w2).
    destruct (server w2 (requests w2) (post merged)) as [response|e]; [|reflexivity].
    destruct (status response =? 201); reflexivity. }
  split.
  - destruct (PullRequest.getReviewers requested required) as [merged|e] eqn:Hm.
    + now apply Hposted.
    + rewrite Hrun. try rewrite Hm. reflexivity.
  - intros items names -> Hnames.
    pose proof (getReviewers_named items names requested Hnames) as Hm.
    eexists. split; [exact Hm|]. split; [now apply Hposted|].
    intros n Hn.
    assert (Hin : In (named n)
                    (map named names
                     ++ map named (filter (notRequired names) requested))%list)
      by (apply in_or_app; left; now apply in_map).
    split; [exact Hin|].
    assert (Hentry : In (entry (VStr n))
                       (entries (map named names
                                 ++ map named (filter (notRequired names) requested))%list))
      by exact (in_map (fun u => entry (PullRequest.user_name u)) _ _ Hin).
    split; [exact Hentry|].
    unfold payload.
    eapply occursIn_trans;
      [apply (JSON_stringify_element _ _ Hentry); discriminate|].
    apply (JSON_stringify_member "reviewers"); [|discriminate].
    right. right. now left.
Qed.

Lemma createPullRequest_posts_merge_witness :
  requests
    (snd (PullRequest.createPullRequest "t" None "TEAM" "svc" "feature/update" "main"
            None "Bearer t" Sample.apiBase (Sample.world Sample.existing)))
  = [repoRequest "TEAM" "svc" "Bearer t" Sample.apiBase;
     {| method := "GET";
        url := "https://bitbucket.example.com/rest/default-reviewers/1.0/projects/TEAM/repos/svc/reviewers?sourceRepoId=42&sourceRefId=refs%2Fheads%2Ffeature%2Fupdate&targetRepoId=42&targetRefId=refs%2Fheads%2Fmain";
        headers := json_headers "Bearer t";
        body := None |};
     {| method := "POST";
        url := "https://bitbucket.example.com/rest/api/1.0/projects/TEAM/repos/svc/pull-requests";
        headers := [("Authorization", "Bearer t"); ("Content-Type", "application/json")];
        body :=
          Some (JSON_stringify
                  (VObj [("title", VStr "t");
                         ("description", VStr "t");
                         ("reviewers",
                          VArr [VObj [("user", VObj [("name", VStr "alice")])];
                                VObj [("user", VObj [("name", VStr "bob")])]]);
                         ("fromRef",
                          VObj [("repository",
                                 VObj [("slug", VStr "svc");
                                       ("project", VObj [("key", VStr "TEAM")])]);
                                ("id", VStr "refs/heads/feature/update");
                                ("type", VStr "BRANCH")]);
                         ("toRef",
                          VObj [("repository",
                                 VObj [("slug", VStr "svc");
                                       ("project", VObj [("key", VStr "TEAM")])]);
                                ("id", VStr "refs/heads/main");
                                ("type", VStr "BRANCH")])])) |}].
Proof.
  exact (proj1
    (createPullRequest_posts_merge "t" None "TEAM" "svc" "feature/update" "main"
       None "Bearer t" Sample.apiBase (Sample.world Sample.existing) _ _ _ _
       eq_refl eq_refl)).
Defined.

(** ** The opening lines of the handlers *)

Lemma rejects_intro {A} (c : M A) e w :
  c w = (Throw e, w) -> rejectsBeforeNetwork c e w.
Proof.
  intros H. unfold rejectsBeforeNetwork, issued, gitIssued. rewrite H. cbn [snd].
  now rewrite !skipn_all.
Qed.

Create HintDb handlers.
#[local] Hint Unfold
  PublishPush.createPublishBitbucketServerPushAction
  BranchPush.createBitbucketServerBranchPushAction
  RepoClone.createPublishBitbucketServerRepoCloneAction
  RepoCreate.createBitbucketServerRepoCreateAction
  PullRequest.createBitbucketServerPullRequestOpenAction : handlers.

(** Every handler opens with [resolveRepository]: when that throws, so
    does the handler, in the same world. *)
Ltac handler_stops_at_resolve :=
  apply rejects_intro; autounfold with handlers; cbv zeta; apply bind_throw.

Lemma resolveRepository_missing_project imp options repoUrl inputToken spec w :
  parseRepoUrl imp repoUrl (integrations options) = Ok spec ->
  truthy (project spec) = false ->
  resolveRepository imp options repoUrl inputToken w = (Throw (missingProject repoUrl), w).
Proof.
  intros Hp Hf. unfold resolveRepository, bind, liftR, throw.
  rewrite Hp, Hf. reflexivity.
Qed.

Lemma resolveRepository_resolved imp options repoUrl inputToken spec cfg w :
  parseRepoUrl imp repoUrl (integrations options) = Ok spec ->
  truthy (project spec) = true ->
  byHost (integrations options) (host spec) = Some cfg ->
  let token := nullish inputToken (cfg_token cfg) in
  let authorization := getBitbucketServerRequestOptions imp (with_token cfg token) in
  resolveRepository imp options repoUrl inputToken w
  = if truthy authorization
    then (Ok {| r_project := default "" (project spec);
                r_repo := repo spec;
                r_host := host spec;
                r_integrationConfig := cfg;
                r_token := token;
                r_authConfig := with_token cfg token;
                r_authorization := default "" authorization |}, w)
    else (Throw (noAuthorization (cfg_host cfg)), w).
Proof.
  intros Hp Ht Hh token authorization.
  unfold resolveRepository, bind, liftR, throw, ret.
  rewrite Hp, Ht, Hh. cbn [negb]. fold token. fold authorization.
  destruct (truthy authorization); reflexivity.
Qed.

(** C8.  When the parsed location has no project ([undefined] or the empty
    string), each of the five handlers throws the [InputError] that names
    the location, and the world is as it was: no HTTP request and no git
    call has been made. *)
Theorem missing_project_rejected_before_network :
  forall (imp : Imports) (options : Options) (spec : RepoSpec) (w : World),
    truthy (project spec) = false ->
    let rejected (repoUrl : string) : jsError :=
      InputError ("Invalid URL provider was included in the repo URL to create "
                  ++ repoUrl ++ ", missing project") in
    (forall ctx,
        parseRepoUrl imp (PublishPush.repoUrl (input ctx)) (integrations options) = Ok spec ->
        rejectsBeforeNetwork
          (PublishPush.createPublishBitbucketServerPushAction imp options ctx)
          (rejected (PublishPush.repoUrl (input ctx))) w)
    /\ (forall ctx,
           parseRepoUrl imp (BranchPush.repoUrl (input ctx)) (integrations options) = Ok spec ->
           rejectsBeforeNetwork
             (BranchPush.createBitbucketServerBranchPushAction imp options ctx)
             (rejected (BranchPush.repoUrl (input ctx))) w)
    /\ (forall ctx,
           parseRepoUrl imp (RepoClone.repoUrl (input ctx)) (integrations options) = Ok spec ->
           rejectsBeforeNetwork
             (RepoClone.createPublishBitbucketServerRepoCloneAction imp options ctx)
             (rejected (RepoClone.repoUrl (input ctx))) w)
    /\ (forall ctx,
           parseRepoUrl imp (RepoCreate.repoUrl (input ctx)) (integrations options) = Ok spec ->
           rejectsBeforeNetwork
             (RepoCreate.createBitbucketServerRepoCreateAction imp options ctx)
             (rejected (RepoCreate.repoUrl (input ctx))) w)
    /\ (forall ctx,
           parseRepoUrl imp (PullRequest.repoUrl (input ctx)) (integrations options) = Ok spec ->
           rejectsBeforeNetwork
             (PullRequest.createBitbucketServerPullRequestOpenAction imp options ctx)
             (rejected (PullRequest.repoUrl (input ctx))) w).
Proof.
  intros imp options spec w Hf rejected.
  split; [|split; [|split; [|split]]]; intros ctx Hp; handler_stops_at_resolve;
    apply (resolveRepository_missing_project _ _ _ _ spec); assumption.
Qed.


Lemma missing_project_rejected_before_network_witness :
  rejectsBeforeNetwork
    (PublishPush.createPublishBitbucketServerPushAction Sample.imports
       (Sample.options Sample.integration) (Sample.pushCtx Sample.noProjectUrl None))
    (InputError "Invalid URL provider was included in the repo URL to create bitbucket.example.com?repo=svc, missing project")
    (Sample.world Sample.existing)
  /\ rejectsBeforeNetwork
       (PullRequest.createBitbucketServerPullRequestOpenAction Sample.imports
          (Sample.options Sample.integration)
          (Sample.pullRequestCtx Sample.noProjectUrl None))
       (InputError "Invalid URL provider was included in the repo URL to create bitbucket.example.com?repo=svc, missing project")
       (Sample.world Sample.existing).
Proof.
  pose proof (missing_project_rejected_before_network Sample.imports
                (Sample.options Sample.integration)
                {| host := "bitbucket.example.com"; project := None; repo := "svc" |}
                (Sample.world Sample.existing) eq_refl) as H.
  split.
  - exact (proj1 H (Sample.pushCtx Sample.noProjectUrl None) eq_refl).
  - exact (proj2 (proj2 (proj2 (proj2 H)))
             (Sample.pullRequestCtx Sample.noProjectUrl None) eq_refl).
Defined.

(** ** The push actions *)

Lemma orConfigured_total (config : Config) :
  (forall key, exists v, getOptionalString config key = Ok v) ->
  forall x key w,
    exists v, orConfigured config x key w = (Ok v, w)
              /\ (truthy x = true -> v = x).
Proof.
  intros Hc x key w. unfold orConfigured.
  destruct (truthy x) eqn:E.
  - exists x. split; [reflexivity | trivial].
  - destruct (Hc key) as [v Hv]. exists v. unfold liftR. rewrite Hv.
    split; [reflexivity | discriminate].
Qed.

Lemma gitCalls_push call (remote : jsval) w :
  gitCalls
    (snd (bind (git call)
            (fun commitResult =>
               ctx_output "commitHash" (commitHashOf commitResult) ;;;
               ctx_output "remoteUrl" remote) w))
  = (gitCalls w ++ [call])%list.
Proof.
  unfold bind, git, ctx_output.
  destruct (gitRemote w (gitCalls w) call); reflexivity.
Qed.

Lemma publishPush_call imp options ctx w rr remote w1 dir :
  (forall key, exists v, getOptionalString (config options) key = Ok v) ->
  resolveRepository imp options (PublishPush.repoUrl (input ctx))
    (PublishPush.token (input ctx)) w = (Ok rr, w) ->
  PublishPush.getRepositoryRemoteUrl (r_project rr) (r_repo rr) (r_authorization rr)
    (cfg_apiBaseUrl (r_integrationConfig rr)) w = (Ok remote, w1) ->
  getRepoSourceDirectory imp (workspacePath ctx) (PublishPush.sourcePath (input ctx))
  = Ok dir ->
  exists author message,
    gitCalls (snd (PublishPush.createPublishBitbucketServerPushAction imp options ctx w))
    = (gitCalls w1
       ++ [InitRepoAndPush
             {| push_dir := dir;
                push_remoteUrl := remote;
                push_auth := gitAuth (r_authConfig rr);
                push_defaultBranch :=
                  default "backstage/update" (PublishPush.targetBranch (input ctx));
                push_commitMessage := message;
                push_gitAuthorInfo := author |}])%list
    /\ (PublishPush.gitCommitMessage (input ctx) = None ->
        message = Some "commit by backstage").
Proof.
  intros Hc Hr Hu Hd.
  unfold PublishPush.createPublishBitbucketServerPushAction. cbv zeta.
  rewrite (bind_ok _ _ _ _ _ Hr).
  destruct (orConfigured_total _ Hc (PublishPush.gitAuthorName (input ctx))
              "scaffolder.defaultAuthor.name" w) as [name [Hn _]].
  rewrite (bind_ok _ _ _ _ _ Hn).
  destruct (orConfigured_total _ Hc (PublishPush.gitAuthorEmail (input ctx))
              "scaffolder.defaultAuthor.email" w) as [email [He _]].
  rewrite (bind_ok _ _ _ _ _ He), (bind_ok _ _ _ _ _ Hu).
  unfold liftR at 1. rewrite Hd. unfold bind at 1.
  destruct (orConfigured_total _ Hc
              (Some (default "commit by backstage"
                       (PublishPush.gitCommitMessage (input ctx))))
              "scaffolder.defaultCommitMessage" w1) as [m [Hm Heq]].
  rewrite (bind_ok _ _ _ _ _ Hm).
  exists {| author_name := name; author_email := email |}, m.
  split; [apply gitCalls_push|].
  intros Hnone. rewrite Hnone in Heq. now apply Heq.
Qed.

Lemma branchPush_call imp options ctx w rr info w1 dir :
  (forall key, exists v, getOptionalString (config options) key = Ok v) ->
  resolveRepository imp options (BranchPush.repoUrl (input ctx))
    (BranchPush.token (input ctx)) w = (Ok rr, w) ->
  Util.getRepoInfo (r_project rr) (r_repo rr) (r_authorization rr)
    (cfg_apiBaseUrl (r_integrationConfig rr)) w = (Ok info, w1) ->
  getRepoSourceDirectory imp (workspacePath ctx) (BranchPush.sourcePath (input ctx))
  = Ok dir ->
  exists author message,
    gitCalls (snd (BranchPush.createBitbucketServerBranchPushAction imp options ctx w))
    = (gitCalls w1
       ++ [InitRepoAndPush
             {| push_dir := dir;
                push_remoteUrl := remoteUrl info;
                push_auth := gitAuth (r_authConfig rr);
                push_defaultBranch := BranchPush.branch (input ctx);
                push_commitMessage := message;
                push_gitAuthorInfo := author |}])%list
    /\ (BranchPush.gitCommitMessage (input ctx) = None ->
        message = Some "init commit by backstage").
Proof.
  intros Hc Hr Hu Hd.
  unfold BranchPush.createBitbucketServerBranchPushAction. cbv zeta.
  rewrite (bind_ok _ _ _ _ _ Hr).
  destruct (orConfigured_total _ Hc (BranchPush.gitAuthorName (input ctx))
              "scaffolder.defaultAuthor.name" w) as [name [Hn _]].
  rewrite (bind_ok _ _ _ _ _ Hn).
  destruct (orConfigured_total _ Hc (BranchPush.gitAuthorEmail (input ctx))
              "scaffolder.defaultAuthor.email" w) as [email [He _]].
  rewrite (bind_ok _ _ _ _ _ He), (bind_ok _ _ _ _ _ Hu).
  unfold liftR at 1. rewrite Hd. unfold bind at 1.
  destruct (orConfigured_total _ Hc
              (Some (default "init commit by backstage"
                       (BranchPush.gitCommitMessage (input ctx))))
              "scaffolder.defaultCommitMessage" w1) as [m [Hm Heq]].
  rewrite (bind_ok _ _ _ _ _ Hm).
  exists {| author_name := name; author_email := email |}, m.
  split; [apply gitCalls_push|].
  intros Hnone. rewrite Hnone in Heq. now apply Heq.
Qed.

(** C10.  On a run that reaches the push, the push action with no
    [targetBranch] pushes to ['backstage/update'], not to the ['master']
    its schema describes, whatever the commit message is; with no
    [gitCommitMessage] it commits with ['commit by backstage'], whatever
    the target branch is; and the branch push action with no
    [gitCommitMessage] commits with ['init commit by backstage']. *)
Theorem push_defaults :
  forall (imp : Imports) (options : Options) (w : World),
    (forall key, exists v, getOptionalString (config options) key = Ok v) ->
    (forall ctx rr remote w1 dir,
        resolveRepository imp options (PublishPush.repoUrl (input ctx))
          (PublishPush.token (input ctx)) w = (Ok rr, w) ->
        PublishPush.getRepositoryRemoteUrl (r_project rr) (r_repo rr)
          (r_authorization rr) (cfg_apiBaseUrl (r_integrationConfig rr)) w
        = (Ok remote, w1) ->
        getRepoSourceDirectory imp (workspacePath ctx)
          (PublishPush.sourcePath (input ctx)) = Ok dir ->
        exists a,
          gitCalls
            (snd (PublishPush.createPublishBitbucketServerPushAction imp options ctx w))
          = (gitCalls w1 ++ [InitRepoAndPush a])%list
          /\ (PublishPush.targetBranch (input ctx) = None ->
              push_defaultBranch a = "backstage/update"
              /\ push_defaultBranch a <> "master")
          /\ (PublishPush.gitCommitMessage (input ctx) = None ->
              push_commitMessage a = Some "commit by backstage"))
    /\ (forall ctx rr info w1 dir,
           resolveRepository imp options (BranchPush.repoUrl (input ctx))
             (BranchPush.token (input ctx)) w = (Ok rr, w) ->
           Util.getRepoInfo (r_project rr) (r_repo rr) (r_authorization rr)
             (cfg_apiBaseUrl (r_integrationConfig rr)) w = (Ok info, w1) ->
           getRepoSourceDirectory imp (workspacePath ctx)
             (BranchPush.sourcePath (input ctx)) = Ok dir ->
           exists a,
             gitCalls
               (snd (BranchPush.createBitbucketServerBranchPushAction imp options ctx w))
             = (gitCalls w1 ++ [InitRepoAndPush a])%list
             /\ push_defaultBranch a = BranchPush.branch (input ctx)
             /\ (BranchPush.gitCommitMessage (input ctx) = None ->
                 push_commitMessage a = Some "init commit by backstage"))
    /\ occursIn "The default value is 'master'" PublishPush.targetBranch_description.
Proof.
  intros imp options w Hc. split; [|split].
  - intros ctx rr remote w1 dir Hr Hu Hd.
    destruct (publishPush_call imp options ctx w rr remote w1 dir Hc Hr Hu Hd)
      as (author & message & Hcalls & Hmsg).
    eexists. split; [exact Hcalls|]. cbn [push_defaultBranch push_commitMessage].
    split; [|exact Hmsg].
    intros Hb. rewrite Hb. cbn [default]. split; [reflexivity | discriminate].
  - intros ctx rr info w1 dir Hr Hu Hd.
    destruct (branchPush_call imp options ctx w rr info w1 dir Hc Hr Hu Hd)
      as (author & message & Hcalls & Hmsg).
    eexists. split; [exact Hcalls|]. cbn [push_defaultBranch push_commitMessage].
    split; [reflexivity | exact Hmsg].
  - exists "Sets the target branch for the pull request. ", "". reflexivity.
Qed.

Lemma push_defaults_witness :
  (exists a,
      gitCalls
        (snd (PublishPush.createPublishBitbucketServerPushAction Sample.imports
                (Sample.options Sample.integration)
                (Sample.pushCtx Sample.goodUrl None) (Sample.world Sample.existing)))
      = [InitRepoAndPush a]
      /\ push_defaultBranch a = "backstage/update"
      /\ push_defaultBranch a <> "master"
      /\ push_commitMessage a = Some "commit by backstage")
  /\ (exists a,
         gitCalls
           (snd (PublishPush.createPublishBitbucketServerPushAction Sample.imports
                   (Sample.options Sample.integration)
                   {| input :=
                        {| PublishPush.repoUrl := Sample.goodUrl;
                           PublishPush.targetBranch := None;
                           PublishPush.sourcePath := None;
                           PublishPush.token := None;
                           PublishPush.gitCommitMessage := Some "first import";
                           PublishPush.gitAuthorName := None;
                           PublishPush.gitAuthorEmail := None |};
                      workspacePath := "/workspace" |}
                   (Sample.world Sample.existing)))
         = [InitRepoAndPush a]
         /\ push_defaultBranch a = "backstage/update")
  /\ (exists a,
         gitCalls
           (snd (PublishPush.createPublishBitbucketServerPushAction Sample.imports
                   (Sample.options Sample.integration)
                   {| input :=
                        {| PublishPush.repoUrl := Sample.goodUrl;
                           PublishPush.targetBranch := Some "main";
                           PublishPush.sourcePath := None;
                           PublishPush.token := None;
                           PublishPush.gitCommitMessage := None;
                           PublishPush.gitAuthorName := None;
                           PublishPush.gitAuthorEmail := None |};
                      workspacePath := "/workspace" |}
                   (Sample.world Sample.existing)))
         = [InitRepoAndPush a]
         /\ push_commitMessage a = Some "commit by backstage")
  /\ (exists a,
         gitCalls
           (snd (BranchPush.createBitbucketServerBranchPushAction Sample.imports
                   (Sample.options Sample.integration)
                   (Sample.branchCtx Sample.goodUrl None)
                   (Sample.world Sample.existing)))
         = [InitRepoAndPush a]
         /\ push_defaultBranch a = "feature/update"
         /\ push_commitMessage a = Some "init commit by backstage").
Proof.
  pose proof (push_defaults Sample.imports (Sample.options Sample.integration)
                (Sample.world Sample.existing)
                (fun key => ex_intro _ None eq_refl)) as (Hpush & Hbranch & _).
  split; [|split; [|split]].
  - destruct (Hpush (Sample.pushCtx Sample.goodUrl None) _ _ _ _
                eq_refl eq_refl eq_refl) as (a & Hcalls & Hb & Hm).
    exists a. split; [exact Hcalls|].
    split; [exact (proj1 (Hb eq_refl))|]. split; [exact (proj2 (Hb eq_refl))|].
    exact (Hm eq_refl).
  - match goal with
    | |- context [PublishPush.createPublishBitbucketServerPushAction _ _ ?ctx _] =>
        destruct (Hpush ctx _ _ _ _ eq_refl eq_refl eq_refl) as (a & Hcalls & Hb & _)
    end.
    exists a. split; [exact Hcalls | exact (proj1 (Hb eq_refl))].
  - match goal with
    | |- context [PublishPush.createPublishBitbucketServerPushAction _ _ ?ctx _] =>
        destruct (Hpush ctx _ _ _ _ eq_refl eq_refl eq_refl) as (a & Hcalls & _ & Hm)
    end.
    exists a. split; [exact Hcalls | exact (Hm eq_refl)].
  - destruct (Hbranch (Sample.branchCtx Sample.goodUrl None) _ _ _ _
                eq_refl eq_refl eq_refl) as (a & Hcalls & Hb & Hm).
    exists a. split; [exact Hcalls|]. split; [exact Hb | exact (Hm eq_refl)].
Defined.

(** ** Credentials *)

Lemma gitAuth_with_token cfg token :
  gitAuth (with_token cfg token)
  = match token with
    | Some t =>
        if String.eqb t "" then BasicAuth (cfg_username cfg) (cfg_password cfg)
        else TokenAuth t
    | None => BasicAuth (cfg_username cfg) (cfg_password cfg)
    end.
Proof.
  unfold gitAuth, with_token; cbn [cfg_token cfg_username cfg_password].
  destruct token as [t|]; [|reflexivity].
  cbn [truthy default]. destruct (String.eqb t ""); reflexivity.
Qed.

(** C7.  With the location parsed and its integration found, the token in
    force is the caller's override when one is given and the configured
    token otherwise.  When the [Authorization] header derived from it is
    missing or empty, each handler throws and the world is as it was: no
    request has been made.  Otherwise the handler goes on with that
    header and that token; the git credential is the token when it is a
    non-empty string and the configured username and password when it is
    not, and on a push that reaches git the lookup request carries the
    header and the git call carries the credential. *)
Theorem authorization_resolution :
  forall (imp : Imports) (options : Options) (spec : RepoSpec)
         (cfg : BitbucketServerIntegrationConfig) (inputToken : option string)
         (w : World),
    let token := match inputToken with
                 | Some override => Some override
                 | None => cfg_token cfg
                 end in
    let authorization := getBitbucketServerRequestOptions imp (with_token cfg token) in
    let credential := match token with
                      | Some t =>
                          if String.eqb t ""
                          then BasicAuth (cfg_username cfg) (cfg_password cfg)
                          else TokenAuth t
                      | None => BasicAuth (cfg_username cfg) (cfg_password cfg)
                      end in
    let unauthorized :=
      Error ("Authorization has not been provided for " ++ cfg_host cfg
             ++ ". Please add either (a) a user login auth token, or (b) a token or (c) username + password to the integration config.") in
    truthy (project spec) = true ->
    byHost (integrations options) (host spec) = Some cfg ->
    (truthy authorization = false ->
     (forall ctx,
         parseRepoUrl imp (PublishPush.repoUrl (input ctx)) (integrations options) = Ok spec ->
         PublishPush.token (input ctx) = inputToken ->
         rejectsBeforeNetwork
           (PublishPush.createPublishBitbucketServerPushAction imp options ctx)
           unauthorized w)
     /\ (forall ctx,
            parseRepoUrl imp (BranchPush.repoUrl (input ctx)) (integrations options) = Ok spec ->
            BranchPush.token (input ctx) = inputToken ->
            rejectsBeforeNetwork
              (BranchPush.createBitbucketServerBranchPushAction imp options ctx)
              unauthorized w)
     /\ (forall ctx,
            parseRepoUrl imp (RepoClone.repoUrl (input ctx)) (integrations options) = Ok spec ->
            RepoClone.token (input ctx) = inputToken ->
            rejectsBeforeNetwork
              (RepoClone.createPublishBitbucketServerRepoCloneAction imp options ctx)
              unauthorized w)
     /\ (forall ctx,
            parseRepoUrl imp (RepoCreate.repoUrl (input ctx)) (integrations options) = Ok spec ->
            RepoCreate.token (input ctx) = inputToken ->
            rejectsBeforeNetwork
              (RepoCreate.createBitbucketServerRepoCreateAction imp options ctx)
              unauthorized w)
     /\ (forall ctx,
            parseRepoUrl imp (PullRequest.repoUrl (input ctx)) (integrations options) = Ok spec ->
            PullRequest.token (input ctx) = inputToken ->
            rejectsBeforeNetwork
              (PullRequest.createBitbucketServerPullRequestOpenAction imp options ctx)
              unauthorized w))
    /\ (forall header repoUrl,
           authorization = Some header -> header <> "" ->
           parseRepoUrl imp repoUrl (integrations options) = Ok spec ->
           exists rr,
             resolveRepository imp options repoUrl inputToken w = (Ok rr, w)
             /\ r_token rr = token
             /\ r_authorization rr = header
             /\ gitAuth (r_authConfig rr) = credential
             /\ (forall ctx remote w1 dir,
                    PublishPush.repoUrl (input ctx) = repoUrl ->
                    PublishPush.token (input ctx) = inputToken ->
                    (forall key, exists v, getOptionalString (config options) key = Ok v) ->
                    PublishPush.getRepositoryRemoteUrl (r_project rr) (r_repo rr) header
                      (cfg_apiBaseUrl cfg) w = (Ok remote, w1) ->
                    getRepoSourceDirectory imp (workspacePath ctx)
                      (PublishPush.sourcePath (input ctx)) = Ok dir ->
                    requests w1
                    = (requests w
                       ++ [{| method := "GET";
                              url := cfg_apiBaseUrl cfg ++ "/projects/" ++ r_project rr
                                     ++ "/repos/" ++ r_repo rr;
                              headers := [("Authorization", header);
                                          ("Content-Type", "application/json")];
                              body := None |}])%list
                    /\ exists a,
                        gitCalls
                          (snd (PublishPush.createPublishBitbucketServerPushAction
                                  imp options ctx w))
                        = (gitCalls w1 ++ [InitRepoAndPush a])%list
                        /\ push_auth a = credential)).
Proof.
  intros imp options spec cfg inputToken w token authorization credential
    unauthorized Hproj Hhost.
  assert (Hres : forall repoUrl,
             parseRepoUrl imp repoUrl (integrations options) = Ok spec ->
             resolveRepository imp options repoUrl inputToken w
             = if truthy authorization
               then (Ok {| r_project := default "" (project spec);
                           r_repo := repo spec;
                           r_host := host spec;
                           r_integrationConfig := cfg;
                           r_token := token;
                           r_authConfig := with_token cfg token;
                           r_authorization := default "" authorization |}, w)
               else (Throw unauthorized, w)).
  { intros repoUrl Hp.
    exact (resolveRepository_resolved imp options repoUrl inputToken spec cfg w
             Hp Hproj Hhost). }
  split.
  - intros Hf.
    split; [|split; [|split; [|split]]]; intros ctx Hp Ht; handler_stops_at_resolve;
      rewrite Ht, (Hres _ Hp), Hf; reflexivity.
  - intros header repoUrl Hauth Hne Hp.
    assert (Ht : truthy authorization = true).
    { rewrite Hauth. cbn [truthy]. apply negb_true_iff. now apply String.eqb_neq. }
    specialize (Hres _ Hp). rewrite Ht in Hres.
    eexists. split; [exact Hres|].
    cbn [r_token r_authorization r_authConfig r_project r_repo r_integrationConfig].
    split; [reflexivity|]. split; [now rewrite Hauth|].
    split; [apply gitAuth_with_token|].
    intros ctx remote w1 dir Hu Hk Hc Hrun Hd.
    split.
    + rewrite getRepositoryRemoteUrl_run in Hrun. injection Hrun as _ <-.
      apply requests_fetch.
    + rewrite <- Hu, <- Hk in Hres.
      destruct (publishPush_call imp options ctx w _ remote w1 dir Hc Hres) as
        (author & message & Hcalls & _).
      * cbn [r_project r_repo r_authorization r_integrationConfig].
        rewrite Hauth. exact Hrun.
      * exact Hd.
      * eexists. split; [exact Hcalls|]. cbn [push_auth r_authConfig].
        apply gitAuth_with_token.
Qed.

Lemma authorization_resolution_witness :
  rejectsBeforeNetwork
    (PublishPush.createPublishBitbucketServerPushAction Sample.imports
       (Sample.options Sample.anonymous) (Sample.pushCtx Sample.goodUrl None))
    (Error "Authorization has not been provided for bitbucket.example.com. Please add either (a) a user login auth token, or (b) a token or (c) username + password to the integration config.")
    (Sample.world Sample.existing)
  /\ exists rr,
      resolveRepository Sample.imports (Sample.options Sample.integration)
        Sample.goodUrl (Some "override") (Sample.world Sample.existing)
      = (Ok rr, Sample.world Sample.existing)
      /\ r_token rr = Some "override"
      /\ r_authorization rr = "Bearer override"
      /\ gitAuth (r_authConfig rr) = TokenAuth "override".
Proof.
  split.
  - exact (proj1 (proj1
      (authorization_resolution Sample.imports (Sample.options Sample.anonymous)
         {| host := "bitbucket.example.com"; project := Some "TEAM"; repo := "svc" |}
         Sample.anonymous None (Sample.world Sample.existing) eq_refl eq_refl)
      eq_refl) (Sample.pushCtx Sample.goodUrl None) eq_refl eq_refl).
  - destruct (proj2
      (authorization_resolution Sample.imports (Sample.options Sample.integration)
         {| host := "bitbucket.example.com"; project := Some "TEAM"; repo := "svc" |}
         Sample.integration (Some "override") (Sample.world Sample.existing)
         eq_refl eq_refl)
      "Bearer override" Sample.goodUrl eq_refl ltac:(discriminate) eq_refl)
      as (rr & Hr & Ht & Ha & Hg & _).
    exists rr. repeat split; assumption.
Defined.

(** An empty override is an override: it hides the configured token, and
    the configured username and password are used. *)
Example empty_override_hides_configured_token :
  exists rr,
    resolveRepository Sample.imports (Sample.options Sample.integration)
      Sample.goodUrl (Some "") (Sample.world Sample.existing)
    = (Ok rr, Sample.world Sample.existing)
    /\ r_token rr = Some ""
    /\ r_authorization rr = "Basic svc-user:svc-pass"
    /\ gitAuth (r_authConfig rr) = BasicAuth (Some "svc-user") (Some "svc-pass").
Proof. eexists. repeat split; reflexivity. Qed.

(** ** Large file storage *)

Lemma skipn_own {A} (l new : list A) : skipn (length l) (l ++ new) = new.
Proof. now rewrite skipn_app, skipn_all, Nat.sub_diag. Qed.

Lemma resolveRepository_world imp options repoUrl inputToken w :
  snd (resolveRepository imp options repoUrl inputToken w) = w.
Proof.
  unfold resolveRepository, bind, liftR, throw, ret.
  destruct (parseRepoUrl imp repoUrl (integrations options)) as [spec|e]; [|reflexivity].
  destruct (truthy (project spec)); cbn [negb]; [|reflexivity].
  destruct (byHost (integrations options) (host spec)) as [cfg|]; [|reflexivity].
  destruct (truthy _); reflexivity.
Qed.

Lemma createRepository_requests project repo description repoVisibility defaultBranch
    authorization apiBaseUrl w :
  exists new,
    requests (snd (RepoCreate.createRepository project repo description repoVisibility
                     defaultBranch authorization apiBaseUrl w))
    = (requests w ++ new)%list
    /\ Forall (fun req => method req <> "PUT") new.
Proof.
  rewrite createRepository_run. cbv zeta.
  set (post := RepoCreate.createRequest _ _ _ _ _ _ _).
  assert (Hpost : method post <> "PUT") by discriminate.
  assert (Hget : method (repoRequest project repo authorization apiBaseUrl) <> "PUT")
    by discriminate.
  destruct (server w (requests w) post) as [response|e] eqn:Hs.
  - destruct (status response =? 409).
    + rewrite getRepoInfo_run. cbn [snd]. rewrite requests_fetch.
      unfold logger_info. cbn [snd requests]. rewrite requests_fetch.
      rewrite <- app_assoc. eexists. split; [reflexivity|].
      repeat constructor; assumption.
    + destruct (status response =? 201); cbn [snd]; rewrite requests_fetch;
        eexists; (split; [reflexivity|]); repeat constructor; assumption.
  - cbn [snd]. rewrite requests_fetch. eexists. split; [reflexivity|].
    repeat constructor; assumption.
Qed.

(** C5.  With [enableLFS] set, once the repository record is in hand
    (created, or found after a 409), an answer to the LFS PUT that is not
    a 2xx makes the handler throw; the PUT is the last request made (the
    repository is not deleted) and nothing is output.  With [enableLFS]
    absent or false the handler makes no PUT request at all. *)
Theorem enableLFS_failure_is_fatal :
  forall (imp : Imports) (options : Options) (ctx : Ctx RepoCreate.Input) (w : World),
    let handler := RepoCreate.createBitbucketServerRepoCreateAction imp options ctx in
    (forall rr info w1 response,
        let put := RepoCreate.lfsRequest (r_authorization rr) (r_host rr)
                     (r_project rr) (r_repo rr) in
        RepoCreate.enableLFS (input ctx) = Some true ->
        resolveRepository imp options (RepoCreate.repoUrl (input ctx))
          (RepoCreate.token (input ctx)) w = (Ok rr, w) ->
        RepoCreate.createRepository (r_project rr) (r_repo rr)
          (RepoCreate.description (input ctx))
          (default RepoCreate.Private (RepoCreate.repoVisibility (input ctx)))
          (default "master" (RepoCreate.defaultBranch (input ctx)))
          (r_authorization rr) (cfg_apiBaseUrl (r_integrationConfig rr)) w
        = (Ok info, w1) ->
        server w1 (requests w1) put = Responded response ->
        ok response = false ->
        fst (handler w)
        = Throw (Error ("Failed to enable LFS in the repository, "
                        ++ num_toString (status response) ++ ": "
                        ++ statusText response))
        /\ requests (snd (handler w)) = (requests w1 ++ [put])%list
        /\ outputs (snd (handler w)) = outputs w1)
    /\ (RepoCreate.enableLFS (input ctx) <> Some true ->
        Forall (fun req => method req <> "PUT") (issued handler w)).
Proof.
  intros imp options ctx w handler. subst handler.
  unfold RepoCreate.createBitbucketServerRepoCreateAction. cbv zeta. split.
  - intros rr info w1 response Hflag Hr Hc Hs Hok.
    set (put := RepoCreate.lfsRequest (r_authorization rr) (r_host rr)
                  (r_project rr) (r_repo rr)) in *.
    match goal with
    | |- fst (?h w) = Throw ?e /\ _ =>
        assert (Hrun : h w = (Throw e, snd (fetch put w1)))
    end.
    { rewrite (bind_ok _ _ _ _ _ Hr), (bind_ok _ _ _ _ _ Hc), Hflag. cbn [default].
      unfold RepoCreate.performEnableLFS, bind, fetch. fold put.
      rewrite Hs. cbv beta iota zeta. rewrite Hok. reflexivity. }
    rewrite Hrun. cbn [fst snd]. rewrite requests_fetch.
    split; [reflexivity|]. split; [reflexivity|].
    unfold fetch. rewrite Hs. reflexivity.
  - intros Hflag.
    assert (Hoff : default false (RepoCreate.enableLFS (input ctx)) = false).
    { destruct (RepoCreate.enableLFS (input ctx)) as [[|]|]; try reflexivity.
      now contradiction Hflag. }
    rewrite Hoff. unfold issued.
    pose proof (resolveRepository_world imp options (RepoCreate.repoUrl (input ctx))
                  (RepoCreate.token (input ctx)) w) as Hw.
    destruct (resolveRepository imp options (RepoCreate.repoUrl (input ctx))
                (RepoCreate.token (input ctx)) w) as [[rr|e] w0] eqn:Hr;
      cbn [snd] in Hw; subst w0.
    + rewrite (bind_ok _ _ _ _ _ Hr).
      match goal with
      | |- context [bind (RepoCreate.createRepository ?p ?r ?d ?v ?b ?a ?u) _ w] =>
          destruct (createRepository_requests p r d v b a u w) as (new & Hn & Hput);
          destruct (RepoCreate.createRepository p r d v b a u w) as [[info|e] w1] eqn:Hc
      end; cbn [snd] in Hn.
      * rewrite (bind_ok _ _ _ _ _ Hc).
        unfold bind, ret, ctx_output. cbn [snd requests].
        rewrite Hn, skipn_own. exact Hput.
      * rewrite (bind_throw _ _ _ _ _ Hc). cbn [snd].
        rewrite Hn, skipn_own. exact Hput.
    + rewrite (bind_throw _ _ _ _ _ Hr). cbn [snd]. rewrite skipn_all. constructor.
Qed.

Lemma enableLFS_failure_is_fatal_witness :
  fst (RepoCreate.createBitbucketServerRepoCreateAction Sample.imports
         (Sample.options Sample.integration)
         (Sample.createCtx Sample.goodUrl None (Some true))
         (Sample.world Sample.existing))
  = Throw (Error "Failed to enable LFS in the repository, 500: LFS")
  /\ map method
       (requests
          (snd (RepoCreate.createBitbucketServerRepoCreateAction Sample.imports
                  (Sample.options Sample.integration)
                  (Sample.createCtx Sample.goodUrl None (Some true))
                  (Sample.world Sample.existing))))
     = ["POST"; "GET"; "PUT"]
  /\ Forall (fun req => method req <> "PUT")
       (issued
          (RepoCreate.createBitbucketServerRepoCreateAction Sample.imports
             (Sample.options Sample.integration)
             (Sample.createCtx Sample.goodUrl None None))
          (Sample.world Sample.existing)).
Proof.
  pose proof (proj1
    (enableLFS_failure_is_fatal Sample.imports (Sample.options Sample.integration)
       (Sample.createCtx Sample.goodUrl None (Some true))
       (Sample.world Sample.existing))
    _ _ _ _ eq_refl eq_refl eq_refl eq_refl eq_refl) as (Hthrow & Hreq & _).
  split; [exact Hthrow|]. split.
  - rewrite Hreq. reflexivity.
  - apply (proj2
      (enableLFS_failure_is_fatal Sample.imports (Sample.options Sample.integration)
         (Sample.createCtx Sample.goodUrl None None) (Sample.world Sample.existing))).
    discriminate.
Defined.

(** ** Concrete runs *)

(** A fresh repository: one POST, answered 201, and the record is read off
    its body. *)
Example createRepository_created :
  RepoCreate.createRepository "TEAM" "svc" (Some "a service") RepoCreate.Public "main"
    "Bearer t" Sample.apiBase (Sample.world Sample.fresh)
  = (Ok {| remoteUrl := VStr "https://bitbucket.example.com/scm/team/svc.git";
           repoContentsUrl := "https://bitbucket.example.com/projects/TEAM/repos/svc/browse";
           repoId := VNum 42 |},
     snd (fetch (RepoCreate.createRequest "TEAM" "svc" (Some "a service")
                   RepoCreate.Public "main" "Bearer t" Sample.apiBase)
            (Sample.world Sample.fresh))).
Proof. reflexivity. Qed.

(** A transport failure is reported with the text of what [fetch] threw. *)
Example getRepoInfo_offline :
  fst (Util.getRepoInfo "TEAM" "svc" "Bearer t" Sample.apiBase Sample.offline)
  = Throw (Error "Unable to get repository details, FetchError: request failed, reason: ECONNREFUSED").
Proof. reflexivity. Qed.

(** Link fields that are present but hold nothing usable are not an
    error: an empty clone list reads as the empty [remoteUrl], a self link
    without [href] as an undefined [prUrl]. *)
Example readPullRequest_incomplete_links :
  PullRequest.readPullRequest
    (VObj [("fromRef",
            VObj [("repository", VObj [("links", VObj [("clone", VArr [])])])]);
           ("links", VObj [("self", VArr [VObj []])])])
  = Ok {| PullRequest.pr_remoteUrl := VStr ""; PullRequest.prUrl := VUndef |}.
Proof. reflexivity. Qed.

(** Required reviewers that are not an array: [null] throws, an object
    without [length] counts as none. *)
Example getReviewers_null :
  PullRequest.getReviewers ["carol"] VNull
  = Throw (TypeError "Cannot read properties of null (reading 'length')").
Proof. reflexivity. Qed.

Example getReviewers_object :
  PullRequest.getReviewers ["carol"] (VObj [("errors", VArr [])]) = Ok [named "carol"].
Proof. reflexivity. Qed.

(** The clone action: one lookup, then clone, branch and checkout with the
    configured token, and three outputs. *)
Example clone_action_run :
  let run :=
    RepoClone.createPublishBitbucketServerRepoCloneAction Sample.imports
      (Sample.options Sample.integration) (Sample.cloneCtx Sample.goodUrl None)
      (Sample.world Sample.existing) in
  fst run = Ok tt
  /\ requests (snd run)
     = [repoRequest "TEAM" "svc" "Bearer configured-token" Sample.apiBase]
  /\ gitCalls (snd run)
     = [GitClone (TokenAuth "configured-token")
          (VStr "https://bitbucket.example.com/scm/team/svc.git") "/workspace" "master";
        GitBranch (TokenAuth "configured-token") "/workspace" "feature/update";
        GitCheckout (TokenAuth "configured-token") "/workspace" "feature/update"]
  /\ map fst (outputs (snd run)) = ["remoteUrl"; "repoContentsUrl"; "clonePath"].
Proof. repeat split. Qed.

(** The pull request action, end to end: lookup, reviewers query, POST. *)
Example pull_request_action_run :
  let run :=
    PullRequest.createBitbucketServerPullRequestOpenAction Sample.imports
      (Sample.options Sample.integration) (Sample.pullRequestCtx Sample.goodUrl None)
      (Sample.world Sample.existing) in
  fst run = Ok tt
  /\ map method (requests (snd run)) = ["GET"; "GET"; "POST"]
  /\ outputs (snd run)
     = [("remoteUrl", VStr "https://bitbucket.example.com/scm/team/svc.git");
        ("prUrl",
         VStr "https://bitbucket.example.com/projects/TEAM/repos/svc/pull-requests/7")]
  /\ logged (snd run)
     = ["Creating pull request {repo: bitbucket.example.com?project=TEAM&repo=svc, sourceBranch: feature/update, targetBranch: main";
        "Created pull request: https://bitbucket.example.com/projects/TEAM/repos/svc/pull-requests/7"].
Proof. repeat split. Qed.

(** The repository action with LFS on a server that grants it. *)
Example create_action_with_lfs :
  let run :=
    RepoCreate.createBitbucketServerRepoCreateAction Sample.imports
      (Sample.options Sample.integration)
      (Sample.createCtx Sample.goodUrl None (Some true)) (Sample.world Sample.fresh) in
  fst run = Ok tt
  /\ map method (requests (snd run)) = ["POST"; "PUT"]
  /\ outputs (snd run)
     = [("remoteUrl", VStr "https://bitbucket.example.com/scm/team/svc.git");
        ("repoContentsUrl",
         VStr "https://bitbucket.example.com/projects/TEAM/repos/svc/browse");
        ("repoId", VNum 42)].
Proof. repeat split. Qed.

(** * Further properties *)

(** ** Frames *)

Section Frames.

Context {X : Type} (f : World -> X).

Lemma preserves_ret {A} (a : A) : preserves f (ret a).
Proof. intros w. reflexivity. Qed.

Lemma preserves_throw {A} (e : jsError) : preserves f (@throw A e).
Proof. intros w. reflexivity. Qed.

Lemma preserves_liftR {A} (r : result A) : preserves f (liftR r).
Proof. intros w. reflexivity. Qed.

Lemma preserves_bind {A B} (c : M A) (k : A -> M B) :
  preserves f c -> (forall a, preserves f (k a)) -> preserves f (bind c k).
Proof.
  intros Hc Hk w. unfold bind. specialize (Hc w).
  destruct (c w) as [[a|e] w']; cbn [snd] in *; [|exact Hc].
  now rewrite Hk.
Qed.

Lemma preserves_tryCatch {A} (c : M A) (h : jsError -> M A) :
  preserves f c -> (forall e, preserves f (h e)) -> preserves f (tryCatch c h).
Proof.
  intros Hc Hh w. unfold tryCatch. specialize (Hc w).
  destruct (c w) as [[a|e] w']; cbn [snd] in *; [exact Hc|].
  now rewrite Hh.
Qed.

End Frames.

Lemma fetch_outputs req : preserves outputs (fetch req).
Proof. intros w. unfold fetch. now destruct (server w (requests w) req). Qed.

Lemma fetch_gitCalls req : preserves gitCalls (fetch req).
Proof. intros w. unfold fetch. now destruct (server w (requests w) req). Qed.

Lemma git_outputs call : preserves outputs (git call).
Proof. intros w. reflexivity. Qed.

Lemma git_requests call : preserves requests (git call).
Proof. intros w. reflexivity. Qed.

Lemma logger_outputs line : preserves outputs (logger_info line).
Proof. intros w. reflexivity. Qed.

Lemma logger_gitCalls line : preserves gitCalls (logger_info line).
Proof. intros w. reflexivity. Qed.

Lemma logger_requests line : preserves requests (logger_info line).
Proof. intros w. reflexivity. Qed.

Lemma output_gitCalls name value : preserves gitCalls (ctx_output name value).
Proof. intros w. reflexivity. Qed.

Lemma output_requests name value : preserves requests (ctx_output name value).
Proof. intros w. reflexivity. Qed.

Create HintDb frame.
#[local] Hint Resolve fetch_outputs fetch_gitCalls git_outputs git_requests
  logger_outputs logger_gitCalls logger_requests output_gitCalls output_requests
  : frame.

(** Splits a goal [preserves f c] along the shape of [c]. *)
Ltac frame :=
  repeat first
    [ progress intros
    | progress cbv zeta
    | apply preserves_bind
    | apply preserves_tryCatch
    | apply preserves_ret
    | apply preserves_throw
    | apply preserves_liftR
    | solve [auto with frame]
    | match goal with
      | |- preserves _ (if ?b then _ else _) => destruct b
      | |- preserves _ (match ?x with _ => _ end) => destruct x
      end ].

Lemma resolveRepository_frame {X} (f : World -> X) imp options repoUrl inputToken :
  preserves f (resolveRepository imp options repoUrl inputToken).
Proof. unfold resolveRepository. frame. Qed.

Lemma orConfigured_frame {X} (f : World -> X) config x key :
  preserves f (orConfigured config x key).
Proof. unfold orConfigured. frame. Qed.

Lemma getRepoInfo_outputs p r a u : preserves outputs (Util.getRepoInfo p r a u).
Proof. unfold Util.getRepoInfo. frame. Qed.

Lemma getRepoInfo_gitCalls p r a u : preserves gitCalls (Util.getRepoInfo p r a u).
Proof. unfold Util.getRepoInfo. frame. Qed.

Lemma getRequiredReviewers_outputs p r s sr t tr a u :
  preserves outputs (Util.getRequiredReviewers p r s sr t tr a u).
Proof. unfold Util.getRequiredReviewers. frame. Qed.

Lemma getRequiredReviewers_gitCalls p r s sr t tr a u :
  preserves gitCalls (Util.getRequiredReviewers p r s sr t tr a u).
Proof. unfold Util.getRequiredReviewers. frame. Qed.

Lemma cloneGetRepoInfo_outputs p r a u : preserves outputs (RepoClone.getRepoInfo p r a u).
Proof. unfold RepoClone.getRepoInfo. frame. Qed.

Lemma getRepositoryRemoteUrl_outputs p r a u :
  preserves outputs (PublishPush.getRepositoryRemoteUrl p r a u).
Proof. unfold PublishPush.getRepositoryRemoteUrl. frame. Qed.

Lemma createRepository_outputs p r d v b a u :
  preserves outputs (RepoCreate.createRepository p r d v b a u).
Proof.
  unfold RepoCreate.createRepository. frame.
Qed.

Lemma createRepository_gitCalls p r d v b a u :
  preserves gitCalls (RepoCreate.createRepository p r d v b a u).
Proof.
  unfold RepoCreate.createRepository. frame.
Qed.

Lemma performEnableLFS_outputs a h p r :
  preserves outputs (RepoCreate.performEnableLFS a h p r).
Proof. unfold RepoCreate.performEnableLFS. frame. Qed.

Lemma performEnableLFS_gitCalls a h p r :
  preserves gitCalls (RepoCreate.performEnableLFS a h p r).
Proof. unfold RepoCreate.performEnableLFS. frame. Qed.

Lemma createPullRequest_outputs t d p r s tb rv a u :
  preserves outputs (PullRequest.createPullRequest t d p r s tb rv a u).
Proof.
  unfold PullRequest.createPullRequest. frame.
Qed.

Lemma createPullRequest_gitCalls t d p r s tb rv a u :
  preserves gitCalls (PullRequest.createPullRequest t d p r s tb rv a u).
Proof.
  unfold PullRequest.createPullRequest. frame.
Qed.

(** ** Outputs *)

Lemma aon_bind {A B} names (c : M A) (k : A -> M B) :
  preserves outputs c ->
  (forall a, outputsAllOrNothing names (k a)) ->
  outputsAllOrNothing names (bind c k).
Proof.
  intros Hc Hk w. unfold bind. specialize (Hc w).
  destruct (c w) as [[a|e] w']; cbn [fst snd] in *; [|exact Hc].
  specialize (Hk a w'). rewrite Hc in Hk. exact Hk.
Qed.

Lemma aon_two n1 v1 n2 v2 :
  outputsAllOrNothing [n1; n2] (ctx_output n1 v1 ;;; ctx_output n2 v2).
Proof.
  intros w. cbn. exists [(n1, v1); (n2, v2)].
  split; [now rewrite <- app_assoc | reflexivity].
Qed.

Lemma aon_three n1 v1 n2 v2 n3 v3 :
  outputsAllOrNothing [n1; n2; n3]
    (ctx_output n1 v1 ;;; ctx_output n2 v2 ;;; ctx_output n3 v3).
Proof.
  intros w. cbn. exists [(n1, v1); (n2, v2); (n3, v3)].
  split; [now rewrite <- !app_assoc | reflexivity].
Qed.

#[local] Hint Resolve resolveRepository_frame orConfigured_frame
  getRepoInfo_outputs getRepoInfo_gitCalls
  getRequiredReviewers_outputs getRequiredReviewers_gitCalls
  cloneGetRepoInfo_outputs getRepositoryRemoteUrl_outputs
  createRepository_outputs createRepository_gitCalls
  performEnableLFS_outputs performEnableLFS_gitCalls
  createPullRequest_outputs createPullRequest_gitCalls : frame.

Ltac all_or_nothing :=
  autounfold with handlers; cbv zeta;
  repeat (apply aon_bind; [solve [frame] | intros]);
  first [apply aon_two | apply aon_three].

(** X1.  No handler reports a partial result: a handler that throws has
    output nothing, and a handler that returns has output exactly its
    named results, each once and in a fixed order. *)
Theorem handlers_output_all_or_nothing :
  forall (imp : Imports) (options : Options),
    (forall ctx,
        outputsAllOrNothing ["commitHash"; "remoteUrl"]
          (PublishPush.createPublishBitbucketServerPushAction imp options ctx))
    /\ (forall ctx,
           outputsAllOrNothing ["commitHash"; "remoteUrl"]
             (BranchPush.createBitbucketServerBranchPushAction imp options ctx))
    /\ (forall ctx,
           outputsAllOrNothing ["remoteUrl"; "repoContentsUrl"; "clonePath"]
             (RepoClone.createPublishBitbucketServerRepoCloneAction imp options ctx))
    /\ (forall ctx,
           outputsAllOrNothing ["remoteUrl"; "repoContentsUrl"; "repoId"]
             (RepoCreate.createBitbucketServerRepoCreateAction imp options ctx))
    /\ (forall ctx,
           outputsAllOrNothing ["remoteUrl"; "prUrl"]
             (PullRequest.createBitbucketServerPullRequestOpenAction imp options ctx)).
Proof.
  intros imp options.
  split; [|split; [|split; [|split]]]; intros ctx; all_or_nothing.
Qed.

(** ** More on the reviewer merge *)

Lemma In_notRequired names users u :
  In u (filter (notRequired names) users) <-> In u users /\ ~ In u names.
Proof.
  rewrite filter_In. unfold notRequired. rewrite negb_true_iff.
  split; intros [Hu Hn]; split; try assumption.
  - intros Hin. apply existsb_eqb_In in Hin. congruence.
  - destruct (existsb (String.eqb u) names) eqn:E; [|reflexivity].
    apply existsb_eqb_In in E. contradiction.
Qed.

(** X2.  Over well-formed required reviewers the merge neither loses nor
    invents anyone: a username is in the result exactly when it is the
    name of a required reviewer or one of the requested usernames, and
    the result is no longer than the two inputs together. *)
Theorem getReviewers_members :
  forall (required : list jsval) (names users : list string),
    map reviewerName required = map Some names ->
    exists merged,
      PullRequest.getReviewers users (VArr required) = Ok merged
      /\ (forall n, In (named n) merged <-> In n names \/ In n users)
      /\ (forall u, In u merged -> exists n, u = named n)
      /\ (length required <= length merged <= length required + length users)%nat.
Proof.
  intros required names users H.
  eexists. split; [apply getReviewers_named; exact H|].
  assert (Hlen : length required = length names).
  { rewrite <- (length_map reviewerName), H. apply length_map. }
  assert (Hinj : forall n l, In (named n) (map named l) <-> In n l).
  { intros n l. rewrite in_map_iff. split.
    - intros [x [E Hx]]. injection E as ->. exact Hx.
    - intros Hn. now exists n. }
  split; [|split].
  - intros n. rewrite in_app_iff, !Hinj, In_notRequired.
    split.
    + intros [Hn|[Hu _]]; auto.
    + intros [Hn|Hu]; [now left|].
      destruct (in_dec string_dec n names); [now left | now right].
  - intros u Hu. apply in_app_or in Hu.
    destruct Hu as [Hu|Hu]; apply in_map_iff in Hu as [n [<- _]]; now exists n.
  - rewrite length_app, !length_map, Hlen.
    pose proof (filter_length_le (notRequired names) users). lia.
Qed.

Lemma getReviewers_members_witness :
  exists merged,
    PullRequest.getReviewers ["bob"; "carol"] (VArr [Sample.alice; Sample.bob]) = Ok merged
    /\ (forall n, In (named n) merged <-> In n ["alice"; "bob"] \/ In n ["bob"; "carol"])
    /\ (forall u, In u merged -> exists n, u = named n)
    /\ (2 <= length merged <= 2 + 2)%nat.
Proof.
  exact (getReviewers_members [Sample.alice; Sample.bob] ["alice"; "bob"]
           ["bob"; "carol"] eq_refl).
Defined.

Lemma prop_defined v k :
  is_nullish v = false -> k <> "length" -> prop v k = Ok (member k v).
Proof.
  intros Hv Hk. apply String.eqb_neq in Hk.
  destruct v; try discriminate; cbn [prop member]; rewrite ?Hk; reflexivity.
Qed.

Lemma prop_nullish v k :
  is_nullish v = true -> exists msg, prop v k = Throw (TypeError msg).
Proof. destruct v; try discriminate; intros _; cbn [prop]; eauto. Qed.

Lemma requiredLoop_defined :
  forall rest pre requiredUsers reviewers,
    existsb is_nullish rest = false ->
    PullRequest.requiredLoop (length rest) (length pre) (VArr (pre ++ rest)%list)
      requiredUsers reviewers
    = Ok ((requiredUsers ++ map (member "name") rest)%list,
          (reviewers
           ++ map (fun v => {| PullRequest.user_name := member "name" v |}) rest)%list).
Proof.
  induction rest as [|x rest IH]; intros pre us rs H.
  - simpl. now rewrite !app_nil_r.
  - cbn [existsb] in H. apply orb_false_iff in H as [Hx Hrest].
    cbn [length PullRequest.requiredLoop].
    unfold index. rewrite nth_middle. cbn [rbind].
    rewrite (prop_defined _ _ Hx) by discriminate. cbn [rbind].
    replace (pre ++ x :: rest)%list with ((pre ++ [x]) ++ rest)%list
      by (rewrite <- app_assoc; reflexivity).
    replace (S (length pre)) with (length (pre ++ [x])%list)
      by (rewrite length_app; simpl; lia).
    rewrite (IH (pre ++ [x])%list _ _ Hrest).
    simpl. now rewrite <- !app_assoc.
Qed.

Lemma requiredLoop_nullish :
  forall rest pre requiredUsers reviewers,
    existsb is_nullish rest = true ->
    exists msg,
      PullRequest.requiredLoop (length rest) (length pre) (VArr (pre ++ rest)%list)
        requiredUsers reviewers
      = Throw (TypeError msg).
Proof.
  induction rest as [|x rest IH]; intros pre us rs H; [discriminate|].
  cbn [length PullRequest.requiredLoop].
  unfold index. rewrite nth_middle. cbn [rbind].
  destruct (is_nullish x) eqn:Hx.
  - destruct (prop_nullish x "name" Hx) as [msg ->]. cbn [rbind]. eauto.
  - rewrite (prop_defined _ _ Hx) by discriminate. cbn [rbind].
    cbn [existsb] in H. rewrite Hx in H. cbn [orb] in H.
    replace (pre ++ x :: rest)%list with ((pre ++ [x]) ++ rest)%list
      by (rewrite <- app_assoc; reflexivity).
    replace (S (length pre)) with (length (pre ++ [x])%list)
      by (rewrite length_app; simpl; lia).
    apply IH. exact H.
Qed.

Lemma requestedLoop_extends :
  forall users requiredUsers reviewers,
    exists tail,
      PullRequest.requestedLoop users requiredUsers reviewers
      = (reviewers ++ tail)%list
      /\ Forall (fun r => exists u, In u users /\ r = named u) tail.
Proof.
  induction users as [|u users IH]; intros ru rs; cbn [PullRequest.requestedLoop].
  - exists []. split; [now rewrite app_nil_r | constructor].
  - destruct (PullRequest.includes ru u).
    + destruct (IH ru rs) as (tail & -> & Ht). exists tail. split; [reflexivity|].
      eapply Forall_impl; [|exact Ht]. intros r (v & Hv & ->). exists v.
      split; [now right | reflexivity].
    + destruct (IH ru (rs ++ [{| PullRequest.user_name := VStr u |}])%list)
        as (tail & -> & Ht).
      exists (named u :: tail). split; [now rewrite <- app_assoc|].
      constructor.
      * exists u. split; [now left | reflexivity].
      * eapply Forall_impl; [|exact Ht]. intros r (v & Hv & ->). exists v.
        split; [now right | reflexivity].
Qed.

(** X3.  On an array of required reviewers the merge throws exactly when
    an element is [null] or [undefined], and then it throws a
    [TypeError]; otherwise it returns one entry per element, carrying the
    element's [name] member whatever that is, followed by requested
    usernames only. *)
Theorem getReviewers_array :
  forall (items : list jsval) (users : list string),
    (existsb is_nullish items = true ->
     exists msg, PullRequest.getReviewers users (VArr items) = Throw (TypeError msg))
    /\ (existsb is_nullish items = false ->
        exists tail,
          PullRequest.getReviewers users (VArr items)
          = Ok (map (fun v => {| PullRequest.user_name := member "name" v |}) items
                ++ tail)%list
          /\ Forall (fun r => exists u, In u users /\ r = named u) tail).
Proof.
  intros items users. unfold PullRequest.getReviewers.
  change (prop (VArr items) "length") with (Ok (VNum (Z.of_nat (length items)))).
  cbn [rbind]. unfold iterations, toNumber. rewrite Nat2Z.id.
  split; intros H.
  - destruct (requiredLoop_nullish items [] [] [] H) as [msg Hm].
    cbn [app length] in Hm. rewrite Hm. cbn [rbind]. eauto.
  - pose proof (requiredLoop_defined items [] [] [] H) as Hm.
    cbn [app length] in Hm. rewrite Hm. cbn [rbind fst snd].
    destruct (requestedLoop_extends users (map (member "name") items)
                (map (fun v => {| PullRequest.user_name := member "name" v |}) items))
      as (tail & -> & Ht).
    now exists tail.
Qed.

Lemma getReviewers_array_witness :
  (exists msg,
      PullRequest.getReviewers ["carol"] (VArr [Sample.alice; VNull]) = Throw (TypeError msg))
  /\ exists tail,
      PullRequest.getReviewers ["carol"] (VArr [Sample.alice; VObj []; VStr "bob"])
      = Ok ([named "alice"; {| PullRequest.user_name := VUndef |};
             {| PullRequest.user_name := VUndef |}] ++ tail)%list
      /\ Forall (fun r => exists u, In u ["carol"] /\ r = named u) tail.
Proof.
  split.
  - exact (proj1 (getReviewers_array [Sample.alice; VNull] ["carol"]) eq_refl).
  - exact (proj2 (getReviewers_array [Sample.alice; VObj []; VStr "bob"] ["carol"])
             eq_refl).
Defined.

(** ** The three lookups *)

Lemma cloneGetRepoInfo_run project repo authorization apiBaseUrl w :
  RepoClone.getRepoInfo project repo authorization apiBaseUrl w
  = (lookupResult
       (fun r =>
          let? clone := props r ["links"; "clone"] in
          let? items := iterate clone in
          let? remoteUrl := scanCloneLinks items (VStr "") in
          let? self := props r ["links"; "self"] in
          let? first := index self 0 in
          let? href := prop first "href" in
          Ok {| RepoClone.remoteUrl := remoteUrl;
                RepoClone.repoContentsUrl := toString href |})
       (server w (requests w) (repoRequest project repo authorization apiBaseUrl)),
     snd (fetch (repoRequest project repo authorization apiBaseUrl) w)).
Proof.
  unfold RepoClone.getRepoInfo, bind, tryCatch, fetch, throw, liftR, lookupResult.
  destruct (server w (requests w) _) as [response|e]; cbn [fst snd]; [|reflexivity].
  destruct (status response =? 200); cbn [negb]; [|reflexivity].
  destruct (json response); reflexivity.
Qed.

Lemma readers_agree r :
  match readRepoInfo r with
  | Ok info =>
      (let? clone := props r ["links"; "clone"] in
       let? items := iterate clone in
       let? remote := scanCloneLinks items (VStr "") in
       let? self := props r ["links"; "self"] in
       let? first := index self 0 in
       let? href := prop first "href" in
       Ok {| RepoClone.remoteUrl := remote;
             RepoClone.repoContentsUrl := toString href |})
      = Ok {| RepoClone.remoteUrl := remoteUrl info;
              RepoClone.repoContentsUrl := repoContentsUrl info |}
      /\ (let? clone := props r ["links"; "clone"] in
          let? items := iterate clone in
          scanCloneLinks items (VStr ""))
         = Ok (remoteUrl info)
  | Throw _ =>
      exists e,
        (let? clone := props r ["links"; "clone"] in
         let? items := iterate clone in
         let? remote := scanCloneLinks items (VStr "") in
         let? self := props r ["links"; "self"] in
         let? first := index self 0 in
         let? href := prop first "href" in
         Ok {| RepoClone.remoteUrl := remote;
               RepoClone.repoContentsUrl := toString href |})
        = Throw e
  end.
Proof.
  unfold readRepoInfo. destruct (is_nullish r) eqn:Hn.
  - destruct r; try discriminate; cbn; eauto.
  - rewrite (prop_defined r "id" Hn) by discriminate. cbn [rbind].
    destruct (props r ["links"; "clone"]) as [clone|e]; cbn [rbind]; [|eauto].
    destruct (iterate clone) as [items|e]; cbn [rbind]; [|eauto].
    destruct (scanCloneLinks items (VStr "")) as [remote|e]; cbn [rbind]; [|eauto].
    destruct (props r ["links"; "self"]) as [self|e]; cbn [rbind]; [|eauto].
    destruct (index self 0) as [first|e]; cbn [rbind]; [|eauto].
    destruct (prop first "href") as [href|e]; cbn [rbind]; [|eauto].
    split; reflexivity.
Qed.

(** X4.  The three copies of the repository lookup (the shared
    [getRepoInfo], the clone action's own, and the push action's
    [getRepositoryRemoteUrl]) make the same request and, wherever the
    shared one returns a record, return the same [remoteUrl] and
    [repoContentsUrl]; the clone action's copy returns exactly when the
    shared one does. *)
Theorem lookups_agree :
  forall project repo authorization apiBaseUrl w,
    let shared := Util.getRepoInfo project repo authorization apiBaseUrl w in
    let cloning := RepoClone.getRepoInfo project repo authorization apiBaseUrl w in
    let pushing :=
      PublishPush.getRepositoryRemoteUrl project repo authorization apiBaseUrl w in
    snd cloning = snd shared
    /\ snd pushing = snd shared
    /\ (forall info,
           fst shared = Ok info ->
           fst cloning = Ok {| RepoClone.remoteUrl := remoteUrl info;
                               RepoClone.repoContentsUrl := repoContentsUrl info |}
           /\ fst pushing = Ok (remoteUrl info))
    /\ (forall links, fst cloning = Ok links -> exists info, fst shared = Ok info).
Proof.
  intros project repo authorization apiBaseUrl w shared cloning pushing.
  subst shared cloning pushing.
  rewrite getRepoInfo_run, cloneGetRepoInfo_run, getRepositoryRemoteUrl_run.
  cbn [fst snd]. split; [reflexivity|]. split; [reflexivity|].
  unfold lookupResult.
  destruct (server w (requests w) _) as [response|e];
    [|split; [intros info H | intros links H]; discriminate].
  destruct (status response =? 200);
    [|split; [intros info H | intros links H]; discriminate].
  destruct (json response) as [r|e]; cbn [rbind];
    [|split; [intros info H | intros links H]; discriminate].
  pose proof (readers_agree r) as Ha.
  destruct (readRepoInfo r) as [info|e].
  - destruct Ha as [Hc Hp]. split.
    + intros info' H. injection H as <-. now split.
    + intros links _. now exists info.
  - destruct Ha as [e' He']. split.
    + intros info H. discriminate.
    + intros links H. rewrite He' in H. discriminate.
Qed.

Lemma rbind_throw_inv {A B} (c : result A) (k : A -> result B) e :
  rbind c k = Throw e -> c = Throw e \/ exists a, c = Ok a /\ k a = Throw e.
Proof.
  destruct c as [a|e']; cbn; intros H; [right; eauto | left].
  now injection H as ->.
Qed.

Lemma prop_TypeError v k e : prop v k = Throw e -> isTypeError e = true.
Proof. destruct v; cbn; intros H; try discriminate; now injection H as <-. Qed.

Lemma index_TypeError v i e : index v i = Throw e -> isTypeError e = true.
Proof.
  destruct v; cbn [index]; intros H; try discriminate; eapply prop_TypeError; eassumption.
Qed.

Lemma iterate_TypeError v e : iterate v = Throw e -> isTypeError e = true.
Proof. destruct v; cbn [iterate]; intros H; try discriminate; now injection H as <-. Qed.

Lemma props_TypeError path : forall v e, props v path = Throw e -> isTypeError e = true.
Proof.
  induction path as [|k path IH]; intros v e H; [discriminate|].
  cbn [props] in H. apply rbind_throw_inv in H as [H|(x & _ & H)].
  - eapply prop_TypeError; eassumption.
  - eapply IH; eassumption.
Qed.

Lemma scanCloneLinks_TypeError links :
  forall acc e, scanCloneLinks links acc = Throw e -> isTypeError e = true.
Proof.
  induction links as [|link links IH]; intros acc e H; [discriminate|].
  cbn [scanCloneLinks] in H. apply rbind_throw_inv in H as [H|(name & _ & H)].
  - eapply prop_TypeError; eassumption.
  - destruct (strict_eq_str name "http").
    + apply rbind_throw_inv in H as [H|(href & _ & H)].
      * eapply prop_TypeError; eassumption.
      * eapply IH; eassumption.
    + eapply IH; eassumption.
Qed.

Lemma readRepoInfo_TypeError r e : readRepoInfo r = Throw e -> isTypeError e = true.
Proof.
  unfold readRepoInfo. intros H.
  apply rbind_throw_inv in H as [H|(x1 & _ & H)]; [eapply prop_TypeError; eassumption|].
  apply rbind_throw_inv in H as [H|(x2 & _ & H)]; [eapply props_TypeError; eassumption|].
  apply rbind_throw_inv in H as [H|(x3 & _ & H)]; [eapply iterate_TypeError; eassumption|].
  apply rbind_throw_inv in H as [H|(x4 & _ & H)];
    [eapply scanCloneLinks_TypeError; eassumption|].
  apply rbind_throw_inv in H as [H|(x5 & _ & H)]; [eapply props_TypeError; eassumption|].
  apply rbind_throw_inv in H as [H|(x6 & _ & H)]; [eapply index_TypeError; eassumption|].
  apply rbind_throw_inv in H as [H|(x7 & _ & H)]; [eapply prop_TypeError; eassumption|].
  discriminate.
Qed.

Lemma readRepoInfo_absent r :
  field ["links"; "clone"] r = None
  \/ field ["links"; "self"] r = None
  \/ field ["links"; "self"] r = Some (VArr []) ->
  exists e, readRepoInfo r = Throw e.
Proof.
  intros H. unfold readRepoInfo.
  destruct (prop r "id") as [repoId|e]; cbn [rbind]; [|eauto].
  destruct (props r ["links"; "clone"]) as [clone|e] eqn:Ec; cbn [rbind]; [|eauto].
  destruct (iterate clone) as [items|e] eqn:Ei; cbn [rbind]; [|eauto].
  destruct (scanCloneLinks items (VStr "")) as [remote|e]; cbn [rbind]; [|eauto].
  destruct H as [H|[H|H]].
  - apply props_absent in H; [|simpl; intros [E|[E|[]]]; discriminate].
    rewrite Ec in H. destruct H as [H|[e H]]; [|discriminate].
    injection H as ->. discriminate.
  - apply props_absent in H; [|simpl; intros [E|[E|[]]]; discriminate].
    destruct H as [->|[e ->]]; cbn [rbind index prop]; eauto.
  - rewrite (props_field _ _ _ H). cbn [rbind index nth prop]. eauto.
Qed.

(** X5.  A lookup answered 200 never fails with the "Unable to get
    repository details" error: a body that does not parse fails with the
    parser's own error, and a record without [links.clone], without
    [links.self] or with an empty [links.self] fails with a bare
    [TypeError].  The push action's lookup does not read [links.self], so
    it returns the clone URL of a record that the shared lookup rejects. *)
Theorem lookup_answered_200 :
  forall project repo authorization apiBaseUrl w response,
    let shared := Util.getRepoInfo project repo authorization apiBaseUrl w in
    let pushing :=
      PublishPush.getRepositoryRemoteUrl project repo authorization apiBaseUrl w in
    server w (requests w) (repoRequest project repo authorization apiBaseUrl)
    = Responded response ->
    status response = 200 ->
    (forall e, json response = Throw e -> fst shared = Throw e)
    /\ (forall r e, json response = Ok r -> fst shared = Throw e -> isTypeError e = true)
    /\ (forall r,
           json response = Ok r ->
           field ["links"; "clone"] r = None
           \/ field ["links"; "self"] r = None
           \/ field ["links"; "self"] r = Some (VArr []) ->
           exists msg, fst shared = Throw (TypeError msg))
    /\ (forall r links,
           json response = Ok r ->
           field ["links"; "clone"] r = Some (VArr links) ->
           forallb is_object links = true ->
           field ["links"; "self"] r = None ->
           fst pushing = Ok (httpHref links)
           /\ exists msg, fst shared = Throw (TypeError msg)).
Proof.
  intros project repo authorization apiBaseUrl w response shared pushing Hs H200.
  subst shared pushing.
  rewrite getRepoInfo_run, getRepositoryRemoteUrl_run, Hs. cbn [fst].
  unfold lookupResult. apply Z.eqb_eq in H200. rewrite H200.
  assert (Hbare : forall r,
             field ["links"; "clone"] r = None
             \/ field ["links"; "self"] r = None
             \/ field ["links"; "self"] r = Some (VArr []) ->
             exists msg, readRepoInfo r = Throw (TypeError msg)).
  { intros r Habs. destruct (readRepoInfo_absent r Habs) as [e He].
    pose proof (readRepoInfo_TypeError r e He) as Ht.
    destruct e; try discriminate. eauto. }
  split; [|split; [|split]].
  - intros e ->. reflexivity.
  - intros r e ->. cbn [rbind]. apply readRepoInfo_TypeError.
  - intros r -> Habs. cbn [rbind]. now apply Hbare.
  - intros r links -> Hc Hl Hself. cbn [rbind]. split.
    + rewrite (props_field _ _ _ Hc). cbn [rbind iterate].
      now rewrite (scanCloneLinks_objects _ _ Hl).
    + apply Hbare. right. now left.
Qed.

Lemma lookup_answered_200_witness :
  fst (PublishPush.getRepositoryRemoteUrl "TEAM" "svc" "Bearer t" Sample.apiBase
         (Scenario.answering (Sample.respond 200 "OK" Scenario.repoNoSelf)))
  = Ok (VStr "https://bitbucket.example.com/scm/team/svc.git")
  /\ (exists msg,
         fst (Util.getRepoInfo "TEAM" "svc" "Bearer t" Sample.apiBase
                (Scenario.answering (Sample.respond 200 "OK" Scenario.repoNoSelf)))
         = Throw (TypeError msg))
  /\ fst (Util.getRepoInfo "TEAM" "svc" "Bearer t" Sample.apiBase
            (Scenario.answering (Scenario.notJson 200)))
     = Throw (FetchError "invalid json response body").
Proof.
  pose proof (lookup_answered_200 "TEAM" "svc" "Bearer t" Sample.apiBase
                (Scenario.answering (Sample.respond 200 "OK" Scenario.repoNoSelf))
                _ eq_refl eq_refl) as (_ & _ & _ & H).
  destruct (H Scenario.repoNoSelf _ eq_refl eq_refl eq_refl eq_refl) as [Hp Hs].
  split; [exact Hp|]. split; [exact Hs|].
  exact (proj1 (lookup_answered_200 "TEAM" "svc" "Bearer t" Sample.apiBase
                  (Scenario.answering (Scenario.notJson 200)) _ eq_refl eq_refl)
           _ eq_refl).
Defined.

(** ** More on pull requests *)

Lemma getRequiredReviewers_run projectKey repositorySlug sourceRepoId sourceRefId
    targetRepoId targetRefId authorization apiBaseUrl w :
  let req := reviewersRequest projectKey repositorySlug sourceRepoId sourceRefId
               targetRepoId targetRefId authorization apiBaseUrl in
  Util.getRequiredReviewers projectKey repositorySlug sourceRepoId sourceRefId
    targetRepoId targetRefId authorization apiBaseUrl w
  = (match server w (requests w) req with
     | Rejected e =>
         Throw (Error ("Unable to get default reviewers, " ++ error_toString e))
     | Responded response =>
         if status response =? 200 then json response
         else Throw (Error ("Unable to get default reviewers, "
                            ++ num_toString (status response) ++ " "
                            ++ statusText response ++ ", " ++ text response))
     end,
     snd (fetch req w)).
Proof.
  intros req. unfold Util.getRequiredReviewers. cbv zeta.
  match goal with
  | |- context [fetch ?r] => change r with req
  end.
  unfold bind, tryCatch, fetch, throw, liftR, ret.
  destruct (server w (requests w) req) as [response|e]; cbn [fst snd]; [|reflexivity].
  destruct (status response =? 200); cbn [negb]; [|reflexivity].
  destruct (json response); reflexivity.
Qed.

(** X6.  The reviewers query is one GET; answered with a status other
    than 200 it fails with an error made of the status, the status text
    and the body, and answered 200 it hands on the parsed body as it is,
    array or not. *)
Theorem getRequiredReviewers_answered :
  forall projectKey repositorySlug sourceRepoId sourceRefId targetRepoId targetRefId
         authorization apiBaseUrl w response,
    let req := reviewersRequest projectKey repositorySlug sourceRepoId sourceRefId
                 targetRepoId targetRefId authorization apiBaseUrl in
    let query := Util.getRequiredReviewers projectKey repositorySlug sourceRepoId
                   sourceRefId targetRepoId targetRefId authorization apiBaseUrl in
    server w (requests w) req = Responded response ->
    issued query w = [req]
    /\ (status response <> 200 ->
        fst (query w)
        = Throw (Error ("Unable to get default reviewers, "
                        ++ num_toString (status response) ++ " "
                        ++ statusText response ++ ", " ++ text response)))
    /\ (status response = 200 -> fst (query w) = json response).
Proof.
  intros projectKey repositorySlug sourceRepoId sourceRefId targetRepoId targetRefId
    authorization apiBaseUrl w response req query Hs.
  subst query. unfold issued. rewrite getRequiredReviewers_run. fold req.
  rewrite Hs. cbn [fst snd]. split; [apply issued_fetch|]. split.
  - intros Hne. apply Z.eqb_neq in Hne. now rewrite Hne.
  - intros He. apply Z.eqb_eq in He. now rewrite He.
Qed.

Lemma getRequiredReviewers_answered_witness :
  fst (Util.getRequiredReviewers "TEAM" "svc" (VNum 42) "refs/heads/feature/update"
         (VNum 42) None "Bearer t" Sample.apiBase (Sample.world Sample.existing))
  = Ok (VArr [Sample.alice; Sample.bob])
  /\ fst (Util.getRequiredReviewers "TEAM" "svc" (VNum 42) "refs/heads/feature/update"
            (VNum 42) None "Bearer t" Sample.apiBase
            (Scenario.answering (Sample.respond 200 "OK" (VObj [("errors", VArr [])]))))
     = Ok (VObj [("errors", VArr [])])
  /\ fst (Util.getRequiredReviewers "TEAM" "svc" (VNum 42) "refs/heads/feature/update"
            (VNum 42) None "Bearer t" Sample.apiBase
            (Scenario.answering (Sample.respond 403 "Forbidden" VNull)))
     = Throw (Error "Unable to get default reviewers, 403 Forbidden, null").
Proof.
  split; [|split].
  - exact (proj2 (proj2
      (getRequiredReviewers_answered "TEAM" "svc" (VNum 42) "refs/heads/feature/update"
         (VNum 42) None "Bearer t" Sample.apiBase (Sample.world Sample.existing)
         _ eq_refl)) eq_refl).
  - exact (proj2 (proj2
      (getRequiredReviewers_answered "TEAM" "svc" (VNum 42) "refs/heads/feature/update"
         (VNum 42) None "Bearer t" Sample.apiBase
         (Scenario.answering (Sample.respond 200 "OK" (VObj [("errors", VArr [])])))
         _ eq_refl)) eq_refl).
  - refine (proj1 (proj2
      (getRequiredReviewers_answered "TEAM" "svc" (VNum 42) "refs/heads/feature/update"
         (VNum 42) None "Bearer t" Sample.apiBase
         (Scenario.answering (Sample.respond 403 "Forbidden" VNull))
         _ eq_refl)) _).
    discriminate.
Defined.

Lemma readPullRequest_record r links self0 selfs :
  field ["fromRef"; "repository"; "links"; "clone"] r = Some (VArr links) ->
  forallb is_object links = true ->
  field ["links"; "self"] r = Some (VArr (self0 :: selfs)) ->
  is_object self0 = true ->
  PullRequest.readPullRequest r
  = Ok {| PullRequest.pr_remoteUrl := httpHref links;
          PullRequest.prUrl := member "href" self0 |}.
Proof.
  intros Hc Hl Hs H0. unfold PullRequest.readPullRequest.
  rewrite (props_field _ _ _ Hc), (props_field _ _ _ Hs).
  cbn [rbind iterate index nth]. rewrite (scanCloneLinks_objects _ _ Hl).
  cbn [rbind]. rewrite (prop_member _ _ H0). reflexivity.
Qed.

(** X7.  A pull-request POST answered 201 with a well-formed body makes
    [createPullRequest] return the http clone URL of the source
    repository as the answer names it (the empty string if it names
    none) and the href of the pull request's first self link; the POST is
    the last request made. *)
Theorem createPullRequest_created :
  forall title description project repo sourceBranch targetBranch reviewers
         authorization apiBaseUrl w info w1 required w2 merged response r
         links self0 selfs,
    let create := PullRequest.createPullRequest title description project repo
                    sourceBranch targetBranch reviewers authorization apiBaseUrl in
    let post := PullRequest.pullRequestRequest title description project repo
                  sourceBranch targetBranch (VArr (map PullRequest.User_json merged))
                  authorization apiBaseUrl in
    Util.getRepoInfo project repo authorization apiBaseUrl w = (Ok info, w1) ->
    Util.getRequiredReviewers project repo (repoId info) ("refs/heads/" ++ sourceBranch)
      (repoId info) (Some ("refs/heads/" ++ targetBranch)) authorization apiBaseUrl w1
    = (Ok required, w2) ->
    PullRequest.getReviewers (default [] reviewers) required = Ok merged ->
    server w2 (requests w2) post = Responded response ->
    status response = 201 ->
    json response = Ok r ->
    field ["fromRef"; "repository"; "links"; "clone"] r = Some (VArr links) ->
    forallb is_object links = true ->
    field ["links"; "self"] r = Some (VArr (self0 :: selfs)) ->
    is_object self0 = true ->
    fst (create w)
    = Ok {| PullRequest.pr_remoteUrl := httpHref links;
            PullRequest.prUrl := member "href" self0 |}
    /\ requests (snd (create w)) = (requests w2 ++ [post])%list.
Proof.
  intros title description project repo sourceBranch targetBranch reviewers
    authorization apiBaseUrl w info w1 required w2 merged response r links self0
    selfs create post H1 H2 Hm Hs H201 Hj Hc Hl Hself H0.
  subst create. rewrite (createPullRequest_run _ _ _ _ _ _ _ _ _ _ _ _ _ _ H1 H2).
  rewrite Hm. cbv zeta. fold post. rewrite Hs.
  apply Z.eqb_eq in H201. rewrite H201, Hj. cbn [rbind fst snd].
  split; [now apply readPullRequest_record with (selfs := selfs)|].
  apply requests_fetch.
Qed.

Lemma createPullRequest_created_witness :
  fst (PullRequest.createPullRequest "t" None "TEAM" "svc" "feature/update" "main"
         (Some ["carol"]) "Bearer t" Sample.apiBase (Sample.world Sample.existing))
  = Ok {| PullRequest.pr_remoteUrl :=
            VStr "https://bitbucket.example.com/scm/team/svc.git";
          PullRequest.prUrl :=
            VStr "https://bitbucket.example.com/projects/TEAM/repos/svc/pull-requests/7" |}.
Proof.
  exact (proj1
    (createPullRequest_created "t" None "TEAM" "svc" "feature/update" "main"
       (Some ["carol"]) "Bearer t" Sample.apiBase (Sample.world Sample.existing)
       _ _ _ _ _ _ Sample.prJson _ _ _
       eq_refl eq_refl eq_refl eq_refl eq_refl eq_refl eq_refl eq_refl eq_refl eq_refl)).
Defined.

(** X8.  [createPullRequest] posts nothing unless everything before the
    POST went well: when the lookup fails, or the reviewers query fails,
    or the merge throws, it fails with that very error and the only
    requests made are the GETs up to that point. *)
Theorem createPullRequest_prerequisites :
  forall title description project repo sourceBranch targetBranch reviewers
         authorization apiBaseUrl w,
    let create := PullRequest.createPullRequest title description project repo
                    sourceBranch targetBranch reviewers authorization apiBaseUrl in
    let lookup := Util.getRepoInfo project repo authorization apiBaseUrl in
    let query info :=
      Util.getRequiredReviewers project repo (repoId info)
        ("refs/heads/" ++ sourceBranch) (repoId info)
        (Some ("refs/heads/" ++ targetBranch)) authorization apiBaseUrl in
    (forall e w1,
        lookup w = (Throw e, w1) ->
        create w = (Throw e, w1) /\ map method (issued create w) = ["GET"])
    /\ (forall info w1 e w2,
           lookup w = (Ok info, w1) ->
           query info w1 = (Throw e, w2) ->
           create w = (Throw e, w2) /\ map method (issued create w) = ["GET"; "GET"])
    /\ (forall info w1 required w2 e,
           lookup w = (Ok info, w1) ->
           query info w1 = (Ok required, w2) ->
           PullRequest.getReviewers (default [] reviewers) required = Throw e ->
           create w = (Throw e, w2) /\ map method (issued create w) = ["GET"; "GET"]).
Proof.
  intros title description project repo sourceBranch targetBranch reviewers
    authorization apiBaseUrl w create lookup query.
  assert (Hl : forall r w1, lookup w = (r, w1) ->
                 requests w1
                 = (requests w ++ [repoRequest project repo authorization apiBaseUrl])%list).
  { intros r w1 H. subst lookup. rewrite getRepoInfo_run in H.
    injection H as _ <-. apply requests_fetch. }
  assert (Hq : forall info r w1 w2, query info w1 = (r, w2) ->
                 exists req, requests w2 = (requests w1 ++ [req])%list
                             /\ method req = "GET").
  { intros info r w1 w2 H. subst query. cbv beta in H.
    rewrite getRequiredReviewers_run in H. cbv zeta in H.
    injection H as _ <-. eexists. split; [apply requests_fetch | reflexivity]. }
  split; [|split].
  - intros e w1 H. assert (Hc : create w = (Throw e, w1)).
    { subst create. unfold PullRequest.createPullRequest. cbv zeta.
      now apply bind_throw. }
    split; [exact Hc|]. unfold issued. rewrite Hc. cbn [snd].
    rewrite (Hl _ _ H), skipn_own. reflexivity.
  - intros info w1 e w2 H1 H2. assert (Hc : create w = (Throw e, w2)).
    { subst create. unfold PullRequest.createPullRequest. cbv zeta.
      rewrite (bind_ok _ _ _ _ _ H1). now apply bind_throw. }
    split; [exact Hc|]. unfold issued. rewrite Hc. cbn [snd].
    destruct (Hq _ _ _ _ H2) as (req & -> & Hm).
    rewrite (Hl _ _ H1), <- app_assoc, skipn_own. cbn. now rewrite Hm.
  - intros info w1 required w2 e H1 H2 Hm. assert (Hc : create w = (Throw e, w2)).
    { subst create.
      rewrite (createPullRequest_run _ _ _ _ _ _ _ _ _ _ _ _ _ _ H1 H2).
      now rewrite Hm. }
    split; [exact Hc|]. unfold issued. rewrite Hc. cbn [snd].
    destruct (Hq _ _ _ _ H2) as (req & -> & Hg).
    rewrite (Hl _ _ H1), <- app_assoc, skipn_own. cbn. now rewrite Hg.
Qed.

Lemma createPullRequest_prerequisites_witness :
  map method
    (issued
       (PullRequest.createPullRequest "t" None "TEAM" "svc" "feature/update" "main"
          None "Bearer t" Sample.apiBase)
       (Sample.world Sample.forbidden))
  = ["GET"]
  /\ map method
       (issued
          (PullRequest.createPullRequest "t" None "TEAM" "svc" "feature/update" "main"
             None "Bearer t" Sample.apiBase)
          (Scenario.withReviewers (Sample.respond 403 "Forbidden" VNull)))
     = ["GET"; "GET"]
  /\ map method
       (issued
          (PullRequest.createPullRequest "t" None "TEAM" "svc" "feature/update" "main"
             None "Bearer t" Sample.apiBase)
          (Scenario.withReviewers (Sample.respond 200 "OK" (VArr [VNull]))))
     = ["GET"; "GET"].
Proof.
  split; [|split].
  - exact (proj2 (proj1
      (createPullRequest_prerequisites "t" None "TEAM" "svc" "feature/update" "main"
         None "Bearer t" Sample.apiBase (Sample.world Sample.forbidden))
      _ _ eq_refl)).
  - exact (proj2 (proj1 (proj2
      (createPullRequest_prerequisites "t" None "TEAM" "svc" "feature/update" "main"
         None "Bearer t" Sample.apiBase
         (Scenario.withReviewers (Sample.respond 403 "Forbidden" VNull))))
      _ _ _ _ eq_refl eq_refl)).
  - exact (proj2 (proj2 (proj2
      (createPullRequest_prerequisites "t" None "TEAM" "svc" "feature/update" "main"
         None "Bearer t" Sample.apiBase
         (Scenario.withReviewers (Sample.respond 200 "OK" (VArr [VNull])))))
      _ _ _ _ _ eq_refl eq_refl eq_refl)).
Defined.

(** ** Transport failures *)

(** X9.  A request that does not get through fails the lookups, the
    repository creation, the reviewers query and the pull-request POST
    with an [Error] that names the step and quotes what [fetch] threw;
    [performEnableLFS] alone lets what [fetch] threw through as it is. *)
Theorem transport_failures :
  forall (w : World) (e : jsError),
    (forall project repo authorization apiBaseUrl,
        server w (requests w) (repoRequest project repo authorization apiBaseUrl)
        = Rejected e ->
        let wrapped :=
          Error ("Unable to get repository details, " ++ error_toString e) in
        fst (Util.getRepoInfo project repo authorization apiBaseUrl w) = Throw wrapped
        /\ fst (RepoClone.getRepoInfo project repo authorization apiBaseUrl w)
           = Throw wrapped
        /\ fst (PublishPush.getRepositoryRemoteUrl project repo authorization apiBaseUrl w)
           = Throw wrapped)
    /\ (forall project repo description repoVisibility defaultBranch authorization
               apiBaseUrl,
           server w (requests w)
             (RepoCreate.createRequest project repo description repoVisibility
                defaultBranch authorization apiBaseUrl)
           = Rejected e ->
           fst (RepoCreate.createRepository project repo description repoVisibility
                  defaultBranch authorization apiBaseUrl w)
           = Throw (Error ("Unable to create repository, " ++ error_toString e)))
    /\ (forall projectKey repositorySlug sourceRepoId sourceRefId targetRepoId
               targetRefId authorization apiBaseUrl,
           server w (requests w)
             (reviewersRequest projectKey repositorySlug sourceRepoId sourceRefId
                targetRepoId targetRefId authorization apiBaseUrl)
           = Rejected e ->
           fst (Util.getRequiredReviewers projectKey repositorySlug sourceRepoId
                  sourceRefId targetRepoId targetRefId authorization apiBaseUrl w)
           = Throw (Error ("Unable to get default reviewers, " ++ error_toString e)))
    /\ (forall title description project repo sourceBranch targetBranch reviewers
               authorization apiBaseUrl w0 info w1 required merged,
           Util.getRepoInfo project repo authorization apiBaseUrl w0 = (Ok info, w1) ->
           Util.getRequiredReviewers project repo (repoId info)
             ("refs/heads/" ++ sourceBranch) (repoId info)
             (Some ("refs/heads/" ++ targetBranch)) authorization apiBaseUrl w1
           = (Ok required, w) ->
           PullRequest.getReviewers (default [] reviewers) required = Ok merged ->
           server w (requests w)
             (PullRequest.pullRequestRequest title description project repo sourceBranch
                targetBranch (VArr (map PullRequest.User_json merged)) authorization
                apiBaseUrl)
           = Rejected e ->
           fst (PullRequest.createPullRequest title description project repo sourceBranch
                  targetBranch reviewers authorization apiBaseUrl w0)
           = Throw (Error ("Unable to create pull request, " ++ error_toString e)))
    /\ (forall authorization host project repo,
           server w (requests w) (RepoCreate.lfsRequest authorization host project repo)
           = Rejected e ->
           fst (RepoCreate.performEnableLFS authorization host project repo w) = Throw e).
Proof.
  intros w e. split; [|split; [|split; [|split]]].
  - intros project repo authorization apiBaseUrl Hs wrapped.
    rewrite getRepoInfo_run, cloneGetRepoInfo_run, getRepositoryRemoteUrl_run, Hs.
    repeat split.
  - intros project repo description repoVisibility defaultBranch authorization
      apiBaseUrl Hs.
    rewrite createRepository_run. cbv zeta. now rewrite Hs.
  - intros projectKey repositorySlug sourceRepoId sourceRefId targetRepoId targetRefId
      authorization apiBaseUrl Hs.
    rewrite getRequiredReviewers_run. cbv zeta. now rewrite Hs.
  - intros title description project repo sourceBranch targetBranch reviewers
      authorization apiBaseUrl w0 info w1 required merged H1 H2 Hm Hs.
    rewrite (createPullRequest_run _ _ _ _ _ _ _ _ _ _ _ _ _ _ H1 H2), Hm.
    cbv zeta. now rewrite Hs.
  - intros authorization host project repo Hs.
    unfold RepoCreate.performEnableLFS, bind, fetch. now rewrite Hs.
Qed.

Lemma transport_failures_witness :
  fst (Util.getRepoInfo "TEAM" "svc" "Bearer t" Sample.apiBase Sample.offline)
  = Throw (Error "Unable to get repository details, FetchError: request failed, reason: ECONNREFUSED")
  /\ fst (RepoCreate.performEnableLFS "Bearer t" "bitbucket.example.com" "TEAM" "svc"
            Sample.offline)
     = Throw (FetchError "request failed, reason: ECONNREFUSED").
Proof.
  pose proof (transport_failures Sample.offline
                (FetchError "request failed, reason: ECONNREFUSED")) as (Hl & _ & _ & _ & Hf).
  split.
  - exact (proj1 (Hl "TEAM" "svc" "Bearer t" Sample.apiBase eq_refl)).
  - exact (Hf "Bearer t" "bitbucket.example.com" "TEAM" "svc" eq_refl).
Defined.

(** ** More on the opening lines *)

Lemma resolveRepository_result imp options repoUrl inputToken w :
  resolveRepository imp options repoUrl inputToken w
  = (fst (resolveRepository imp options repoUrl inputToken w), w).
Proof.
  rewrite <- (resolveRepository_world imp options repoUrl inputToken w) at 3.
  now destruct (resolveRepository imp options repoUrl inputToken w).
Qed.

Ltac stops_with H :=
  handler_stops_at_resolve; rewrite resolveRepository_result, H; reflexivity.

(** X10.  A handler fails as its opening lines fail, before any request
    or git call: what [parseRepoUrl] throws is thrown on as it is, and a
    host without an integration is answered with an [InputError] naming
    the host. *)
Theorem unresolved_location_rejected :
  forall (imp : Imports) (options : Options) (w : World),
    (forall repoUrl inputToken,
        (forall e,
            parseRepoUrl imp repoUrl (integrations options) = Throw e ->
            fst (resolveRepository imp options repoUrl inputToken w) = Throw e)
        /\ (forall spec,
               parseRepoUrl imp repoUrl (integrations options) = Ok spec ->
               truthy (project spec) = true ->
               byHost (integrations options) (host spec) = None ->
               fst (resolveRepository imp options repoUrl inputToken w)
               = Throw (InputError ("No matching integration configuration for host "
                                    ++ host spec
                                    ++ ", please check your integrations config"))))
    /\ (forall ctx e,
           fst (resolveRepository imp options (PublishPush.repoUrl (input ctx))
                  (PublishPush.token (input ctx)) w) = Throw e ->
           rejectsBeforeNetwork
             (PublishPush.createPublishBitbucketServerPushAction imp options ctx) e w)
    /\ (forall ctx e,
           fst (resolveRepository imp options (BranchPush.repoUrl (input ctx))
                  (BranchPush.token (input ctx)) w) = Throw e ->
           rejectsBeforeNetwork
             (BranchPush.createBitbucketServerBranchPushAction imp options ctx) e w)
    /\ (forall ctx e,
           fst (resolveRepository imp options (RepoClone.repoUrl (input ctx))
                  (RepoClone.token (input ctx)) w) = Throw e ->
           rejectsBeforeNetwork
             (RepoClone.createPublishBitbucketServerRepoCloneAction imp options ctx) e w)
    /\ (forall ctx e,
           fst (resolveRepository imp options (RepoCreate.repoUrl (input ctx))
                  (RepoCreate.token (input ctx)) w) = Throw e ->
           rejectsBeforeNetwork
             (RepoCreate.createBitbucketServerRepoCreateAction imp options ctx) e w)
    /\ (forall ctx e,
           fst (resolveRepository imp options (PullRequest.repoUrl (input ctx))
                  (PullRequest.token (input ctx)) w) = Throw e ->
           rejectsBeforeNetwork
             (PullRequest.createBitbucketServerPullRequestOpenAction imp options ctx) e w).
Proof.
  intros imp options w.
  split; [|split; [|split; [|split; [|split]]]];
    try (intros ctx e H; stops_with H).
  intros repoUrl inputToken. split.
  - intros e H. unfold resolveRepository, bind, liftR. now rewrite H.
  - intros spec Hp Ht Hh. unfold resolveRepository, bind, liftR, throw.
    now rewrite Hp, Ht, Hh.
Qed.

Lemma unresolved_location_rejected_witness :
  rejectsBeforeNetwork
    (RepoClone.createPublishBitbucketServerRepoCloneAction Sample.imports
       (Sample.options Sample.integration) (Sample.cloneCtx "nowhere" None))
    (InputError "Invalid repo URL passed to publisher: nowhere")
    (Sample.world Sample.existing)
  /\ fst (resolveRepository Sample.imports
            {| integrations := {| byHost := fun _ => None |};
               config := {| getOptionalString := fun _ => Ok None |} |}
            Sample.goodUrl None (Sample.world Sample.existing))
     = Throw (InputError "No matching integration configuration for host bitbucket.example.com, please check your integrations config").
Proof.
  split.
  - exact (proj1 (proj2 (proj2 (proj2
      (unresolved_location_rejected Sample.imports (Sample.options Sample.integration)
         (Sample.world Sample.existing)))))
      (Sample.cloneCtx "nowhere" None) _ eq_refl).
  - exact (proj2 (proj1
      (unresolved_location_rejected Sample.imports
         {| integrations := {| byHost := fun _ => None |};
            config := {| getOptionalString := fun _ => Ok None |} |}
         (Sample.world Sample.existing)) Sample.goodUrl None)
      _ eq_refl eq_refl eq_refl).
Defined.

(** ** The clone action *)

(** X11.  Once the lookup has returned, the clone action clones the
    looked-up URL at the base branch (['master'] unless given) into the
    clone path (the workspace unless given), then creates the checkout
    branch, then checks it out.  It stops at the first git call that
    throws, with that error and without output; when all three return it
    outputs the remote URL, the contents URL and the clone path. *)
Theorem clone_action_steps :
  forall (imp : Imports) (options : Options) (ctx : Ctx RepoClone.Input)
         (w : World) (rr : Resolved) (info : RepoClone.RepoLinks) (w1 : World),
    let auth := gitAuth (r_authConfig rr) in
    let dir := match RepoClone.clonePath (input ctx) with
               | Some p => p
               | None => workspacePath ctx
               end in
    let base := match RepoClone.baseBranch (input ctx) with
                | Some b => b
                | None => "master"
                end in
    let c1 := GitClone auth (RepoClone.remoteUrl info) dir base in
    let c2 := GitBranch auth dir (RepoClone.checkoutBranch (input ctx)) in
    let c3 := GitCheckout auth dir (RepoClone.checkoutBranch (input ctx)) in
    let run := RepoClone.createPublishBitbucketServerRepoCloneAction imp options ctx w in
    let g := gitRemote w1 in
    let h := gitCalls w1 in
    resolveRepository imp options (RepoClone.repoUrl (input ctx))
      (RepoClone.token (input ctx)) w = (Ok rr, w) ->
    RepoClone.getRepoInfo (r_project rr) (r_repo rr) (r_authorization rr)
      (cfg_apiBaseUrl (r_integrationConfig rr)) w = (Ok info, w1) ->
    (forall e,
        g h c1 = Throw e ->
        fst run = Throw e
        /\ gitCalls (snd run) = (h ++ [c1])%list
        /\ outputs (snd run) = outputs w1)
    /\ (forall x e,
           g h c1 = Ok x -> g (h ++ [c1])%list c2 = Throw e ->
           fst run = Throw e
           /\ gitCalls (snd run) = (h ++ [c1; c2])%list
           /\ outputs (snd run) = outputs w1)
    /\ (forall x y e,
           g h c1 = Ok x -> g (h ++ [c1])%list c2 = Ok y ->
           g (h ++ [c1; c2])%list c3 = Throw e ->
           fst run = Throw e
           /\ gitCalls (snd run) = (h ++ [c1; c2; c3])%list
           /\ outputs (snd run) = outputs w1)
    /\ (forall x y z,
           g h c1 = Ok x -> g (h ++ [c1])%list c2 = Ok y ->
           g (h ++ [c1; c2])%list c3 = Ok z ->
           fst run = Ok tt
           /\ gitCalls (snd run) = (h ++ [c1; c2; c3])%list
           /\ outputs (snd run)
              = (outputs w1
                 ++ [("remoteUrl", RepoClone.remoteUrl info);
                     ("repoContentsUrl", VStr (RepoClone.repoContentsUrl info));
                     ("clonePath", VStr dir)])%list).
Proof.
  intros imp options ctx w rr info w1 auth dir base c1 c2 c3 run g h Hr Hl.
  assert (Hrun : run
                 = (git c1 ;;; git c2 ;;; git c3 ;;;
                    ctx_output "remoteUrl" (RepoClone.remoteUrl info) ;;;
                    ctx_output "repoContentsUrl" (VStr (RepoClone.repoContentsUrl info)) ;;;
                    ctx_output "clonePath" (VStr dir)) w1).
  { subst run. unfold RepoClone.createPublishBitbucketServerRepoCloneAction. cbv zeta.
    rewrite (bind_ok _ _ _ _ _ Hr), (bind_ok _ _ _ _ _ Hl). reflexivity. }
  rewrite Hrun. unfold bind, git, ctx_output. cbn [gitRemote gitCalls fst snd outputs].
  fold g h.
  assert (A2 : ((h ++ [c1]) ++ [c2])%list = (h ++ [c1; c2])%list)
    by now rewrite <- app_assoc.
  assert (A3 : ((h ++ [c1; c2]) ++ [c3])%list = (h ++ [c1; c2; c3])%list)
    by now rewrite <- app_assoc.
  split; [|split; [|split]].
  - intros e H1. rewrite H1. cbn. auto.
  - intros x e H1 H2. rewrite H1. cbn [gitRemote gitCalls fst snd outputs].
    fold g. rewrite H2. cbn. rewrite A2. auto.
  - intros x y e H1 H2 H3. rewrite H1. cbn [gitRemote gitCalls fst snd outputs].
    fold g. rewrite H2. cbn [gitRemote gitCalls fst snd outputs].
    fold g. rewrite A2, H3. cbn. rewrite A3. auto.
  - intros x y z H1 H2 H3. rewrite H1. cbn [gitRemote gitCalls fst snd outputs].
    fold g. rewrite H2. cbn [gitRemote gitCalls fst snd outputs].
    fold g. rewrite A2, H3. cbn. rewrite A3, <- !app_assoc. auto.
Qed.

Lemma clone_action_steps_witness :
  let run :=
    RepoClone.createPublishBitbucketServerRepoCloneAction Sample.imports
      (Sample.options Sample.integration) (Sample.cloneCtx Sample.goodUrl None)
      (Scenario.gitFailingAt 1 Sample.existing) in
  fst run = Throw (Error "git failed")
  /\ gitCalls (snd run)
     = [GitClone (TokenAuth "configured-token")
          (VStr "https://bitbucket.example.com/scm/team/svc.git") "/workspace" "master";
        GitBranch (TokenAuth "configured-token") "/workspace" "feature/update"]
  /\ outputs (snd run) = [].
Proof.
  exact (proj1 (proj2
    (clone_action_steps Sample.imports (Sample.options Sample.integration)
       (Sample.cloneCtx Sample.goodUrl None) (Scenario.gitFailingAt 1 Sample.existing)
       _ _ _ eq_refl eq_refl))
    _ _ eq_refl eq_refl).
Defined.

(** ** More on the push actions *)

Lemma orConfigured_value (config : Config) x key w :
  (forall k, exists v, getOptionalString config k = Ok v) ->
  orConfigured config x key w = (Ok (orElseConfigured config x key), w).
Proof.
  intros Hc. unfold orConfigured, orElseConfigured, configuredString, liftR, ret.
  destruct (Hc key) as [v Hv]. rewrite Hv.
  destruct x as [s|]; cbn [truthy]; [|reflexivity].
  destruct (String.eqb s ""); reflexivity.
Qed.

Lemma publishPush_args imp options ctx w rr remote w1 dir :
  (forall key, exists v, getOptionalString (config options) key = Ok v) ->
  resolveRepository imp options (PublishPush.repoUrl (input ctx))
    (PublishPush.token (input ctx)) w = (Ok rr, w) ->
  PublishPush.getRepositoryRemoteUrl (r_project rr) (r_repo rr) (r_authorization rr)
    (cfg_apiBaseUrl (r_integrationConfig rr)) w = (Ok remote, w1) ->
  getRepoSourceDirectory imp (workspacePath ctx) (PublishPush.sourcePath (input ctx))
  = Ok dir ->
  gitCalls (snd (PublishPush.createPublishBitbucketServerPushAction imp options ctx w))
  = (gitCalls w1
     ++ [InitRepoAndPush
           {| push_dir := dir;
              push_remoteUrl := remote;
              push_auth := gitAuth (r_authConfig rr);
              push_defaultBranch :=
                default "backstage/update" (PublishPush.targetBranch (input ctx));
              push_commitMessage :=
                orElseConfigured (config options)
                  (Some (default "commit by backstage"
                           (PublishPush.gitCommitMessage (input ctx))))
                  "scaffolder.defaultCommitMessage";
              push_gitAuthorInfo :=
                {| author_name :=
                     orElseConfigured (config options)
                       (PublishPush.gitAuthorName (input ctx))
                       "scaffolder.defaultAuthor.name";
                   author_email :=
                     orElseConfigured (config options)
                       (PublishPush.gitAuthorEmail (input ctx))
                       "scaffolder.defaultAuthor.email" |} |}])%list.
Proof.
  intros Hc Hr Hu Hd.
  unfold PublishPush.createPublishBitbucketServerPushAction. cbv zeta.
  rewrite (bind_ok _ _ _ _ _ Hr).
  rewrite (bind_ok _ _ _ _ _ (orConfigured_value _ _ _ _ Hc)).
  rewrite (bind_ok _ _ _ _ _ (orConfigured_value _ _ _ _ Hc)).
  rewrite (bind_ok _ _ _ _ _ Hu).
  unfold liftR at 1. rewrite Hd. unfold bind at 1.
  rewrite (bind_ok _ _ _ _ _ (orConfigured_value _ _ _ _ Hc)).
  apply gitCalls_push.
Qed.

Lemma branchPush_args imp options ctx w rr info w1 dir :
  (forall key, exists v, getOptionalString (config options) key = Ok v) ->
  resolveRepository imp options (BranchPush.repoUrl (input ctx))
    (BranchPush.token (input ctx)) w = (Ok rr, w) ->
  Util.getRepoInfo (r_project rr) (r_repo rr) (r_authorization rr)
    (cfg_apiBaseUrl (r_integrationConfig rr)) w = (Ok info, w1) ->
  getRepoSourceDirectory imp (workspacePath ctx) (BranchPush.sourcePath (input ctx))
  = Ok dir ->
  gitCalls (snd (BranchPush.createBitbucketServerBranchPushAction imp options ctx w))
  = (gitCalls w1
     ++ [InitRepoAndPush
           {| push_dir := dir;
              push_remoteUrl := remoteUrl info;
              push_auth := gitAuth (r_authConfig rr);
              push_defaultBranch := BranchPush.branch (input ctx);
              push_commitMessage :=
                orElseConfigured (config options)
                  (Some (default "init commit by backstage"
                           (BranchPush.gitCommitMessage (input ctx))))
                  "scaffolder.defaultCommitMessage";
              push_gitAuthorInfo :=
                {| author_name :=
                     orElseConfigured (config options)
                       (BranchPush.gitAuthorName (input ctx))
                       "scaffolder.defaultAuthor.name";
                   author_email :=
                     orElseConfigured (config options)
                       (BranchPush.gitAuthorEmail (input ctx))
                       "scaffolder.defaultAuthor.email" |} |}])%list.
Proof.
  intros Hc Hr Hu Hd.
  unfold BranchPush.createBitbucketServerBranchPushAction. cbv zeta.
  rewrite (bind_ok _ _ _ _ _ Hr).
  rewrite (bind_ok _ _ _ _ _ (orConfigured_value _ _ _ _ Hc)).
  rewrite (bind_ok _ _ _ _ _ (orConfigured_value _ _ _ _ Hc)).
  rewrite (bind_ok _ _ _ _ _ Hu).
  unfold liftR at 1. rewrite Hd. unfold bind at 1.
  rewrite (bind_ok _ _ _ _ _ (orConfigured_value _ _ _ _ Hc)).
  apply gitCalls_push.
Qed.

(** X12.  What the two push actions hand to [initRepoAndPush] on a run
    that reaches it: the resolved source directory, the looked-up remote
    URL, the resolved credential and the branch; as commit message the
    given one, the action's own default when none is given, and the
    configured default message when the given one is the empty string
    (possibly none at all); as author name and email the given ones when
    non-empty and the configured defaults otherwise. *)
Theorem push_arguments :
  forall (imp : Imports) (options : Options) (w : World),
    (forall key, exists v, getOptionalString (config options) key = Ok v) ->
    let configured := configuredString (config options) in
    let orElse (x : option string) (key : string) :=
      match x with
      | Some s => if String.eqb s "" then configured key else Some s
      | None => configured key
      end in
    (forall ctx rr remote w1 dir,
        resolveRepository imp options (PublishPush.repoUrl (input ctx))
          (PublishPush.token (input ctx)) w = (Ok rr, w) ->
        PublishPush.getRepositoryRemoteUrl (r_project rr) (r_repo rr)
          (r_authorization rr) (cfg_apiBaseUrl (r_integrationConfig rr)) w
        = (Ok remote, w1) ->
        getRepoSourceDirectory imp (workspacePath ctx)
          (PublishPush.sourcePath (input ctx)) = Ok dir ->
        gitCalls
          (snd (PublishPush.createPublishBitbucketServerPushAction imp options ctx w))
        = (gitCalls w1
           ++ [InitRepoAndPush
                 {| push_dir := dir;
                    push_remoteUrl := remote;
                    push_auth := gitAuth (r_authConfig rr);
                    push_defaultBranch :=
                      match PublishPush.targetBranch (input ctx) with
                      | Some b => b
                      | None => "backstage/update"
                      end;
                    push_commitMessage :=
                      match PublishPush.gitCommitMessage (input ctx) with
                      | None => Some "commit by backstage"
                      | Some "" => configured "scaffolder.defaultCommitMessage"
                      | Some m => Some m
                      end;
                    push_gitAuthorInfo :=
                      {| author_name :=
                           orElse (PublishPush.gitAuthorName (input ctx))
                             "scaffolder.defaultAuthor.name";
                         author_email :=
                           orElse (PublishPush.gitAuthorEmail (input ctx))
                             "scaffolder.defaultAuthor.email" |} |}])%list)
    /\ (forall ctx rr info w1 dir,
           resolveRepository imp options (BranchPush.repoUrl (input ctx))
             (BranchPush.token (input ctx)) w = (Ok rr, w) ->
           Util.getRepoInfo (r_project rr) (r_repo rr) (r_authorization rr)
             (cfg_apiBaseUrl (r_integrationConfig rr)) w = (Ok info, w1) ->
           getRepoSourceDirectory imp (workspacePath ctx)
             (BranchPush.sourcePath (input ctx)) = Ok dir ->
           gitCalls
             (snd (BranchPush.createBitbucketServerBranchPushAction imp options ctx w))
           = (gitCalls w1
              ++ [InitRepoAndPush
                    {| push_dir := dir;
                       push_remoteUrl := remoteUrl info;
                       push_auth := gitAuth (r_authConfig rr);
                       push_defaultBranch := BranchPush.branch (input ctx);
                       push_commitMessage :=
                         match BranchPush.gitCommitMessage (input ctx) with
                         | None => Some "init commit by backstage"
                         | Some "" => configured "scaffolder.defaultCommitMessage"
                         | Some m => Some m
                         end;
                       push_gitAuthorInfo :=
                         {| author_name :=
                              orElse (BranchPush.gitAuthorName (input ctx))
                                "scaffolder.defaultAuthor.name";
                            author_email :=
                              orElse (BranchPush.gitAuthorEmail (input ctx))
                                "scaffolder.defaultAuthor.email" |} |}])%list).
Proof.
  intros imp options w Hc configured orElse. split.
  - intros ctx rr remote w1 dir Hr Hu Hd.
    rewrite (publishPush_args imp options ctx w rr remote w1 dir Hc Hr Hu Hd).
    unfold orElseConfigured. fold configured.
    destruct (PublishPush.gitCommitMessage (input ctx)) as [[|c m]|]; reflexivity.
  - intros ctx rr info w1 dir Hr Hu Hd.
    rewrite (branchPush_args imp options ctx w rr info w1 dir Hc Hr Hu Hd).
    unfold orElseConfigured. fold configured.
    destruct (BranchPush.gitCommitMessage (input ctx)) as [[|c m]|]; reflexivity.
Qed.

Lemma push_arguments_witness :
  gitCalls
    (snd (PublishPush.createPublishBitbucketServerPushAction Sample.imports
            Scenario.configuredOptions Scenario.emptyStringsCtx
            (Sample.world Sample.existing)))
  = [InitRepoAndPush
       {| push_dir := "/workspace/out";
          push_remoteUrl := VStr "https://bitbucket.example.com/scm/team/svc.git";
          push_auth := TokenAuth "configured-token";
          push_defaultBranch := "main";
          push_commitMessage := Some "configured scaffolder.defaultCommitMessage";
          push_gitAuthorInfo :=
            {| author_name := Some "configured scaffolder.defaultAuthor.name";
               author_email := Some "dev@example.com" |} |}].
Proof.
  exact (proj1
    (push_arguments Sample.imports Scenario.configuredOptions
       (Sample.world Sample.existing)
       (fun key => ex_intro _ (Some ("configured " ++ key)) eq_refl))
    Scenario.emptyStringsCtx _ _ _ _ eq_refl eq_refl eq_refl).
Defined.

(** X13.  A repository whose record names no http clone link is not an
    error to the push action.  On a run where the location is resolved,
    the configuration answers every read, [getRepoSourceDirectory]
    returns, and the lookup is answered 200 with a record whose clone
    links are objects none of which is named http, the lookup returns the
    empty string and the action makes one git call, an [initRepoAndPush]
    with the empty string as its remote URL. *)
Theorem push_without_http_link :
  forall (imp : Imports) (options : Options) (ctx : Ctx PublishPush.Input)
         (w : World) (rr : Resolved) (response : Response) (r : jsval)
         (links : list jsval) (dir : string),
    (forall key, exists v, getOptionalString (config options) key = Ok v) ->
    resolveRepository imp options (PublishPush.repoUrl (input ctx))
      (PublishPush.token (input ctx)) w = (Ok rr, w) ->
    server w (requests w)
      (repoRequest (r_project rr) (r_repo rr) (r_authorization rr)
         (cfg_apiBaseUrl (r_integrationConfig rr)))
    = Responded response ->
    status response = 200 ->
    json response = Ok r ->
    field ["links"; "clone"] r = Some (VArr links) ->
    forallb is_object links = true ->
    (forall link, In link links -> is_http_link link = false) ->
    getRepoSourceDirectory imp (workspacePath ctx) (PublishPush.sourcePath (input ctx))
    = Ok dir ->
    fst (PublishPush.getRepositoryRemoteUrl (r_project rr) (r_repo rr)
           (r_authorization rr) (cfg_apiBaseUrl (r_integrationConfig rr)) w)
    = Ok (VStr "")
    /\ exists a,
        gitCalls
          (snd (PublishPush.createPublishBitbucketServerPushAction imp options ctx w))
        = (gitCalls w ++ [InitRepoAndPush a])%list
        /\ push_remoteUrl a = VStr "".
Proof.
  intros imp options ctx w rr response r links dir Hc Hr Hs H200 Hj Hf Hl Hn Hd.
  assert (Hu : PublishPush.getRepositoryRemoteUrl (r_project rr) (r_repo rr)
                 (r_authorization rr) (cfg_apiBaseUrl (r_integrationConfig rr)) w
               = (Ok (VStr ""),
                  snd (fetch (repoRequest (r_project rr) (r_repo rr) (r_authorization rr)
                                (cfg_apiBaseUrl (r_integrationConfig rr))) w))).
  { rewrite getRepositoryRemoteUrl_run, Hs. unfold lookupResult.
    apply Z.eqb_eq in H200. rewrite H200, Hj. cbn [rbind].
    rewrite (props_field _ _ _ Hf). cbn [rbind iterate].
    rewrite (scanCloneLinks_objects _ _ Hl).
    fold (httpHref links). now rewrite (httpHref_none _ Hn). }
  split; [now rewrite Hu|].
  rewrite (publishPush_args imp options ctx w rr _ _ dir Hc Hr Hu Hd).
  rewrite (fetch_gitCalls _ w). eexists. split; reflexivity.
Qed.

Lemma push_without_http_link_witness :
  exists a,
    gitCalls
      (snd (PublishPush.createPublishBitbucketServerPushAction Sample.imports
              (Sample.options Sample.integration) (Sample.pushCtx Sample.goodUrl None)
              (Scenario.answering (Sample.respond 200 "OK" Scenario.repoSshOnly))))
    = [InitRepoAndPush a]
    /\ push_remoteUrl a = VStr "".
Proof.
  refine (proj2 (push_without_http_link Sample.imports (Sample.options Sample.integration)
            (Sample.pushCtx Sample.goodUrl None)
            (Scenario.answering (Sample.respond 200 "OK" Scenario.repoSshOnly))
            _ _ Scenario.repoSshOnly _ _
            (fun key => ex_intro _ None eq_refl)
            eq_refl eq_refl eq_refl eq_refl eq_refl eq_refl _ eq_refl)).
  intros link [<-|[]]. reflexivity.
Defined.

(** ** What the handlers never do *)

Section AtMostOne.

Context {X : Type} (f : World -> list X) (P : X -> Prop).

Lemma atMost_bind_before {A B} (c : M A) (k : A -> M B) :
  preserves f c ->
  (forall a, addsAtMostOne f P (k a)) ->
  addsAtMostOne f P (bind c k).
Proof.
  intros Hc Hk w. unfold bind. specialize (Hc w).
  destruct (c w) as [[a|e] w']; cbn [snd] in *; [|now left].
  rewrite <- Hc. apply Hk.
Qed.

Lemma atMost_bind_after {A B} (c : M A) (k : A -> M B) x :
  (forall w, f (snd (c w)) = (f w ++ [x])%list) ->
  P x ->
  (forall a, preserves f (k a)) ->
  addsAtMostOne f P (bind c k).
Proof.
  intros Hc Hx Hk w. right. exists x. split; [|exact Hx].
  unfold bind. specialize (Hc w).
  destruct (c w) as [[a|e] w']; cbn [snd] in *; [|exact Hc].
  now rewrite Hk.
Qed.

End AtMostOne.

Lemma getRepositoryRemoteUrl_gitCalls p r a u :
  preserves gitCalls (PublishPush.getRepositoryRemoteUrl p r a u).
Proof. unfold PublishPush.getRepositoryRemoteUrl. frame. Qed.

Lemma getRepoInfo_requests p r a u w :
  requests (snd (Util.getRepoInfo p r a u w)) = (requests w ++ [repoRequest p r a u])%list.
Proof. rewrite getRepoInfo_run. apply requests_fetch. Qed.

Lemma cloneGetRepoInfo_requests p r a u w :
  requests (snd (RepoClone.getRepoInfo p r a u w))
  = (requests w ++ [repoRequest p r a u])%list.
Proof. rewrite cloneGetRepoInfo_run. apply requests_fetch. Qed.

Lemma getRepositoryRemoteUrl_requests p r a u w :
  requests (snd (PublishPush.getRepositoryRemoteUrl p r a u w))
  = (requests w ++ [repoRequest p r a u])%list.
Proof. rewrite getRepositoryRemoteUrl_run. apply requests_fetch. Qed.

Lemma gitCalls_git call w : gitCalls (snd (git call w)) = (gitCalls w ++ [call])%list.
Proof. reflexivity. Qed.

#[local] Hint Resolve getRepositoryRemoteUrl_gitCalls : frame.

Ltac before_the_call :=
  autounfold with handlers; cbv zeta;
  repeat (apply atMost_bind_before; [solve [frame] | intros]).

(** X14.  The push, branch push and clone actions only ever read from
    the server: each makes no request at all or exactly one, the GET that
    looks the repository up, which has no body. *)
Theorem handlers_read_only :
  forall (imp : Imports) (options : Options),
    let lookup (req : Request) :=
      method req = "GET" /\ body req = None
      /\ exists project repo authorization apiBaseUrl,
          req = repoRequest project repo authorization apiBaseUrl in
    (forall ctx,
        addsAtMostOne requests lookup
          (PublishPush.createPublishBitbucketServerPushAction imp options ctx))
    /\ (forall ctx,
           addsAtMostOne requests lookup
             (BranchPush.createBitbucketServerBranchPushAction imp options ctx))
    /\ (forall ctx,
           addsAtMostOne requests lookup
             (RepoClone.createPublishBitbucketServerRepoCloneAction imp options ctx)).
Proof.
  intros imp options lookup.
  split; [|split]; intros ctx; before_the_call;
    (eapply atMost_bind_after;
     [ first [ apply getRepositoryRemoteUrl_requests
             | apply getRepoInfo_requests
             | apply cloneGetRepoInfo_requests ]
     | split; [reflexivity | split; [reflexivity | eauto 6]]
     | frame ]).
Qed.

(** X15.  The repository-create and pull-request actions never call git.
    The push and branch push actions call it at most once, with
    [initRepoAndPush], and the clone action's calls are made only after
    its lookup: when the lookup throws, the clone action throws the same
    error without having called git. *)
Theorem git_use :
  forall (imp : Imports) (options : Options),
    (forall ctx,
        preserves gitCalls (RepoCreate.createBitbucketServerRepoCreateAction imp options ctx))
    /\ (forall ctx,
           preserves gitCalls
             (PullRequest.createBitbucketServerPullRequestOpenAction imp options ctx))
    /\ (forall ctx,
           addsAtMostOne gitCalls (fun call => exists a, call = InitRepoAndPush a)
             (PublishPush.createPublishBitbucketServerPushAction imp options ctx))
    /\ (forall ctx,
           addsAtMostOne gitCalls (fun call => exists a, call = InitRepoAndPush a)
             (BranchPush.createBitbucketServerBranchPushAction imp options ctx))
    /\ (forall ctx w rr e w1,
           resolveRepository imp options (RepoClone.repoUrl (input ctx))
             (RepoClone.token (input ctx)) w = (Ok rr, w) ->
           RepoClone.getRepoInfo (r_project rr) (r_repo rr) (r_authorization rr)
             (cfg_apiBaseUrl (r_integrationConfig rr)) w = (Throw e, w1) ->
           RepoClone.createPublishBitbucketServerRepoCloneAction imp options ctx w
           = (Throw e, w1)
           /\ gitCalls w1 = gitCalls w).
Proof.
  intros imp options. split; [|split; [|split; [|split]]].
  - intros ctx. autounfold with handlers. frame.
  - intros ctx. autounfold with handlers. frame.
  - intros ctx. before_the_call.
    eapply atMost_bind_after; [apply gitCalls_git | eauto | frame].
  - intros ctx. before_the_call.
    eapply atMost_bind_after; [apply gitCalls_git | eauto | frame].
  - intros ctx w rr e w1 Hr Hl. split.
    + unfold RepoClone.createPublishBitbucketServerRepoCloneAction. cbv zeta.
      rewrite (bind_ok _ _ _ _ _ Hr). now apply bind_throw.
    + assert (H : preserves gitCalls
                    (RepoClone.getRepoInfo (r_project rr) (r_repo rr) (r_authorization rr)
                       (cfg_apiBaseUrl (r_integrationConfig rr))))
        by (unfold RepoClone.getRepoInfo; frame).
      specialize (H w). now rewrite Hl in H.
Qed.

(** ** More on creating a repository *)

(** X16.  A create POST answered 201 is the only request
    [createRepository] makes, and the record it returns is read off that
    answer; answered 409 it is followed by exactly one lookup GET, after
    the conflict has been logged. *)
Theorem createRepository_answers :
  forall project repo description repoVisibility defaultBranch authorization
         apiBaseUrl w response,
    let post := RepoCreate.createRequest project repo description repoVisibility
                  defaultBranch authorization apiBaseUrl in
    let create := RepoCreate.createRepository project repo description repoVisibility
                    defaultBranch authorization apiBaseUrl in
    server w (requests w) post = Responded response ->
    (status response = 201 ->
     issued create w = [post]
     /\ logged (snd (create w)) = logged w
     /\ (forall e, json response = Throw e -> fst (create w) = Throw e)
     /\ (forall r links self0 selfs,
            json response = Ok r ->
            field ["links"; "clone"] r = Some (VArr links) ->
            forallb is_object links = true ->
            field ["links"; "self"] r = Some (VArr (self0 :: selfs)) ->
            is_object self0 = true ->
            fst (create w)
            = Ok {| remoteUrl := httpHref links;
                    repoContentsUrl := toString (member "href" self0);
                    repoId := member "id" r |}))
    /\ (status response = 409 ->
        issued create w = [post; repoRequest project repo authorization apiBaseUrl]
        /\ logged (snd (create w))
           = (logged w
              ++ [("A repository with name(" ++ repo ++ ") already exists.")%string])%list).
Proof.
  intros project repo description repoVisibility defaultBranch authorization
    apiBaseUrl w response post create Hs.
  subst create. unfold issued. rewrite createRepository_run. fold post. rewrite Hs.
  split.
  - intros H201.
    assert (H409 : (status response =? 409) = false) by (rewrite H201; reflexivity).
    apply Z.eqb_eq in H201. rewrite H409, H201. cbn [fst snd].
    split; [apply issued_fetch|]. split.
    { unfold fetch. rewrite Hs. reflexivity. }
    split.
    + intros e ->. reflexivity.
    + intros r links self0 selfs -> Hc Hl Hself H0. cbn [rbind].
      now apply readRepoInfo_record with (selfs := selfs).
  - intros H409. apply Z.eqb_eq in H409. rewrite H409.
    rewrite getRepoInfo_run. cbn [snd]. rewrite requests_fetch.
    unfold logger_info at 1. cbn [snd requests]. rewrite requests_fetch.
    rewrite <- app_assoc, skipn_own. split; [reflexivity|].
    unfold fetch. cbn [server requests].
    destruct (server _ _ (repoRequest _ _ _ _)); cbn [snd logged];
      unfold logger_info, fetch; rewrite Hs; reflexivity.
Qed.

Lemma createRepository_answers_witness :
  issued (RepoCreate.createRepository "TEAM" "svc" None RepoCreate.Private "master"
            "Bearer t" Sample.apiBase) (Sample.world Sample.fresh)
  = [RepoCreate.createRequest "TEAM" "svc" None RepoCreate.Private "master"
       "Bearer t" Sample.apiBase]
  /\ issued (RepoCreate.createRepository "TEAM" "svc" None RepoCreate.Private "master"
               "Bearer t" Sample.apiBase) (Sample.world Sample.existing)
     = [RepoCreate.createRequest "TEAM" "svc" None RepoCreate.Private "master"
          "Bearer t" Sample.apiBase;
        repoRequest "TEAM" "svc" "Bearer t" Sample.apiBase].
Proof.
  split.
  - exact (proj1 (proj1
      (createRepository_answers "TEAM" "svc" None RepoCreate.Private "master"
         "Bearer t" Sample.apiBase (Sample.world Sample.fresh) _ eq_refl) eq_refl)).
  - exact (proj1 (proj2
      (createRepository_answers "TEAM" "svc" None RepoCreate.Private "master"
         "Bearer t" Sample.apiBase (Sample.world Sample.existing) _ eq_refl) eq_refl)).
Defined.

Lemma createRepository_first project repo description repoVisibility defaultBranch
    authorization apiBaseUrl w :
  exists rest,
    requests (snd (RepoCreate.createRepository project repo description repoVisibility
                     defaultBranch authorization apiBaseUrl w))
    = (requests w
       ++ RepoCreate.createRequest project repo description repoVisibility
            defaultBranch authorization apiBaseUrl :: rest)%list.
Proof.
  rewrite createRepository_run. cbv zeta.
  set (post := RepoCreate.createRequest _ _ _ _ _ _ _).
  destruct (server w (requests w) post) as [response|e].
  - destruct (status response =? 409).
    + rewrite getRepoInfo_requests. unfold logger_info. cbn [snd requests].
      rewrite requests_fetch, <- app_assoc. eexists. reflexivity.
    + destruct (status response =? 201); cbn [snd]; rewrite requests_fetch;
        exists []; reflexivity.
  - cbn [snd]. rewrite requests_fetch. exists []. reflexivity.
Qed.

Lemma performEnableLFS_requests a h p r w :
  requests (snd (RepoCreate.performEnableLFS a h p r w))
  = (requests w ++ [RepoCreate.lfsRequest a h p r])%list.
Proof.
  unfold RepoCreate.performEnableLFS, bind, fetch, throw, ret.
  destruct (server w (requests w) _) as [response|e]; [|reflexivity].
  destruct (negb (ok response)); reflexivity.
Qed.

(** X17.  The first request of the repository-create action, once the
    location is resolved, is the create POST to the project's [repos]
    collection, asking for the default branch ['master'] and a private
    repository unless the input says otherwise; a description that is not
    given is left out of the body. *)
Theorem create_action_request :
  forall (imp : Imports) (options : Options) (ctx : Ctx RepoCreate.Input)
         (w : World) (rr : Resolved),
    let branch := match RepoCreate.defaultBranch (input ctx) with
                  | Some b => b
                  | None => "master"
                  end in
    let public := match RepoCreate.repoVisibility (input ctx) with
                  | Some RepoCreate.Public => true
                  | _ => false
                  end in
    let described :=
      match RepoCreate.description (input ctx) with
      | Some d => [("description", VStr d)]
      | None => []
      end in
    resolveRepository imp options (RepoCreate.repoUrl (input ctx))
      (RepoCreate.token (input ctx)) w = (Ok rr, w) ->
    exists rest,
      issued (RepoCreate.createBitbucketServerRepoCreateAction imp options ctx) w
      = {| method := "POST";
           url := cfg_apiBaseUrl (r_integrationConfig rr) ++ "/projects/"
                  ++ r_project rr ++ "/repos";
           headers := [("Authorization", r_authorization rr);
                       ("Content-Type", "application/json")];
           body :=
             Some (JSON_stringify
                     (VObj ([("name", VStr (r_repo rr))] ++ described
                            ++ [("defaultBranch", VStr branch);
                                ("public", VBool public)])%list)) |}
        :: rest.
Proof.
  intros imp options ctx w rr branch public described Hr.
  unfold issued, RepoCreate.createBitbucketServerRepoCreateAction. cbv zeta.
  rewrite (bind_ok _ _ _ _ _ Hr).
  match goal with
  | |- context [bind (RepoCreate.createRepository ?p ?r ?d ?v ?b ?a ?u) _ w] =>
      destruct (createRepository_first p r d v b a u w) as (rest & Hfirst);
      assert (Hpost : RepoCreate.createRequest p r d v b a u
                      = {| method := "POST";
                           url := cfg_apiBaseUrl (r_integrationConfig rr) ++ "/projects/"
                                  ++ r_project rr ++ "/repos";
                           headers := [("Authorization", r_authorization rr);
                                       ("Content-Type", "application/json")];
                           body :=
                             Some (JSON_stringify
                                     (VObj ([("name", VStr (r_repo rr))] ++ described
                                            ++ [("defaultBranch", VStr branch);
                                                ("public", VBool public)])%list)) |});
      [|rewrite Hpost in Hfirst;
        destruct (RepoCreate.createRepository p r d v b a u w) as [[info|e] w1] eqn:Hc]
  end.
  - unfold RepoCreate.createRequest, json_headers, described, branch, public.
    destruct (RepoCreate.description (input ctx));
      destruct (RepoCreate.repoVisibility (input ctx)) as [[|]|];
      destruct (RepoCreate.defaultBranch (input ctx)); reflexivity.
  - cbn [snd] in Hfirst. rewrite (bind_ok _ _ _ _ _ Hc).
    destruct (default false (RepoCreate.enableLFS (input ctx))).
    + unfold bind at 1.
      pose proof (performEnableLFS_requests (r_authorization rr) (r_host rr)
                    (r_project rr) (r_repo rr) w1) as Hl.
      destruct (RepoCreate.performEnableLFS _ _ _ _ w1) as [[u|e] w2];
        cbn [snd] in Hl |- *.
      * unfold bind, ctx_output. cbn [snd requests].
        rewrite Hl, Hfirst, <- app_assoc, skipn_own. eexists. reflexivity.
      * rewrite Hl, Hfirst, <- app_assoc, skipn_own. eexists. reflexivity.
    + unfold bind, ret, ctx_output. cbn [snd requests].
      rewrite Hfirst, skipn_own. eexists. reflexivity.
  - rewrite (bind_throw _ _ _ _ _ Hc). cbn [snd] in Hfirst |- *.
    rewrite Hfirst, skipn_own. eexists. reflexivity.
Qed.

Lemma create_action_request_witness :
  exists rest,
    issued
      (RepoCreate.createBitbucketServerRepoCreateAction Sample.imports
         (Sample.options Sample.integration) (Sample.createCtx Sample.goodUrl None None))
      (Sample.world Sample.fresh)
    = {| method := "POST";
         url := "https://bitbucket.example.com/rest/api/1.0/projects/TEAM/repos";
         headers := [("Authorization", "Bearer configured-token");
                     ("Content-Type", "application/json")];
         body :=
           Some (JSON_stringify
                   (VObj [("name", VStr "svc"); ("defaultBranch", VStr "master");
                          ("public", VBool false)])) |}
      :: rest.
Proof.
  exact (create_action_request Sample.imports (Sample.options Sample.integration)
           (Sample.createCtx Sample.goodUrl None None) (Sample.world Sample.fresh)
           _ eq_refl).
Defined.

(** ** The address of the reviewers query *)

Lemma replace_first_at_index pat rep :
  forall s, replace_first pat rep s = replacedAtFirst pat rep s.
Proof.
  unfold replacedAtFirst.
  induction s as [|c s IH].
  - destruct pat as [|p pat]; reflexivity.
  - cbn [replace_first String.index].
    destruct (String.prefix pat (String c s)) eqn:Hp.
    + reflexivity.
    + rewrite IH. destruct (String.index 0 pat s) as [m|]; [|reflexivity].
      reflexivity.
Qed.

(** X18.  The reviewers query is addressed to the API base URL with the
    first occurrence of ["api"] in it, wherever that is, replaced by
    ["default-reviewers"] (a base URL without ["api"] is used as it is),
    followed by the repository's [reviewers] path and the four query
    parameters in a fixed order. *)
Theorem reviewers_query_address :
  forall projectKey repositorySlug sourceRepoId sourceRefId targetRepoId targetRefId
         authorization apiBaseUrl w,
    exists req,
      issued (Util.getRequiredReviewers projectKey repositorySlug sourceRepoId
                sourceRefId targetRepoId targetRefId authorization apiBaseUrl) w
      = [req]
      /\ method req = "GET"
      /\ url req
         = replacedAtFirst "api" "default-reviewers" apiBaseUrl
           ++ "/projects/" ++ projectKey ++ "/repos/" ++ repositorySlug
           ++ "/reviewers?sourceRepoId=" ++ form_encode (toString sourceRepoId)
           ++ "&sourceRefId=" ++ form_encode sourceRefId
           ++ "&targetRepoId=" ++ form_encode (toString targetRepoId)
           ++ "&targetRefId="
           ++ form_encode (match targetRefId with
                           | Some ref => ref
                           | None => "refs/heads/master"
                           end).
Proof.
  intros. eexists. unfold issued. rewrite getRequiredReviewers_run. cbv zeta.
  cbn [snd]. split; [apply issued_fetch|]. split; [reflexivity|].
  unfold reviewersRequest. cbn [url]. rewrite replace_first_at_index.
  reflexivity.
Qed.

(** On a host whose name holds ["api"] it is the host that is rewritten. *)
Example reviewers_query_on_api_host :
  replace_first "api" "default-reviewers" "https://api.example.com/rest/api/1.0"
  = "https://default-reviewers.example.com/rest/api/1.0".
Proof. reflexivity. Qed.

(** ** The query string *)

Lemma occurrences_append c s t :
  occurrences c (s ++ t) = (occurrences c s + occurrences c t)%nat.
Proof.
  induction s as [|a s IH]; cbn [append occurrences]; [reflexivity|].
  rewrite IH. now destruct (Ascii.eqb a c).
Qed.

Lemma form_encode_char_safe (a : ascii) :
  occurrences "&" (form_encode_char a) = 0%nat
  /\ occurrences "=" (form_encode_char a) = 0%nat
  /\ occurrences "#" (form_encode_char a) = 0%nat
  /\ occurrences "?" (form_encode_char a) = 0%nat
  /\ occurrences "/" (form_encode_char a) = 0%nat
  /\ occurrences " " (form_encode_char a) = 0%nat.
Proof.
  destruct a as [[|] [|] [|] [|] [|] [|] [|] [|]]; vm_compute; repeat split.
Qed.

Lemma form_encode_safe (s : string) :
  occurrences "&" (form_encode s) = 0%nat
  /\ occurrences "=" (form_encode s) = 0%nat
  /\ occurrences "#" (form_encode s) = 0%nat
  /\ occurrences "?" (form_encode s) = 0%nat
  /\ occurrences "/" (form_encode s) = 0%nat
  /\ occurrences " " (form_encode s) = 0%nat.
Proof.
  unfold form_encode.
  induction s as [|a s IH]; [repeat split|].
  cbn [list_ascii_of_string map].
  destruct (form_encode_char_safe a) as (A1 & A2 & A3 & A4 & A5 & A6).
  destruct IH as (I1 & I2 & I3 & I4 & I5 & I6).
  destruct (map form_encode_char (list_ascii_of_string s)) as [|x rest] eqn:E.
  - cbn [String.concat]. repeat split; assumption.
  - change (String.concat "" (form_encode_char a :: x :: rest))
      with (form_encode_char a ++ "" ++ String.concat "" (x :: rest)).
    cbn [append]. rewrite !occurrences_append.
    rewrite A1, A2, A3, A4, A5, A6, I1, I2, I3, I4, I5, I6. repeat split.
Qed.

(** X19.  Whatever the branch names and repository identifiers are, the
    query string of the reviewers request has exactly its four
    parameters: three [&], four [=], and no [#], [?], [/] or space, since
    every value is form-encoded. *)
Theorem reviewers_query_shape :
  forall projectKey repositorySlug sourceRepoId sourceRefId targetRepoId targetRefId
         authorization apiBaseUrl w,
    exists req query,
      issued (Util.getRequiredReviewers projectKey repositorySlug sourceRepoId
                sourceRefId targetRepoId targetRefId authorization apiBaseUrl) w
      = [req]
      /\ url req
         = replace_first "api" "default-reviewers" apiBaseUrl
           ++ "/projects/" ++ projectKey ++ "/repos/" ++ repositorySlug
           ++ "/reviewers" ++ "?" ++ query
      /\ occurrences "&" query = 3%nat
      /\ occurrences "=" query = 4%nat
      /\ occurrences "#" query = 0%nat
      /\ occurrences "?" query = 0%nat
      /\ occurrences "/" query = 0%nat
      /\ occurrences " " query = 0%nat.
Proof.
  intros. eexists. eexists. unfold issued. rewrite getRequiredReviewers_run. cbv zeta.
  cbn [snd]. split; [apply issued_fetch|]. split; [reflexivity|].
  unfold URLSearchParams. cbn [map fst snd join].
  change (form_encode "sourceRepoId") with "sourceRepoId".
  change (form_encode "sourceRefId") with "sourceRefId".
  change (form_encode "targetRepoId") with "targetRepoId".
  change (form_encode "targetRefId") with "targetRefId".
  destruct (form_encode_safe (toString sourceRepoId)) as (A1 & A2 & A3 & A4 & A5 & A6).
  destruct (form_encode_safe sourceRefId) as (B1 & B2 & B3 & B4 & B5 & B6).
  destruct (form_encode_safe (toString targetRepoId)) as (C1 & C2 & C3 & C4 & C5 & C6).
  destruct (form_encode_safe
              (match targetRefId with
               | Some ref => ref
               | None => "refs/heads/master"
               end)) as (D1 & D2 & D3 & D4 & D5 & D6).
  rewrite !occurrences_append.
  rewrite A1, A2, A3, A4, A5, A6, B1, B2, B3, B4, B5, B6,
    C1, C2, C3, C4, C5, C6, D1, D2, D3, D4, D5, D6.
  repeat split.
Qed.

(** ** Required reviewers that are not a list *)

Lemma requestedLoop_none users :
  forall reviewers,
    PullRequest.requestedLoop users [] reviewers = (reviewers ++ map named users)%list.
Proof.
  induction users as [|u users IH]; intros rs; cbn [PullRequest.requestedLoop map].
  - now rewrite app_nil_r.
  - cbn [PullRequest.includes existsb]. rewrite IH, <- app_assoc. reflexivity.
Qed.

(** X20.  When what the server sent as required reviewers is an object
    without [length] (an error object, say), a number or a boolean, the
    merge takes it for an empty list: it returns the requested usernames,
    all of them, in the caller's order. *)
Theorem getReviewers_not_a_list :
  forall (required : jsval) (users : list string),
    match required with
    | VObj fields => lookup "length" fields = None
    | VNum _ | VBool _ => True
    | _ => False
    end ->
    PullRequest.getReviewers users required = Ok (map named users).
Proof.
  intros required users H. unfold PullRequest.getReviewers.
  destruct required as [| |b|n|s|items|fields]; try contradiction;
    cbn [prop]; try rewrite H; cbn [rbind iterations toNumber PullRequest.requiredLoop
                                    fst snd];
    now rewrite requestedLoop_none.
Qed.

Lemma getReviewers_not_a_list_witness :
  PullRequest.getReviewers ["carol"; "dave"; "carol"]
    (VObj [("errors", VArr [VObj [("message", VStr "No such repository")]])])
  = Ok [named "carol"; named "dave"; named "carol"].
Proof.
  exact (getReviewers_not_a_list
           (VObj [("errors", VArr [VObj [("message", VStr "No such repository")]])])
           ["carol"; "dave"; "carol"] eq_refl).
Defined.

(** ** The pull-request and repository-create actions, end to end *)

(** X21.  With the location resolved, the pull-request action logs that
    it is creating the pull request, then runs [createPullRequest] with
    the input's title, description, branches and reviewers (none when not
    given).  If that throws, the action throws the same error and logs
    nothing more; if it returns, the action logs the pull request's URL
    and outputs the returned [remoteUrl] and [prUrl]. *)
Theorem pull_request_action :
  forall (imp : Imports) (options : Options) (ctx : Ctx PullRequest.Input)
         (w : World) (rr : Resolved),
    let i := input ctx in
    let creating :=
      "Creating pull request {repo: " ++ PullRequest.repoUrl i ++ ", sourceBranch: "
      ++ PullRequest.sourceBranch i ++ ", targetBranch: " ++ PullRequest.targetBranch i in
    let w0 := snd (logger_info creating w) in
    let create :=
      PullRequest.createPullRequest (PullRequest.title i)
        (Some (PullRequest.description i)) (r_project rr) (r_repo rr)
        (PullRequest.sourceBranch i) (PullRequest.targetBranch i)
        (Some (match PullRequest.reviewers i with Some l => l | None => [] end))
        (r_authorization rr) (cfg_apiBaseUrl (r_integrationConfig rr)) in
    let run := PullRequest.createBitbucketServerPullRequestOpenAction imp options ctx w in
    resolveRepository imp options (PullRequest.repoUrl i) (PullRequest.token i) w
    = (Ok rr, w) ->
    (forall e w1,
        create w0 = (Throw e, w1) ->
        run = (Throw e, w1) /\ logged w1 = (logged w ++ [creating])%list)
    /\ (forall pr w1,
           create w0 = (Ok pr, w1) ->
           fst run = Ok tt
           /\ logged (snd run)
              = (logged w
                 ++ [creating;
                     ("Created pull request: " ++ toString (PullRequest.prUrl pr))%string])%list
           /\ outputs (snd run)
              = (outputs w
                 ++ [("remoteUrl", PullRequest.pr_remoteUrl pr);
                     ("prUrl", PullRequest.prUrl pr)])%list
           /\ requests (snd run) = requests w1).
Proof.
  intros imp options ctx w rr i creating w0 create run Hr.
  assert (Hlog : preserves logged create).
  { subst create. unfold PullRequest.createPullRequest, Util.getRepoInfo,
      Util.getRequiredReviewers. frame; intros w'; unfold fetch;
      destruct (server w' (requests w') _); reflexivity. }
  assert (Hrun : run = bind create
                         (fun pr =>
                            logger_info ("Created pull request: "
                                         ++ toString (PullRequest.prUrl pr)) ;;;
                            ctx_output "remoteUrl" (PullRequest.pr_remoteUrl pr) ;;;
                            ctx_output "prUrl" (PullRequest.prUrl pr)) w0).
  { subst run. unfold PullRequest.createBitbucketServerPullRequestOpenAction. cbv zeta.
    rewrite (bind_ok _ _ _ _ _ Hr). reflexivity. }
  split.
  - intros e w1 Hc. rewrite Hrun, (bind_throw _ _ _ _ _ Hc).
    split; [reflexivity|]. specialize (Hlog w0). rewrite Hc in Hlog. exact Hlog.
  - intros pr w1 Hc. rewrite Hrun, (bind_ok _ _ _ _ _ Hc).
    pose proof (Hlog w0) as Hl. rewrite Hc in Hl. cbn [snd] in Hl.
    pose proof (createPullRequest_outputs (PullRequest.title i)
                  (Some (PullRequest.description i)) (r_project rr) (r_repo rr)
                  (PullRequest.sourceBranch i) (PullRequest.targetBranch i)
                  (Some (match PullRequest.reviewers i with Some l => l | None => [] end))
                  (r_authorization rr) (cfg_apiBaseUrl (r_integrationConfig rr)) w0) as Ho.
    fold create in Ho. rewrite Hc in Ho. cbn [snd] in Ho.
    unfold bind, logger_info, ctx_output. cbn [fst snd logged outputs requests].
    rewrite Hl, Ho. subst w0. cbn [logger_info snd logged outputs].
    rewrite <- !app_assoc. repeat split.
Qed.

Lemma pull_request_action_witness :
  let run :=
    PullRequest.createBitbucketServerPullRequestOpenAction Sample.imports
      (Sample.options Sample.integration) (Sample.pullRequestCtx Sample.goodUrl None)
      (Sample.world Sample.refusing) in
  fst run = Throw (Error "Unable to create pull request, 409 Conflict, null")
  /\ logged (snd run)
     = ["Creating pull request {repo: bitbucket.example.com?project=TEAM&repo=svc, sourceBranch: feature/update, targetBranch: main"]
  /\ outputs (snd run) = [].
Proof.
  destruct (proj1
    (pull_request_action Sample.imports (Sample.options Sample.integration)
       (Sample.pullRequestCtx Sample.goodUrl None) (Sample.world Sample.refusing)
       _ eq_refl) _ _ eq_refl) as [Hrun Hlog].
  rewrite Hrun. cbn [fst snd]. split; [reflexivity|]. split; [exact Hlog|reflexivity].
Defined.

(** X22.  With the location resolved and the repository record in hand,
    the repository-create action returns and outputs the record's
    [remoteUrl], [repoContentsUrl] and [repoId]: at once when [enableLFS]
    is absent or false, and after one PUT to the host's LFS switch,
    carrying the [Authorization] header only, when [enableLFS] is true
    and the PUT is answered with a status from 200 to 299. *)
Theorem create_action_success :
  forall (imp : Imports) (options : Options) (ctx : Ctx RepoCreate.Input)
         (w : World) (rr : Resolved) (info : RepoInfo) (w1 : World),
    let run := RepoCreate.createBitbucketServerRepoCreateAction imp options ctx w in
    let put :=
      {| method := "PUT";
         url := "https://" ++ r_host rr ++ "/rest/git-lfs/admin/projects/"
                ++ r_project rr ++ "/repos/" ++ r_repo rr ++ "/enabled";
         headers := [("Authorization", r_authorization rr)];
         body := None |} in
    let reported :=
      [("remoteUrl", remoteUrl info);
       ("repoContentsUrl", VStr (repoContentsUrl info));
       ("repoId", repoId info)] in
    resolveRepository imp options (RepoCreate.repoUrl (input ctx))
      (RepoCreate.token (input ctx)) w = (Ok rr, w) ->
    RepoCreate.createRepository (r_project rr) (r_repo rr)
      (RepoCreate.description (input ctx))
      (default RepoCreate.Private (RepoCreate.repoVisibility (input ctx)))
      (default "master" (RepoCreate.defaultBranch (input ctx)))
      (r_authorization rr) (cfg_apiBaseUrl (r_integrationConfig rr)) w
    = (Ok info, w1) ->
    (RepoCreate.enableLFS (input ctx) <> Some true ->
     fst run = Ok tt
     /\ requests (snd run) = requests w1
     /\ outputs (snd run) = (outputs w1 ++ reported)%list)
    /\ (forall response,
           RepoCreate.enableLFS (input ctx) = Some true ->
           server w1 (requests w1) put = Responded response ->
           200 <= status response < 300 ->
           fst run = Ok tt
           /\ requests (snd run) = (requests w1 ++ [put])%list
           /\ outputs (snd run) = (outputs w1 ++ reported)%list).
Proof.
  intros imp options ctx w rr info w1 run put reported Hr Hc.
  subst run. unfold RepoCreate.createBitbucketServerRepoCreateAction. cbv zeta.
  rewrite (bind_ok _ _ _ _ _ Hr), (bind_ok _ _ _ _ _ Hc). split.
  - intros Hflag.
    assert (Hoff : default false (RepoCreate.enableLFS (input ctx)) = false).
    { destruct (RepoCreate.enableLFS (input ctx)) as [[|]|]; try reflexivity.
      now contradiction Hflag. }
    rewrite Hoff. unfold bind, ret, ctx_output. cbn [fst snd requests outputs].
    rewrite <- !app_assoc. repeat split.
  - intros response Hflag Hs Hok. rewrite Hflag. cbn [default].
    assert (Hok' : ok response = true).
    { unfold ok. apply andb_true_iff. split; [apply Z.leb_le | apply Z.ltb_lt]; lia. }
    unfold RepoCreate.performEnableLFS, bind, fetch.
    change (RepoCreate.lfsRequest (r_authorization rr) (r_host rr) (r_project rr)
              (r_repo rr)) with put.
    rewrite Hs. cbv beta iota zeta. rewrite Hok'.
    unfold ret, ctx_output. cbn [negb fst snd requests outputs].
    rewrite <- !app_assoc. repeat split.
Qed.

Lemma create_action_success_witness :
  let run :=
    RepoCreate.createBitbucketServerRepoCreateAction Sample.imports
      (Sample.options Sample.integration)
      (Sample.createCtx Sample.goodUrl None (Some true)) (Sample.world Sample.fresh) in
  fst run = Ok tt
  /\ map url (requests (snd run))
     = ["https://bitbucket.example.com/rest/api/1.0/projects/TEAM/repos";
        "https://bitbucket.example.com/rest/git-lfs/admin/projects/TEAM/repos/svc/enabled"]
  /\ map fst (outputs (snd run)) = ["remoteUrl"; "repoContentsUrl"; "repoId"].
Proof.
  destruct (proj2
    (create_action_success Sample.imports (Sample.options Sample.integration)
       (Sample.createCtx Sample.goodUrl None (Some true)) (Sample.world Sample.fresh)
       _ _ _ eq_refl eq_refl) _ eq_refl eq_refl ltac:(cbn; lia)) as (H1 & H2 & H3).
  cbv zeta. rewrite H1, H2, H3. repeat split.
Defined.

(** ** What the push actions report *)

Lemma publishPush_run imp options ctx w rr remote w1 dir :
  (forall key, exists v, getOptionalString (config options) key = Ok v) ->
  resolveRepository imp options (PublishPush.repoUrl (input ctx))
    (PublishPush.token (input ctx)) w = (Ok rr, w) ->
  PublishPush.getRepositoryRemoteUrl (r_project rr) (r_repo rr) (r_authorization rr)
    (cfg_apiBaseUrl (r_integrationConfig rr)) w = (Ok remote, w1) ->
  getRepoSourceDirectory imp (workspacePath ctx) (PublishPush.sourcePath (input ctx))
  = Ok dir ->
  exists call,
    PublishPush.createPublishBitbucketServerPushAction imp options ctx w
    = bind (git call)
        (fun commitResult =>
           ctx_output "commitHash" (commitHashOf commitResult) ;;;
           ctx_output "remoteUrl" remote) w1.
Proof.
  intros Hc Hr Hu Hd.
  unfold PublishPush.createPublishBitbucketServerPushAction. cbv zeta.
  rewrite (bind_ok _ _ _ _ _ Hr).
  rewrite (bind_ok _ _ _ _ _ (orConfigured_value _ _ _ _ Hc)).
  rewrite (bind_ok _ _ _ _ _ (orConfigured_value _ _ _ _ Hc)).
  rewrite (bind_ok _ _ _ _ _ Hu).
  unfold liftR at 1. rewrite Hd. unfold bind at 1.
  rewrite (bind_ok _ _ _ _ _ (orConfigured_value _ _ _ _ Hc)).
  eexists. reflexivity.
Qed.

Lemma branchPush_run imp options ctx w rr info w1 dir :
  (forall key, exists v, getOptionalString (config options) key = Ok v) ->
  resolveRepository imp options (BranchPush.repoUrl (input ctx))
    (BranchPush.token (input ctx)) w = (Ok rr, w) ->
  Util.getRepoInfo (r_project rr) (r_repo rr) (r_authorization rr)
    (cfg_apiBaseUrl (r_integrationConfig rr)) w = (Ok info, w1) ->
  getRepoSourceDirectory imp (workspacePath ctx) (BranchPush.sourcePath (input ctx))
  = Ok dir ->
  exists call,
    BranchPush.createBitbucketServerBranchPushAction imp options ctx w
    = bind (git call)
        (fun commitResult =>
           ctx_output "commitHash" (commitHashOf commitResult) ;;;
           ctx_output "remoteUrl" (remoteUrl info)) w1.
Proof.
  intros Hc Hr Hu Hd.
  unfold BranchPush.createBitbucketServerBranchPushAction. cbv zeta.
  rewrite (bind_ok _ _ _ _ _ Hr).
  rewrite (bind_ok _ _ _ _ _ (orConfigured_value _ _ _ _ Hc)).
  rewrite (bind_ok _ _ _ _ _ (orConfigured_value _ _ _ _ Hc)).
  rewrite (bind_ok _ _ _ _ _ Hu).
  unfold liftR at 1. rewrite Hd. unfold bind at 1.
  rewrite (bind_ok _ _ _ _ _ (orConfigured_value _ _ _ _ Hc)).
  eexists. reflexivity.
Qed.

Lemma push_then_report call remote w1 :
  let run :=
    bind (git call)
      (fun commitResult =>
         ctx_output "commitHash" (commitHashOf commitResult) ;;;
         ctx_output "remoteUrl" remote) w1 in
  gitCalls (snd run) = (gitCalls w1 ++ [call])%list
  /\ requests (snd run) = requests w1
  /\ match gitRemote w1 (gitCalls w1) call with
     | Ok commit =>
         fst run = Ok tt
         /\ outputs (snd run)
            = (outputs w1
               ++ [("commitHash",
                    match commit with
                    | Some hash => VStr hash
                    | None => VUndef
                    end);
                   ("remoteUrl", remote)])%list
     | Throw e => fst run = Throw e /\ outputs (snd run) = outputs w1
     end.
Proof.
  unfold bind, git, ctx_output.
  destruct (gitRemote w1 (gitCalls w1) call) as [commit|e];
    cbn [fst snd gitCalls requests outputs]; [|repeat split].
  rewrite <- app_assoc. destruct commit; repeat split.
Qed.

(** X23.  On a run that reaches [initRepoAndPush], the push and branch
    push actions make that one git call and no further request.  If it
    throws, the action throws the same error and outputs nothing; if it
    returns, the action outputs the commit hash it returned ([undefined]
    when it returned none) and the looked-up remote URL. *)
Theorem push_results :
  forall (imp : Imports) (options : Options) (w : World),
    (forall key, exists v, getOptionalString (config options) key = Ok v) ->
    let reports (run : result unit * World) (w1 : World) (remote : jsval) :=
      exists call,
        gitCalls (snd run) = (gitCalls w1 ++ [call])%list
        /\ requests (snd run) = requests w1
        /\ match gitRemote w1 (gitCalls w1) call with
           | Ok commit =>
               fst run = Ok tt
               /\ outputs (snd run)
                  = (outputs w1
                     ++ [("commitHash",
                          match commit with
                          | Some hash => VStr hash
                          | None => VUndef
                          end);
                         ("remoteUrl", remote)])%list
           | Throw e => fst run = Throw e /\ outputs (snd run) = outputs w1
           end in
    (forall ctx rr remote w1 dir,
        resolveRepository imp options (PublishPush.repoUrl (input ctx))
          (PublishPush.token (input ctx)) w = (Ok rr, w) ->
        PublishPush.getRepositoryRemoteUrl (r_project rr) (r_repo rr)
          (r_authorization rr) (cfg_apiBaseUrl (r_integrationConfig rr)) w
        = (Ok remote, w1) ->
        getRepoSourceDirectory imp (workspacePath ctx)
          (PublishPush.sourcePath (input ctx)) = Ok dir ->
        reports (PublishPush.createPublishBitbucketServerPushAction imp options ctx w)
          w1 remote)
    /\ (forall ctx rr info w1 dir,
           resolveRepository imp options (BranchPush.repoUrl (input ctx))
             (BranchPush.token (input ctx)) w = (Ok rr, w) ->
           Util.getRepoInfo (r_project rr) (r_repo rr) (r_authorization rr)
             (cfg_apiBaseUrl (r_integrationConfig rr)) w = (Ok info, w1) ->
           getRepoSourceDirectory imp (workspacePath ctx)
             (BranchPush.sourcePath (input ctx)) = Ok dir ->
           reports (BranchPush.createBitbucketServerBranchPushAction imp options ctx w)
             w1 (remoteUrl info)).
Proof.
  intros imp options w Hc reports. split.
  - intros ctx rr remote w1 dir Hr Hu Hd.
    destruct (publishPush_run imp options ctx w rr remote w1 dir Hc Hr Hu Hd)
      as [call ->].
    exists call. apply push_then_report.
  - intros ctx rr info w1 dir Hr Hu Hd.
    destruct (branchPush_run imp options ctx w rr info w1 dir Hc Hr Hu Hd)
      as [call ->].
    exists call. apply push_then_report.
Qed.

Lemma push_results_witness :
  let failing :=
    BranchPush.createBitbucketServerBranchPushAction Sample.imports
      (Sample.options Sample.integration) (Sample.branchCtx Sample.goodUrl None)
      (Scenario.gitFailingAt 0 Sample.existing) in
  let quiet :=
    PublishPush.createPublishBitbucketServerPushAction Sample.imports
      (Sample.options Sample.integration) (Sample.pushCtx Sample.goodUrl None)
      {| server := Sample.bitbucket Sample.existing;
         gitRemote := fun _ _ => Ok None;
         requests := []; gitCalls := []; logged := []; outputs := [] |} in
  (fst failing = Throw (Error "git failed") /\ outputs (snd failing) = [])
  /\ (fst quiet = Ok tt
      /\ outputs (snd quiet)
         = [("commitHash", VUndef);
            ("remoteUrl", VStr "https://bitbucket.example.com/scm/team/svc.git")]).
Proof.
  cbv zeta. split.
  - destruct (proj2
      (push_results Sample.imports (Sample.options Sample.integration)
         (Scenario.gitFailingAt 0 Sample.existing)
         (fun key => ex_intro _ None eq_refl))
      (Sample.branchCtx Sample.goodUrl None) _ _ _ _ eq_refl eq_refl eq_refl)
      as (call & Hcalls & _ & Hres).
    injection Hcalls as <-. exact Hres.
  - destruct (proj1
      (push_results Sample.imports (Sample.options Sample.integration)
         {| server := Sample.bitbucket Sample.existing;
            gitRemote := fun _ _ => Ok None;
            requests := []; gitCalls := []; logged := []; outputs := [] |}
         (fun key => ex_intro _ None eq_refl))
      (Sample.pushCtx Sample.goodUrl None) _ _ _ _ eq_refl eq_refl eq_refl)
      as (call & _ & _ & Hres).
    exact Hres.
Defined.
